(** * AR7 (avalanche) peripheral model: hw/ar7.c

    A shallow embedding of the register-level device model of
    [src/hw/ar7.c] and the properties of its interrupt intake, interrupt
    controller, CPMAC, MDIO, VLYNQ and watchdog handlers.

    Conventions.
    - A [uint32_t] is a [Z] in [[0, 2^32)]; wrap-around is written out.
    - A [uint8_t] register bank ([cpmac0], [vlynq0], ...) is a [list Z] of
      bytes, a [uint32_t] bank ([intc], [mdio], [watchdog]) a [list Z] of
      words; both are read and updated by index as the C arrays are.
    - The host is little-endian, so [le32_to_cpu] and [cpu_to_le32] are the
      identity and the pointer casts of [reg_read]/[reg_write] are
      little-endian loads and stores.
    - [assert] aborts the emulator: handlers that can reach one return a
      [result]. *)

From stdpp Require Import gmap list.
From Stdlib Require Import ZArith Lia ZifyBool.

Open Scope Z_scope.

(** ** Outcome of a handler *)

Inductive result (A : Type) : Type :=
| Done (a : A)      (* the handler returns *)
| Abort             (* an [assert] failed *)
| OutOfFuel.        (* a guest-driven loop did not finish within the fuel *)

Arguments Done {A} a.
Arguments Abort {A}.
Arguments OutOfFuel {A}.

#[global] Instance result_ret : MRet result := fun A a => Done a.
#[global] Instance result_bind : MBind result := fun A B f r =>
  match r with
  | Done a => f a
  | Abort => Abort
  | OutOfFuel => OutOfFuel
  end.

(** [assert(c)] *)
Definition assert (c : bool) : result unit := if c then Done tt else Abort.

(** ** Constants of the source *)

Definition MAX_ETH_FRAME_SIZE : Z := 1514.

Definition BIT (n : Z) : Z := Z.shiftl 1 n.

Definition CB_SOF_BIT : Z := BIT 31.
Definition CB_EOF_BIT : Z := BIT 30.
Definition CB_OWNERSHIP_BIT : Z := BIT 29.
Definition CB_EOQ_BIT : Z := BIT 28.
Definition CB_SIZE_MASK : Z := 0x0000ffff.

Definition CPMAC_MAC_IN_VECTOR : Z := 0x0180.
Definition CPMAC_TX_INTMASK_SET : Z := 0x0178.
Definition CPMAC_MACADDRLO_0 : Z := 0x01b0.
Definition CPMAC_MACADDRMID : Z := 0x01d0.
Definition CPMAC_MACADDRHI : Z := 0x01d4.
Definition CPMAC_RXGOODFRAMES : Z := 0x0200.
Definition CPMAC_RXBROADCASTFRAMES : Z := 0x0204.
Definition CPMAC_RXMULTICASTFRAMES : Z := 0x0208.
Definition CPMAC_RXDMAOVERRUNS : Z := 0x028c.
Definition CPMAC_RXOVERSIZEDFRAMES : Z := 0x0218.
Definition CPMAC_RXUNDERSIZEDFRAMES : Z := 0x0220.
Definition CPMAC_TXGOODFRAMES : Z := 0x234.
Definition CPMAC_TX0_HDP : Z := 0x0600.
Definition CPMAC_TX7_HDP : Z := 0x061c.
Definition CPMAC_RX0_HDP : Z := 0x0620.
Definition CPMAC_RX7_HDP : Z := 0x063c.

Definition MAC_IN_VECTOR_RX_INT_OR : Z := BIT 17.
Definition MAC_IN_VECTOR_TX_INT_OR : Z := BIT 16.

Definition MDIO_USERACCESS_GO : Z := BIT 31.
Definition MDIO_USERACCESS_WRITE : Z := BIT 30.
Definition MDIO_USERACCESS_REGADR : Z := Z.shiftl 0x1F 21.
Definition MDIO_USERACCESS_PHYADR : Z := Z.shiftl 0x1F 16.
Definition MDIO_USERACCESS_DATA : Z := 0xFFFF.

Definition PHY_CONTROL_REG : Z := 0.
Definition PHY_RESET : Z := BIT 15.
Definition AUTO_NEGOTIATE_EN : Z := BIT 12.
Definition PHY_ISOLATE : Z := BIT 10.
Definition RENEGOTIATE : Z := BIT 9.
Definition NWAY_CAPABLE : Z := BIT 3.
Definition NWAY_FD100 : Z := BIT 8.
Definition NWAY_HD100 : Z := BIT 7.
Definition NWAY_FD10 : Z := BIT 6.
Definition NWAY_HD10 : Z := BIT 5.
Definition NWAY_AUTO : Z := BIT 0.

Definition VLYNQ_REVID : Z := 0x00.
Definition VLYNQ_CTRL : Z := 0x04.
Definition VLYNQ_STAT : Z := 0x08.

Definition KICK_VALUE : Z := 1.
Definition KICK_LOCK_1ST_STAGE : Z := 0x5555.
Definition KICK_LOCK_2ND_STAGE : Z := 0xAAAA.
Definition PRESCALE_LOCK_1ST_STAGE : Z := 0x5A5A.
Definition PRESCALE_LOCK_2ND_STAGE : Z := 0xA5A5.
Definition CHANGE_LOCK_1ST_STAGE : Z := 0x6666.
Definition CHANGE_LOCK_2ND_STAGE : Z := 0xBBBB.
Definition DISABLE_LOCK_1ST_STAGE : Z := 0x7777.
Definition DISABLE_LOCK_2ND_STAGE : Z := 0xCCCC.
Definition DISABLE_LOCK_3RD_STAGE : Z := 0xDDDD.

(** [cpmac_interrupt[] = { 27, 41 }] *)
Definition cpmac_interrupt : list Z := [27; 41].

(** ** Fixed-width arithmetic and little-endian words *)

Definition u32 (v : Z) : Z := v mod 2 ^ 32.
Definition u16 (v : Z) : Z := v mod 2 ^ 16.

(** The four bytes of a 32-bit word, least significant first. *)
Definition le32_bytes (v : Z) : list Z :=
  [v mod 256; (v / 2 ^ 8) mod 256; (v / 2 ^ 16) mod 256; (v / 2 ^ 24) mod 256].

Definition le32_of_bytes (b0 b1 b2 b3 : Z) : Z :=
  b0 + b1 * 2 ^ 8 + b2 * 2 ^ 16 + b3 * 2 ^ 24.

(** C array element [a[i]]; a bank is zero-initialised ([static avalanche_t av]). *)
Definition elt (a : list Z) (i : nat) : Z := default 0 (a !! i).

(** ** Register-bank primitives ([reg_read] ... [reg_set]) *)

(** [reg_read]: a misaligned offset is only logged, the load is done at
    the offset given. *)
Definition reg_read (reg : list Z) (addr : Z) : Z :=
  let a := Z.to_nat addr in
  le32_of_bytes (elt reg a) (elt reg (a + 1)) (elt reg (a + 2)) (elt reg (a + 3)).

(** The store [*(uint32_t * )(&reg[addr]) = cpu_to_le32(value)]. *)
Definition store32 (reg : list Z) (addr : Z) (value : Z) : list Z :=
  list_inserts (Z.to_nat addr) (le32_bytes value) reg.

Definition aligned (addr : Z) : bool := Z.land addr 3 =? 0.

Definition reg_write (reg : list Z) (addr : Z) (value : Z) : result (list Z) :=
  _ ← assert (aligned addr);
  mret (store32 reg addr value).

Definition reg_inc (reg : list Z) (addr : Z) : result (list Z) :=
  _ ← assert (aligned addr);
  reg_write reg addr (u32 (reg_read reg addr + 1)).

(** [*(uint32_t * )(&reg[addr]) &= cpu_to_le32(~value)] *)
Definition reg_clear (reg : list Z) (addr : Z) (value : Z) : result (list Z) :=
  _ ← assert (aligned addr);
  mret (store32 reg addr (Z.land (reg_read reg addr) (Z.lnot value))).

(** [*(uint32_t * )(&reg[addr]) |= cpu_to_le32(value)] *)
Definition reg_set (reg : list Z) (addr : Z) (value : Z) : result (list Z) :=
  _ ← assert (aligned addr);
  mret (store32 reg addr (Z.lor (reg_read reg addr) value)).

(** ** Device state *)

(** Modelled from the spec: the CPU facade ([CPUState], [cpu_interrupt] and
    [cpu_reset_interrupt] live outside [hw/ar7.c]).  [hw_irq0] is the
    hardware interrupt 0 request that [raise_hw_irq0()] sets and
    [clear_hw_irq0()] clears. *)
Record CPUState : Type := mkCPU {
  CP0_Cause : Z;
  hw_irq0 : bool
}.

Definition cpu_interrupt (c : CPUState) : CPUState :=
  mkCPU (CP0_Cause c) true.

Definition cpu_reset_interrupt (c : CPUState) : CPUState :=
  mkCPU (CP0_Cause c) false.

Record NICState : Type := mkNIC {
  phys : list Z;            (* mac address, 6 bytes *)
  vc : option nat           (* VLANClientState *, None for the null pointer *)
}.

(** The banks of [avalanche_t] that the handlers below read or write; the
    remaining members are plain storage that none of them touches. *)
Record avalanche_t : Type := mkAv {
  nic : list NICState;      (* NICState nic[2] *)
  intmask : list Z;         (* uint32_t intmask[2] *)
  cpmac0 : list Z;          (* uint8_t cpmac0[0x800] *)
  watchdog : list Z;        (* uint32_t watchdog[0x20] *)
  vlynq0 : list Z;          (* uint8_t vlynq0[0x100] *)
  vlynq1 : list Z;          (* uint8_t vlynq1[0x100] *)
  mdio : list Z;            (* uint32_t mdio[0x22] *)
  intc : list Z;            (* uint32_t intc[0xc0] *)
  cpmac1 : list Z           (* uint8_t cpmac1[0x800] *)
}.

(** The file-level statics of the MDIO emulation. *)
Record mdio_statics : Type := mkMdio {
  mdio_regaddr : Z;
  mdio_phyaddr : Z;
  mdio_data : Z;
  (* uint16_t mdio_useraccess_data[1][6]: its only row *)
  mdio_useraccess_data : list Z
}.

(** The device together with its collaborators: the CPU, guest physical
    memory (a byte per address, zero where absent), the packets handed to
    [qemu_send_packet] (CPMAC index and frame, oldest first) and the
    [(irq_num, level)] arguments of every [ar7_irq] call (oldest first).
    [irq_log] is a ghost field: no handler reads it, it only makes "line
    asserted" observable. *)
Record machine : Type := mkMachine {
  av : avalanche_t;
  cpu_env : CPUState;
  phy : mdio_statics;
  ram : gmap Z Z;
  net_out : list (nat * list Z);
  irq_log : list (Z * Z)
}.

Definition set_nic (x : list NICState) (a : avalanche_t) : avalanche_t :=
  mkAv x (intmask a) (cpmac0 a) (watchdog a) (vlynq0 a) (vlynq1 a) (mdio a) (intc a) (cpmac1 a).
Definition set_intmask (x : list Z) (a : avalanche_t) : avalanche_t :=
  mkAv (nic a) x (cpmac0 a) (watchdog a) (vlynq0 a) (vlynq1 a) (mdio a) (intc a) (cpmac1 a).
Definition set_cpmac0 (x : list Z) (a : avalanche_t) : avalanche_t :=
  mkAv (nic a) (intmask a) x (watchdog a) (vlynq0 a) (vlynq1 a) (mdio a) (intc a) (cpmac1 a).
Definition set_watchdog (x : list Z) (a : avalanche_t) : avalanche_t :=
  mkAv (nic a) (intmask a) (cpmac0 a) x (vlynq0 a) (vlynq1 a) (mdio a) (intc a) (cpmac1 a).
Definition set_vlynq0 (x : list Z) (a : avalanche_t) : avalanche_t :=
  mkAv (nic a) (intmask a) (cpmac0 a) (watchdog a) x (vlynq1 a) (mdio a) (intc a) (cpmac1 a).
Definition set_vlynq1 (x : list Z) (a : avalanche_t) : avalanche_t :=
  mkAv (nic a) (intmask a) (cpmac0 a) (watchdog a) (vlynq0 a) x (mdio a) (intc a) (cpmac1 a).
Definition set_mdio (x : list Z) (a : avalanche_t) : avalanche_t :=
  mkAv (nic a) (intmask a) (cpmac0 a) (watchdog a) (vlynq0 a) (vlynq1 a) x (intc a) (cpmac1 a).
Definition set_intc (x : list Z) (a : avalanche_t) : avalanche_t :=
  mkAv (nic a) (intmask a) (cpmac0 a) (watchdog a) (vlynq0 a) (vlynq1 a) (mdio a) x (cpmac1 a).
Definition set_cpmac1 (x : list Z) (a : avalanche_t) : avalanche_t :=
  mkAv (nic a) (intmask a) (cpmac0 a) (watchdog a) (vlynq0 a) (vlynq1 a) (mdio a) (intc a) x.

Definition with_av (x : avalanche_t) (m : machine) : machine :=
  mkMachine x (cpu_env m) (phy m) (ram m) (net_out m) (irq_log m).
Definition with_cpu (x : CPUState) (m : machine) : machine :=
  mkMachine (av m) x (phy m) (ram m) (net_out m) (irq_log m).
Definition with_phy (x : mdio_statics) (m : machine) : machine :=
  mkMachine (av m) (cpu_env m) x (ram m) (net_out m) (irq_log m).
Definition with_ram (x : gmap Z Z) (m : machine) : machine :=
  mkMachine (av m) (cpu_env m) (phy m) x (net_out m) (irq_log m).
Definition with_net_out (x : list (nat * list Z)) (m : machine) : machine :=
  mkMachine (av m) (cpu_env m) (phy m) (ram m) x (irq_log m).
Definition with_irq_log (x : list (Z * Z)) (m : machine) : machine :=
  mkMachine (av m) (cpu_env m) (phy m) (ram m) (net_out m) x.

(** The static initialiser of [av] and of [mdio_useraccess_data]. *)
Definition av_init : avalanche_t := {|
  nic := replicate 2 (mkNIC (replicate 6 0) None);
  intmask := replicate 2 0;
  cpmac0 := replicate 0x800 0;
  watchdog := replicate 0x20 0;
  vlynq0 := replicate 0x100 0;
  vlynq1 := replicate 0x100 0;
  mdio := [0x00070101; 0; 0xffffffff] ++ replicate (0x22 - 3) 0;
  intc := replicate 0xc0 0;
  cpmac1 := replicate 0x800 0
|}.

Definition phy_init : mdio_statics := {|
  mdio_regaddr := 0;
  mdio_phyaddr := 0;
  mdio_data := 0;
  mdio_useraccess_data :=
    [AUTO_NEGOTIATE_EN; 0x7801 + NWAY_CAPABLE; 0; 0;
     NWAY_FD100 + NWAY_HD100 + NWAY_FD10 + NWAY_HD10 + NWAY_AUTO; NWAY_AUTO]
|}.

Definition machine_init : machine := {|
  av := av_init;
  cpu_env := mkCPU 0 false;
  phy := phy_init;
  ram := ∅;
  net_out := [];
  irq_log := []
|}.

Definition is_byte (b : Z) : Prop := 0 <= b < 256.

(** Array sizes of [avalanche_t], and the range of a [uint8_t]. *)
Record av_wf (a : avalanche_t) : Prop := {
  sz_nic : length (nic a) = 2%nat;
  sz_intmask : length (intmask a) = 2%nat;
  sz_cpmac0 : length (cpmac0 a) = 0x800%nat;
  sz_watchdog : length (watchdog a) = 0x20%nat;
  sz_vlynq0 : length (vlynq0 a) = 0x100%nat;
  sz_vlynq1 : length (vlynq1 a) = 0x100%nat;
  sz_mdio : length (mdio a) = 0x22%nat;
  sz_intc : length (intc a) = 0xc0%nat;
  sz_cpmac1 : length (cpmac1 a) = 0x800%nat;
  by_cpmac0 : Forall is_byte (cpmac0 a);
  by_cpmac1 : Forall is_byte (cpmac1 a);
  by_vlynq0 : Forall is_byte (vlynq0 a);
  by_vlynq1 : Forall is_byte (vlynq1 a)
}.

(** ** Interrupt emulation: [ar7_irq] *)

Definition ar7_irq (irq_num level : Z) (m : machine) : machine :=
  let m := with_irq_log (irq_log m ++ [(irq_num, level)]) m in
  if (irq_num =? 15) || (irq_num =? 16) || (irq_num =? 27) || (irq_num =? 41) then
    if negb (level =? 0) then
      let channel := irq_num - 8 in
      if channel <? 32 then
        if negb (Z.land (elt (intmask (av m)) 0) (Z.shiftl 1 channel) =? 0) then
          let m := with_av (set_intc
                     (<[16%nat := Z.lor (Z.shiftl (irq_num - 8) 16) channel]> (intc (av m)))
                     (av m)) m in
          (* use hardware interrupt 0 *)
          let m := with_cpu (mkCPU (Z.lor (CP0_Cause (cpu_env m)) 0x00000400)
                                   (hw_irq0 (cpu_env m))) m in
          with_cpu (cpu_interrupt (cpu_env m)) m
        else m
      else m
    else
      let m := with_av (set_intc (<[16%nat := 0]> (intc (av m))) (av m)) m in
      let m := with_cpu (mkCPU (Z.land (CP0_Cause (cpu_env m)) (Z.lnot 0x00000400))
                               (hw_irq0 (cpu_env m))) m in
      with_cpu (cpu_reset_interrupt (cpu_env m)) m
  else m.

(** ** Interrupt controller: [ar7_intc_read], [ar7_intc_write] *)

Definition ar7_intc_read (intc : list Z) (index : nat) : Z := elt intc index.

Definition ar7_intc_write (index : nat) (val : Z) (m : machine) : machine :=
  let subindex := (index mod 2)%nat in
  let m := with_av (set_intc (<[index := val]> (intc (av m))) (av m)) m in
  if (index =? 8)%nat || (index =? 9)%nat then
    with_av (set_intmask
      (<[subindex := Z.lor (elt (intmask (av m)) subindex) val]> (intmask (av m))) (av m)) m
  else if (index =? 12)%nat || (index =? 13)%nat then
    with_av (set_intmask
      (<[subindex := Z.land (elt (intmask (av m)) subindex) (Z.lnot val)]> (intmask (av m)))
      (av m)) m
  else m.

(** ** Guest physical memory *)

Definition ram_get (r : gmap Z Z) (a : Z) : Z := default 0 (r !! a).

(** Modelled from the spec: [phys_read(addr, buf, n)] of the guest RAM
    interface ([cpu_physical_memory_read] lives outside [hw/ar7.c]); a
    physical address is 32 bits wide. *)
Definition cpu_physical_memory_read (r : gmap Z Z) (addr : Z) (len : Z) : list Z :=
  map (fun i => ram_get r (u32 (addr + Z.of_nat i))) (seq 0 (Z.to_nat len)).

(** Modelled from the spec: [phys_write(addr, buf, n)] of the guest RAM
    interface; [buf] holds the [n] bytes written. *)
Fixpoint cpu_physical_memory_write (r : gmap Z Z) (addr : Z) (buf : list Z) : gmap Z Z :=
  match buf with
  | [] => r
  | b :: buf' => cpu_physical_memory_write (<[u32 addr := b]> r) (addr + 1) buf'
  end.

(** Modelled from the spec: [stl_phys], a 32-bit store to guest RAM of the
    little-endian target. *)
Definition stl_phys (r : gmap Z Z) (addr : Z) (val : Z) : gmap Z Z :=
  cpu_physical_memory_write r addr (le32_bytes val).

(** [cpphy_tcb_t]; [cpphy_rcb_t] has the same four members. *)
Record cpphy_tcb_t : Type := mkTcb {
  tcb_next : Z;
  tcb_buff : Z;
  tcb_length : Z;
  tcb_mode : Z
}.

(** [cpu_physical_memory_read(val, (uint8_t * ) &tcb, sizeof(tcb))] followed
    by [le32_to_cpu] of the members. *)
Definition read_cb (r : gmap Z Z) (val : Z) : cpphy_tcb_t :=
  let b := cpu_physical_memory_read r val 16 in
  let w (i : nat) := le32_of_bytes (elt b i) (elt b (i + 1)) (elt b (i + 2)) (elt b (i + 3)) in
  mkTcb (w 0%nat) (w 4%nat) (w 8%nat) (w 12%nat).

Definition cb_bytes (cb : cpphy_tcb_t) : list Z :=
  le32_bytes (tcb_next cb) ++ le32_bytes (tcb_buff cb) ++
  le32_bytes (tcb_length cb) ++ le32_bytes (tcb_mode cb).

(** ** CPMAC emulation *)

(** The bank a [uint8_t *cpmac] argument points to: [av.cpmac0] for index 0,
    [av.cpmac1] otherwise. *)
Definition cpmac_of (index : nat) (m : machine) : list Z :=
  match index with
  | O => cpmac0 (av m)
  | _ => cpmac1 (av m)
  end.

Definition put_cpmac (index : nat) (cpmac : list Z) (m : machine) : machine :=
  match index with
  | O => with_av (set_cpmac0 cpmac (av m)) m
  | _ => with_av (set_cpmac1 cpmac (av m)) m
  end.

Definition ar7_cpmac_read (index : nat) (offset : Z) (m : machine) : result (Z * machine) :=
  let cpmac := cpmac_of index m in
  let val := reg_read cpmac offset in
  if offset =? CPMAC_MAC_IN_VECTOR then
    cpmac ← reg_write cpmac CPMAC_MAC_IN_VECTOR 0;
    mret (val, put_cpmac index cpmac m)
  else mret (val, m).

(** [while (val != 1) { channel++; val /= 2; }] *)
Fixpoint tx_int_channel (fuel : nat) (val channel : Z) : result Z :=
  match fuel with
  | O => OutOfFuel
  | S fuel =>
    if negb (val =? 1) then tx_int_channel fuel (val / 2) (channel + 1)
    else mret channel
  end.

(** The block at [sendloop:]: one descriptor is consumed and, while the
    mode has EOQ set, the next one is appended to the same [buffer]. *)
Fixpoint sendloop (fuel : nat) (r : gmap Z Z) (val length : Z) (buffer : list Z)
  : result (gmap Z Z * cpphy_tcb_t * Z * list Z) :=
  match fuel with
  | O => OutOfFuel
  | S fuel =>
    let tcb := read_cb r val in
    let addr := tcb_buff tcb in
    let curlen := tcb_length tcb in
    let mode := tcb_mode tcb in
    _ ← assert (u32 (length + curlen) <=? MAX_ETH_FRAME_SIZE);
    let buffer := take (Z.to_nat length) buffer ++ cpu_physical_memory_read r addr curlen in
    let length := u32 (length + curlen) in
    _ ← assert (Z.land mode CB_SIZE_MASK =? curlen);
    _ ← assert (negb (Z.land mode CB_SOF_BIT =? 0));
    _ ← assert (negb (Z.land mode CB_EOF_BIT =? 0));
    _ ← assert (negb (Z.land mode CB_OWNERSHIP_BIT =? 0));
    let mode := Z.land mode (Z.lnot CB_OWNERSHIP_BIT) in
    let r := stl_phys r (u32 (val + 12)) mode in
    if negb (Z.land mode CB_EOQ_BIT =? 0) then
      sendloop fuel r (tcb_next tcb) length buffer
    else mret (r, tcb, length, buffer)
  end.

(** [while (val != 0) { ... }] of the transmit branch. *)
Fixpoint tx_while (fuel : nat) (index : nat) (channel : Z) (val : Z) (m : machine)
  : result machine :=
  match fuel with
  | O => OutOfFuel
  | S fuel =>
    if negb (val =? 0) then
      '(r, tcb, length, buffer) ← sendloop (S fuel) (ram m) val 0 [];
      let m := with_ram r m in
      m ← (if bool_decide (is_Some (nic (av m) !! index ≫= vc)) then
             let m := with_net_out
                        (net_out m ++ [(index, take (Z.to_nat length) buffer)]) m in
             cpmac ← reg_inc (cpmac_of index m) CPMAC_TXGOODFRAMES;
             cpmac ← reg_set cpmac CPMAC_MAC_IN_VECTOR (MAC_IN_VECTOR_TX_INT_OR + channel);
             mret (ar7_irq (elt cpmac_interrupt index) 1 (put_cpmac index cpmac m))
           else mret m);
      tx_while fuel index channel (tcb_next tcb) m
    else mret m
  end.

(** [phys[5] = cpmac[CPMAC_MACADDRLO_0]; ... phys[0] = cpmac[CPMAC_MACADDRHI + 0]] *)
Definition set_mac (cpmac : list Z) (n : NICState) : NICState :=
  let b (o : Z) := elt cpmac (Z.to_nat o) in
  mkNIC (<[0%nat := b (CPMAC_MACADDRHI + 0)]>
         (<[1%nat := b (CPMAC_MACADDRHI + 1)]>
          (<[2%nat := b (CPMAC_MACADDRHI + 2)]>
           (<[3%nat := b (CPMAC_MACADDRHI + 3)]>
            (<[4%nat := b CPMAC_MACADDRMID]>
             (<[5%nat := b CPMAC_MACADDRLO_0]> (phys n)))))))
        (vc n).

(** [fuel] bounds the number of descriptors the transmit branch may walk. *)
Definition ar7_cpmac_write (fuel : nat) (index : nat) (offset val : Z) (m : machine)
  : result machine :=
  _ ← assert (Z.land offset 3 =? 0);
  cpmac ← reg_write (cpmac_of index m) offset val;
  let m := put_cpmac index cpmac m in
  if offset =? 0x100 then mret m
  else if offset =? 0x10c then mret m
  else if offset =? CPMAC_TX_INTMASK_SET then
    (* val 2^i should set tx_int i *)
    if negb (val =? 0) then
      channel ← tx_int_channel 32 val 0;
      cpmac ← reg_set cpmac CPMAC_MAC_IN_VECTOR (MAC_IN_VECTOR_TX_INT_OR + channel);
      mret (ar7_irq (elt cpmac_interrupt index) 1 (put_cpmac index cpmac m))
    else mret m
  else if offset =? CPMAC_MACADDRHI then
    mret (with_av (set_nic (alter (set_mac cpmac) index (nic (av m))) (av m)) m)
  else if (CPMAC_RXGOODFRAMES <=? offset) && (offset <=? CPMAC_RXDMAOVERRUNS) then
    if val =? 0xffffffff then
      cpmac ← reg_write cpmac offset 0;
      mret (put_cpmac index cpmac m)
    else mret m
  else if (CPMAC_TX0_HDP <=? offset) && (offset <=? CPMAC_TX7_HDP) then
    let channel := (offset - CPMAC_TX0_HDP) / 4 in
    tx_while fuel index channel val m
  else if (CPMAC_RX0_HDP <=? offset) && (offset <=? CPMAC_RX7_HDP) then
    (* the descriptor is read and logged only *)
    mret m
  else mret m.

(** In the receive path the pointer [const uint8_t *buf] is the memory it
    designates, [buf i] being the byte [buf[i]], and [size] is the [int]
    passed with it: the frame is the first [size] bytes at [buf].  The
    source applies its address tests to the first six bytes at [buf]
    whatever [size] is, so they are tests on the memory, not on the frame. *)

(** [static const uint8_t broadcast_macaddr[6]] *)
Definition broadcast_macaddr : list Z := [0xff; 0xff; 0xff; 0xff; 0xff; 0xff].

(** [memcmp(buf + i, other, n) == 0] of the C library, [n] being the number
    of bytes of [other]. *)
Fixpoint memcmp_eq (buf : nat -> Z) (i : nat) (other : list Z) : bool :=
  match other with
  | [] => true
  | b :: other => (buf i =? b) && memcmp_eq buf (S i) other
  end.

(** [!memcmp(buf, broadcast_macaddr, 6)] *)
Definition is_broadcast (buf : nat -> Z) : bool :=
  memcmp_eq buf 0 broadcast_macaddr.

(** [buf[0] & 0x01] *)
Definition is_multicast (buf : nat -> Z) : bool :=
  negb (Z.land (buf 0%nat) 0x01 =? 0).

(** The [size] bytes that [cpu_physical_memory_write(addr, buf, size)]
    copies. *)
Definition bytes_of (buf : nat -> Z) (size : Z) : list Z :=
  map buf (seq 0 (Z.to_nat size)).

(** [ar7_nic_receive(opaque, buf, size)].  The comparison of [buf] with
    [av.nic[index].phys] only selects a log line. *)
Definition ar7_nic_receive (index : nat) (buf : nat -> Z) (size : Z) (m : machine)
  : result machine :=
  let cpmac := cpmac_of index m in
  cpmac ← (if is_broadcast buf then reg_inc cpmac CPMAC_RXBROADCASTFRAMES
           else if is_multicast buf then reg_inc cpmac CPMAC_RXMULTICASTFRAMES
           else mret cpmac);
  cpmac ← (if size <? 64 then reg_inc cpmac CPMAC_RXUNDERSIZEDFRAMES
           else if MAX_ETH_FRAME_SIZE <? size then reg_inc cpmac CPMAC_RXOVERSIZEDFRAMES
           else mret cpmac);
  cpmac ← reg_inc cpmac CPMAC_RXGOODFRAMES;
  let m := put_cpmac index cpmac m in
  let val := reg_read cpmac CPMAC_RX0_HDP in
  if val =? 0 then mret m
  else
    let rcb := read_cb (ram m) val in
    let addr := tcb_buff rcb in
    let mode := tcb_mode rcb in
    if negb (Z.land mode CB_OWNERSHIP_BIT =? 0) then
      let mode := Z.land mode (Z.lnot CB_OWNERSHIP_BIT) in
      let mode := Z.lor mode (Z.land size CB_SIZE_MASK) in
      let mode := Z.lor mode (Z.lor CB_SOF_BIT CB_EOF_BIT) in
      let mode := if tcb_next rcb =? 0 then Z.lor mode CB_EOQ_BIT else mode in
      let rcb := mkTcb (tcb_next rcb) (tcb_buff rcb) (u32 size) mode in
      let r := cpu_physical_memory_write (ram m) addr (bytes_of buf size) in
      let r := cpu_physical_memory_write r val (cb_bytes rcb) in
      let m := with_ram r m in
      cpmac ← reg_write cpmac CPMAC_RX0_HDP (tcb_next rcb);
      cpmac ← reg_set cpmac CPMAC_MAC_IN_VECTOR (MAC_IN_VECTOR_RX_INT_OR + 0);
      mret (ar7_irq (elt cpmac_interrupt index) 1 (put_cpmac index cpmac m))
    else mret m.

Definition ar7_nic_can_receive (index : nat) (m : machine) : bool :=
  negb (reg_read (cpmac_of index m) CPMAC_RX0_HDP =? 0).

(** ** MDIO emulation: [ar7_mdio_read], [ar7_mdio_write] *)

Definition ar7_mdio_read (index : nat) (m : machine) : Z * machine :=
  let val := elt (mdio (av m)) index in
  if (index =? 0x20)%nat then
    let p := phy m in
    (val, with_phy (mkMdio (mdio_regaddr p) (mdio_phyaddr p)
                           (Z.land val MDIO_USERACCESS_DATA)
                           (mdio_useraccess_data p)) m)
  else (val, m).

(** The tail of the [GO] branch once [mdio_phyaddr == 31 && mdio_regaddr < 6]
    holds: [data] is [mdio_useraccess_data[0]], [mdio] is [av.mdio]; the
    result is the new table row, the new bank and the new [val]. *)
Definition mdio_user_access (write regaddr val : Z) (data mdio : list Z)
  : list Z * list Z * Z :=
  let reg := Z.to_nat regaddr in
  if negb (write =? 0) then
    (<[reg := u16 val]> data, mdio, val)
  else
    let val := elt data reg in
    if (regaddr =? PHY_CONTROL_REG) && negb (Z.land val PHY_RESET =? 0) then
      (<[reg := u16 (Z.lor (Z.land val (Z.lnot PHY_RESET)) AUTO_NEGOTIATE_EN)]> data,
       mdio, val)
    else if (regaddr =? PHY_CONTROL_REG) && negb (Z.land val RENEGOTIATE =? 0) then
      let val := Z.land val (Z.lnot RENEGOTIATE) in
      let data := <[reg := u16 val]> data in
      let data := <[1%nat := 0x782d]> data in
      let data := <[5%nat := u16 (Z.lor (Z.lor (elt data 4) PHY_ISOLATE) PHY_RESET)]> data in
      (data, <[3%nat := 0x80000000]> mdio, val)
    else (data, mdio, val).

Definition ar7_mdio_write (index : nat) (val : Z) (m : machine) : machine :=
  let '(p, bank, val) :=
    if (index =? 0)%nat then (phy m, mdio (av m), val)
    else if (index =? 1)%nat then (phy m, mdio (av m), val)
    else if (index =? 0x20)%nat && negb (Z.land val MDIO_USERACCESS_GO =? 0) then
      let write := Z.shiftr (Z.land val MDIO_USERACCESS_WRITE) 30 in
      let regaddr := Z.shiftr (Z.land val MDIO_USERACCESS_REGADR) 21 in
      let phyaddr := Z.shiftr (Z.land val MDIO_USERACCESS_PHYADR) 16 in
      let data := Z.land val MDIO_USERACCESS_DATA in
      let val := Z.land val MDIO_USERACCESS_DATA in
      if (phyaddr =? 31) && (regaddr <? 6) then
        let '(row, bank, val) :=
          mdio_user_access write regaddr val (mdio_useraccess_data (phy m)) (mdio (av m)) in
        (mkMdio regaddr 0 data row, bank, val)
      else (mkMdio regaddr phyaddr data (mdio_useraccess_data (phy m)), mdio (av m), val)
    else (phy m, mdio (av m), val) in
  with_av (set_mdio (<[index := val]> bank) (av m)) (with_phy p m).

(** ** VLYNQ emulation: [ar7_vlynq_read], [ar7_vlynq_write] *)

Definition vlynq_of (index : nat) (m : machine) : list Z :=
  match index with
  | O => vlynq0 (av m)
  | _ => vlynq1 (av m)
  end.

Definition put_vlynq (index : nat) (vlynq : list Z) (m : machine) : machine :=
  match index with
  | O => with_av (set_vlynq0 vlynq (av m)) m
  | _ => with_av (set_vlynq1 vlynq (av m)) m
  end.

Definition ar7_vlynq_read (vlynq : list Z) (offset : Z) : Z :=
  let val := reg_read vlynq offset in
  if offset =? VLYNQ_REVID then 0x00010206 else val.

Definition ar7_vlynq_write (index : nat) (offset val : Z) (m : machine) : result machine :=
  let vlynq := vlynq_of index m in
  vlynq ← (if offset =? VLYNQ_REVID then mret vlynq
           else if offset =? VLYNQ_CTRL then
             if Z.land val (BIT 0) =? 0 then
               (* Normal operation. Emulation sets link bit in status register. *)
               reg_set vlynq VLYNQ_STAT (BIT 0)
             else
               (* Reset. *)
               reg_clear vlynq VLYNQ_STAT (BIT 0)
           else mret vlynq);
  vlynq ← reg_write vlynq offset val;
  mret (put_vlynq index vlynq m).

(** ** Watchdog timer emulation: [wd_val], [ar7_wdt_write] *)

(** Word indices of the members of [wdtimer_t] within [av.watchdog]. *)
Definition kick_lock : nat := 0.
Definition kick : nat := 1.
Definition change_lock : nat := 2.
Definition change : nat := 3.
Definition disable_lock : nat := 4.
Definition disable : nat := 5.
Definition prescale_lock : nat := 6.
Definition prescale : nat := 7.

(** [static uint16_t wd_val(uint16_t val, uint16_t bits)] *)
Definition wd_val (val bits : Z) : Z :=
  u16 (Z.lor (Z.land (u16 val) (Z.lnot 0x3)) (u16 bits)).

Definition wdt_store (field : nat) (v : Z) (m : machine) : machine :=
  with_av (set_watchdog (<[field := v]> (watchdog (av m))) (av m)) m.

(** [offsetof(wdtimer_t, f)] is four times the word index of [f].  The
    branches of the value registers only log ([UNEXPECTED], [MISSING]). *)
Definition ar7_wdt_write (offset val : Z) (m : machine) : machine :=
  let wdt := watchdog (av m) in
  if offset =? 4 * Z.of_nat kick_lock then
    if val =? KICK_LOCK_1ST_STAGE then wdt_store kick_lock (wd_val val 1) m
    else if val =? KICK_LOCK_2ND_STAGE then wdt_store kick_lock (wd_val val 3) m
    else m
  else if offset =? 4 * Z.of_nat kick then
    if negb (elt wdt kick_lock =? wd_val KICK_LOCK_2ND_STAGE 3) then m
    else if val =? KICK_VALUE then m
    else m
  else if offset =? 4 * Z.of_nat change_lock then
    if val =? CHANGE_LOCK_1ST_STAGE then wdt_store change_lock (wd_val val 1) m
    else if val =? CHANGE_LOCK_2ND_STAGE then wdt_store change_lock (wd_val val 3) m
    else m
  else if offset =? 4 * Z.of_nat change then
    if negb (elt wdt change_lock =? wd_val CHANGE_LOCK_2ND_STAGE 3) then m
    else m
  else if offset =? 4 * Z.of_nat disable_lock then
    if val =? DISABLE_LOCK_1ST_STAGE then wdt_store disable_lock (wd_val val 1) m
    else if val =? DISABLE_LOCK_2ND_STAGE then wdt_store disable_lock (wd_val val 2) m
    else if val =? DISABLE_LOCK_3RD_STAGE then wdt_store disable_lock (wd_val val 3) m
    else m
  else if offset =? 4 * Z.of_nat disable then
    if negb (elt wdt disable_lock =? wd_val DISABLE_LOCK_3RD_STAGE 3) then m
    else m
  else if offset =? 4 * Z.of_nat prescale_lock then
    if val =? PRESCALE_LOCK_1ST_STAGE then wdt_store prescale_lock (wd_val val 1) m
    else if val =? PRESCALE_LOCK_2ND_STAGE then wdt_store prescale_lock (wd_val val 3) m
    else m
  else if offset =? 4 * Z.of_nat prescale then
    if negb (elt wdt prescale_lock =? wd_val PRESCALE_LOCK_2ND_STAGE 3) then m
    else m
  else m.

(** [VALUE(AVALANCHE_WATCHDOG_BASE, av.watchdog)]: what a 32-bit read of the
    watchdog bank at byte [offset] returns. *)
Definition wdt_read (offset : Z) (m : machine) : Z :=
  elt (watchdog (av m)) (Z.to_nat (offset / 4)).

(** * Frame check sequence: [make_crc_table], [update_crc], [fcs] *)

(** [static uint32_t crc_table[256]] and [static int crc_table_computed]. *)
Record crc_state := mkCrc {
  crc_table : list Z;
  crc_table_computed : bool
}.

Definition crc_state_init : crc_state := mkCrc (replicate 256 0) false.

(** The body of [for (k = 0; k < 8; k++)]. *)
Definition crc_shift (c : Z) : Z :=
  if negb (Z.land c 1 =? 0) then Z.lxor 0xedb88320 (Z.shiftr c 1) else Z.shiftr c 1.

Fixpoint crc_shifts (k : nat) (c : Z) : Z :=
  match k with
  | O => c
  | S k => crc_shifts k (crc_shift c)
  end.

(** [for (n = ...; n < 256; n++)] with [todo] iterations left. *)
Fixpoint make_crc_table_from (todo n : nat) (table : list Z) : list Z :=
  match todo with
  | O => table
  | S todo =>
    let c := crc_shifts 8 (Z.of_nat n) in
    make_crc_table_from todo (S n) (<[n := c]> table)
  end.

Definition make_crc_table (st : crc_state) : crc_state :=
  mkCrc (make_crc_table_from 256 0 (crc_table st)) true.

(** [for (n = 0; n < len; n++) c = crc_table[(c ^ buf[n]) & 0xff] ^ (c >> 8)] *)
Fixpoint update_crc_loop (table : list Z) (c : Z) (buf : list Z) : Z :=
  match buf with
  | [] => c
  | b :: buf =>
    update_crc_loop table
      (Z.lxor (elt table (Z.to_nat (Z.land (Z.lxor c b) 0xff))) (Z.shiftr c 8)) buf
  end.

Definition update_crc (crc : Z) (buf : list Z) (st : crc_state) : Z * crc_state :=
  let st := if negb (crc_table_computed st) then make_crc_table st else st in
  (update_crc_loop (crc_table st) crc buf, st).

Definition fcs (buf : list Z) (st : crc_state) : Z * crc_state :=
  let '(c, st) := update_crc 0xffffffff buf st in
  (Z.lxor c 0xffffffff, st).

(** * The memory-mapped bus: [ar7_io_memread], [ar7_io_memwrite], [io_read], [io_write] *)

Definition AVALANCHE_ADSLSSYS_MEM_BASE : Z := 0x01000000.
Definition AVALANCHE_BBIF_BASE : Z := 0x02000000.
Definition AVALANCHE_ATM_SAR_BASE : Z := 0x03000000.
Definition AVALANCHE_USB_MEM_BASE : Z := 0x03400000.
Definition AVALANCHE_VLYNQ0_MEM_MAP_BASE : Z := 0x04000000.
Definition AVALANCHE_CPMAC0_BASE : Z := 0x08610000.
Definition AVALANCHE_EMIF_BASE : Z := 0x08610800.
Definition AVALANCHE_GPIO_BASE : Z := 0x08610900.
Definition AVALANCHE_CLOCK_BASE : Z := 0x08610a00.
Definition AVALANCHE_WATCHDOG_BASE : Z := 0x08610b00.
Definition AVALANCHE_TIMER0_BASE : Z := 0x08610c00.
Definition AVALANCHE_TIMER1_BASE : Z := 0x08610d00.
Definition AVALANCHE_UART0_BASE : Z := 0x08610e00.
Definition AVALANCHE_UART1_BASE : Z := 0x08610f00.
Definition AVALANCHE_USB_SLAVE_BASE : Z := 0x08611200.
Definition AVALANCHE_RESET_BASE : Z := 0x08611600.
Definition AVALANCHE_VLYNQ0_BASE : Z := 0x08611800.
Definition AVALANCHE_DCL_BASE : Z := 0x08611a00.
Definition AVALANCHE_VLYNQ1_BASE : Z := 0x08611c00.
Definition AVALANCHE_MDIO_BASE : Z := 0x08611e00.
Definition OHIO_WDT_BASE : Z := 0x08611f00.
Definition AVALANCHE_INTC_BASE : Z := 0x08612400.
Definition AVALANCHE_CPMAC1_BASE : Z := 0x08612800.

(** [sizeof] of the members of [avalanche_t], in bytes. *)
Definition sizeof_adsl : Z := 4 * 0x8000.
Definition sizeof_bbif : Z := 4 * 1.
Definition sizeof_atmsar : Z := 4 * 0x2400.
Definition sizeof_usbslave : Z := 4 * 0x800.
Definition sizeof_vlynq0mem : Z := 4 * 0x10800.
Definition sizeof_cpmac : Z := 0x800.
Definition sizeof_emif : Z := 4 * 0x40.
Definition sizeof_gpio : Z := 4 * 8.
Definition sizeof_clock_control : Z := 4 * 0x40.
Definition sizeof_watchdog : Z := 4 * 0x20.
Definition sizeof_timer0 : Z := 4 * 2.
Definition sizeof_uart : Z := 4 * 8.
Definition sizeof_usb : Z := 4 * 20.
Definition sizeof_reset_control : Z := 4 * 3.
Definition sizeof_vlynq : Z := 0x100.
Definition sizeof_device_config_latch : Z := 4 * 5.
Definition sizeof_mdio : Z := 4 * 0x22.
Definition sizeof_wdt : Z := 4 * 8.
Definition sizeof_intc : Z := 4 * 0xc0.

(** A call of [cpu_inb] or [cpu_outb] on an I/O port. *)
Inductive port_event : Type :=
| PortIn (port : Z)
| PortOut (port val : Z).

(** The device with the banks of [avalanche_t] that only the bus functions
    touch, the accesses made to I/O ports, and the number of calls of
    [qemu_system_reset_request]. *)
Record board : Type := mkBoard {
  core : machine;
  adsl : list Z;
  bbif : list Z;
  atmsar : list Z;
  usbslave : list Z;
  vlynq0mem : list Z;
  emif : list Z;
  gpio : list Z;
  clock_control : list Z;
  timer0 : list Z;
  usb : list Z;
  reset_control : list Z;
  device_config_latch : list Z;
  wdt : list Z;
  ports : list port_event;
  reset_requests : nat
}.

Definition with_core (x : machine) (b : board) : board :=
  mkBoard x (adsl b) (bbif b) (atmsar b) (usbslave b) (vlynq0mem b) (emif b) (gpio b)
    (clock_control b) (timer0 b) (usb b) (reset_control b) (device_config_latch b) (wdt b)
    (ports b) (reset_requests b).
Definition with_adsl (x : list Z) (b : board) : board :=
  mkBoard (core b) x (bbif b) (atmsar b) (usbslave b) (vlynq0mem b) (emif b) (gpio b)
    (clock_control b) (timer0 b) (usb b) (reset_control b) (device_config_latch b) (wdt b)
    (ports b) (reset_requests b).
Definition with_bbif (x : list Z) (b : board) : board :=
  mkBoard (core b) (adsl b) x (atmsar b) (usbslave b) (vlynq0mem b) (emif b) (gpio b)
    (clock_control b) (timer0 b) (usb b) (reset_control b) (device_config_latch b) (wdt b)
    (ports b) (reset_requests b).
Definition with_atmsar (x : list Z) (b : board) : board :=
  mkBoard (core b) (adsl b) (bbif b) x (usbslave b) (vlynq0mem b) (emif b) (gpio b)
    (clock_control b) (timer0 b) (usb b) (reset_control b) (device_config_latch b) (wdt b)
    (ports b) (reset_requests b).
Definition with_usbslave (x : list Z) (b : board) : board :=
  mkBoard (core b) (adsl b) (bbif b) (atmsar b) x (vlynq0mem b) (emif b) (gpio b)
    (clock_control b) (timer0 b) (usb b) (reset_control b) (device_config_latch b) (wdt b)
    (ports b) (reset_requests b).
Definition with_vlynq0mem (x : list Z) (b : board) : board :=
  mkBoard (core b) (adsl b) (bbif b) (atmsar b) (usbslave b) x (emif b) (gpio b)
    (clock_control b) (timer0 b) (usb b) (reset_control b) (device_config_latch b) (wdt b)
    (ports b) (reset_requests b).
Definition with_emif (x : list Z) (b : board) : board :=
  mkBoard (core b) (adsl b) (bbif b) (atmsar b) (usbslave b) (vlynq0mem b) x (gpio b)
    (clock_control b) (timer0 b) (usb b) (reset_control b) (device_config_latch b) (wdt b)
    (ports b) (reset_requests b).
Definition with_gpio (x : list Z) (b : board) : board :=
  mkBoard (core b) (adsl b) (bbif b) (atmsar b) (usbslave b) (vlynq0mem b) (emif b) x
    (clock_control b) (timer0 b) (usb b) (reset_control b) (device_config_latch b) (wdt b)
    (ports b) (reset_requests b).
Definition with_clock_control (x : list Z) (b : board) : board :=
  mkBoard (core b) (adsl b) (bbif b) (atmsar b) (usbslave b) (vlynq0mem b) (emif b) (gpio b)
    x (timer0 b) (usb b) (reset_control b) (device_config_latch b) (wdt b)
    (ports b) (reset_requests b).
Definition with_timer0 (x : list Z) (b : board) : board :=
  mkBoard (core b) (adsl b) (bbif b) (atmsar b) (usbslave b) (vlynq0mem b) (emif b) (gpio b)
    (clock_control b) x (usb b) (reset_control b) (device_config_latch b) (wdt b)
    (ports b) (reset_requests b).
Definition with_usb (x : list Z) (b : board) : board :=
  mkBoard (core b) (adsl b) (bbif b) (atmsar b) (usbslave b) (vlynq0mem b) (emif b) (gpio b)
    (clock_control b) (timer0 b) x (reset_control b) (device_config_latch b) (wdt b)
    (ports b) (reset_requests b).
Definition with_reset_control (x : list Z) (b : board) : board :=
  mkBoard (core b) (adsl b) (bbif b) (atmsar b) (usbslave b) (vlynq0mem b) (emif b) (gpio b)
    (clock_control b) (timer0 b) (usb b) x (device_config_latch b) (wdt b)
    (ports b) (reset_requests b).
Definition with_device_config_latch (x : list Z) (b : board) : board :=
  mkBoard (core b) (adsl b) (bbif b) (atmsar b) (usbslave b) (vlynq0mem b) (emif b) (gpio b)
    (clock_control b) (timer0 b) (usb b) (reset_control b) x (wdt b)
    (ports b) (reset_requests b).
Definition with_wdt (x : list Z) (b : board) : board :=
  mkBoard (core b) (adsl b) (bbif b) (atmsar b) (usbslave b) (vlynq0mem b) (emif b) (gpio b)
    (clock_control b) (timer0 b) (usb b) (reset_control b) (device_config_latch b) x
    (ports b) (reset_requests b).
Definition with_ports (x : list port_event) (b : board) : board :=
  mkBoard (core b) (adsl b) (bbif b) (atmsar b) (usbslave b) (vlynq0mem b) (emif b) (gpio b)
    (clock_control b) (timer0 b) (usb b) (reset_control b) (device_config_latch b) (wdt b)
    x (reset_requests b).
Definition with_reset_requests (x : nat) (b : board) : board :=
  mkBoard (core b) (adsl b) (bbif b) (atmsar b) (usbslave b) (vlynq0mem b) (emif b) (gpio b)
    (clock_control b) (timer0 b) (usb b) (reset_control b) (device_config_latch b) (wdt b)
    (ports b) x.

(** The static initialiser of [av], for the banks of [board]. *)
Definition board_init : board := {|
  core := machine_init;
  adsl := replicate (Z.to_nat 0x8000) 0;
  bbif := replicate 1 0;
  atmsar := replicate (Z.to_nat 0x2400) 0;
  usbslave := replicate (Z.to_nat 0x800) 0;
  vlynq0mem := replicate (Z.to_nat 0x10800) 0;
  emif := replicate 0x40 0;
  gpio := [0x800; 0; 0; 0; 0; 0; 0; 0];
  clock_control := replicate 0x40 0;
  timer0 := replicate 2 0;
  usb := replicate 20 0;
  reset_control := replicate 3 0;
  device_config_latch := [0x025d4291; 0; 0; 0; 0];
  wdt := replicate 8 0;
  ports := [];
  reset_requests := 0
|}.

(** [INRANGE(base, var)], with [size] for [sizeof(var)]. *)
Definition INRANGE (base size addr : Z) : bool :=
  (base <=? addr) && (addr <? base + size - 1).

(** The index of [VALUE(base, var)]. *)
Definition VALUE (base addr : Z) : nat := Z.to_nat ((addr - base) / 4).

Definition UART_MEM_TO_IO (addr : Z) : Z := (addr - AVALANCHE_UART0_BASE) / 4.

(** [ar7_reset_write]; the bookkeeping at offset 0 only selects log lines. *)
Definition ar7_reset_write (offset val : Z) (b : board) : board :=
  if offset =? 0 then b
  else if offset =? 4 then with_reset_requests (S (reset_requests b)) b
  else b.

(** [ar7_io_memread]; [cpu_inb] answers the reads of I/O ports. *)
Definition ar7_io_memread (cpu_inb : Z -> Z) (addr : Z) (b : board) : result (Z * board) :=
  _ ← assert (Z.land addr 3 =? 0);
  if INRANGE AVALANCHE_ADSLSSYS_MEM_BASE sizeof_adsl addr then
    mret (elt (adsl b) (VALUE AVALANCHE_ADSLSSYS_MEM_BASE addr), b)
  else if INRANGE AVALANCHE_BBIF_BASE sizeof_bbif addr then
    mret (elt (bbif b) (VALUE AVALANCHE_BBIF_BASE addr), b)
  else if INRANGE AVALANCHE_ATM_SAR_BASE sizeof_atmsar addr then
    mret (elt (atmsar b) (VALUE AVALANCHE_ATM_SAR_BASE addr), b)
  else if INRANGE AVALANCHE_USB_MEM_BASE sizeof_usbslave addr then
    mret (elt (usbslave b) (VALUE AVALANCHE_USB_MEM_BASE addr), b)
  else if INRANGE AVALANCHE_VLYNQ0_MEM_MAP_BASE sizeof_vlynq0mem addr then
    let val := elt (vlynq0mem b) (VALUE AVALANCHE_VLYNQ0_MEM_MAP_BASE addr) in
    (* PCI device id for TI TNETW1130 (ACX111) *)
    mret (if addr =? 0x04041000 then 0x9066104c else val, b)
  else if INRANGE AVALANCHE_CPMAC0_BASE sizeof_cpmac addr then
    '(val, m) ← ar7_cpmac_read 0 (addr - AVALANCHE_CPMAC0_BASE) (core b);
    mret (val, with_core m b)
  else if INRANGE AVALANCHE_EMIF_BASE sizeof_emif addr then
    mret (elt (emif b) (VALUE AVALANCHE_EMIF_BASE addr), b)
  else if INRANGE AVALANCHE_GPIO_BASE sizeof_gpio addr then
    mret (elt (gpio b) (VALUE AVALANCHE_GPIO_BASE addr), b)
  else if INRANGE AVALANCHE_CLOCK_BASE sizeof_clock_control addr then
    let index := VALUE AVALANCHE_CLOCK_BASE addr in
    let val := elt (clock_control b) index in
    if (index =? 0x0c)%nat || (index =? 0x14)%nat || (index =? 0x1c)%nat || (index =? 0x24)%nat
    then
      (* Reset PLL status bit. *)
      if val =? 4 then mret (Z.land val (Z.lnot 1), b) else mret (Z.lor val 1, b)
    else mret (val, b)
  else if INRANGE AVALANCHE_WATCHDOG_BASE sizeof_watchdog addr then
    mret (elt (watchdog (av (core b))) (VALUE AVALANCHE_WATCHDOG_BASE addr), b)
  else if INRANGE AVALANCHE_TIMER0_BASE sizeof_timer0 addr then
    mret (elt (timer0 b) (VALUE AVALANCHE_TIMER0_BASE addr), b)
  else if INRANGE AVALANCHE_UART0_BASE sizeof_uart addr then
    mret (cpu_inb (UART_MEM_TO_IO addr),
          with_ports (ports b ++ [PortIn (UART_MEM_TO_IO addr)]) b)
  else if INRANGE AVALANCHE_UART1_BASE sizeof_uart addr then
    mret (cpu_inb (UART_MEM_TO_IO addr),
          with_ports (ports b ++ [PortIn (UART_MEM_TO_IO addr)]) b)
  else if INRANGE AVALANCHE_USB_SLAVE_BASE sizeof_usb addr then
    mret (elt (usb b) (VALUE AVALANCHE_USB_SLAVE_BASE addr), b)
  else if INRANGE AVALANCHE_RESET_BASE sizeof_reset_control addr then
    mret (elt (reset_control b) (VALUE AVALANCHE_RESET_BASE addr), b)
  else if INRANGE AVALANCHE_DCL_BASE sizeof_device_config_latch addr then
    mret (elt (device_config_latch b) (VALUE AVALANCHE_DCL_BASE addr), b)
  else if INRANGE AVALANCHE_VLYNQ0_BASE sizeof_vlynq addr then
    mret (ar7_vlynq_read (vlynq0 (av (core b))) (addr - AVALANCHE_VLYNQ0_BASE), b)
  else if INRANGE AVALANCHE_VLYNQ1_BASE sizeof_vlynq addr then
    mret (ar7_vlynq_read (vlynq1 (av (core b))) (addr - AVALANCHE_VLYNQ1_BASE), b)
  else if INRANGE AVALANCHE_MDIO_BASE sizeof_mdio addr then
    let '(val, m) := ar7_mdio_read (VALUE AVALANCHE_MDIO_BASE addr) (core b) in
    mret (val, with_core m b)
  else if INRANGE OHIO_WDT_BASE sizeof_wdt addr then
    mret (elt (wdt b) (VALUE OHIO_WDT_BASE addr), b)
  else if INRANGE AVALANCHE_INTC_BASE sizeof_intc addr then
    mret (ar7_intc_read (intc (av (core b))) (VALUE AVALANCHE_INTC_BASE addr), b)
  else if INRANGE AVALANCHE_CPMAC1_BASE sizeof_cpmac addr then
    '(val, m) ← ar7_cpmac_read 1 (addr - AVALANCHE_CPMAC1_BASE) (core b);
    mret (val, with_core m b)
  else mret (0xffffffff, b).

(** [ar7_io_memwrite]; [fuel] is handed to [ar7_cpmac_write]. *)
Definition ar7_io_memwrite (fuel : nat) (addr val : Z) (b : board) : result board :=
  _ ← assert (Z.land addr 3 =? 0);
  if INRANGE AVALANCHE_ADSLSSYS_MEM_BASE sizeof_adsl addr then
    mret (with_adsl (<[VALUE AVALANCHE_ADSLSSYS_MEM_BASE addr := val]> (adsl b)) b)
  else if INRANGE AVALANCHE_BBIF_BASE sizeof_bbif addr then
    mret (with_bbif (<[VALUE AVALANCHE_BBIF_BASE addr := val]> (bbif b)) b)
  else if INRANGE AVALANCHE_ATM_SAR_BASE sizeof_atmsar addr then
    mret (with_atmsar (<[VALUE AVALANCHE_ATM_SAR_BASE addr := val]> (atmsar b)) b)
  else if INRANGE AVALANCHE_USB_MEM_BASE sizeof_usbslave addr then
    mret (with_usbslave (<[VALUE AVALANCHE_USB_MEM_BASE addr := 0xffffffff]> (usbslave b)) b)
  else if INRANGE AVALANCHE_VLYNQ0_MEM_MAP_BASE sizeof_vlynq0mem addr then
    mret (with_vlynq0mem (<[VALUE AVALANCHE_VLYNQ0_MEM_MAP_BASE addr := val]> (vlynq0mem b)) b)
  else if INRANGE AVALANCHE_CPMAC0_BASE sizeof_cpmac addr then
    m ← ar7_cpmac_write fuel 0 (addr - AVALANCHE_CPMAC0_BASE) val (core b);
    mret (with_core m b)
  else if INRANGE AVALANCHE_EMIF_BASE sizeof_emif addr then
    mret (with_emif (<[VALUE AVALANCHE_EMIF_BASE addr := val]> (emif b)) b)
  else if INRANGE AVALANCHE_GPIO_BASE sizeof_gpio addr then
    mret (with_gpio (<[VALUE AVALANCHE_GPIO_BASE addr := val]> (gpio b)) b)
  else if INRANGE AVALANCHE_CLOCK_BASE sizeof_clock_control addr then
    (* the power state is compared for a log line only *)
    mret (with_clock_control (<[VALUE AVALANCHE_CLOCK_BASE addr := val]> (clock_control b)) b)
  else if INRANGE AVALANCHE_WATCHDOG_BASE sizeof_watchdog addr then
    mret (with_core (ar7_wdt_write (addr - AVALANCHE_WATCHDOG_BASE) val (core b)) b)
  else if INRANGE AVALANCHE_TIMER0_BASE sizeof_timer0 addr then
    mret (with_timer0 (<[VALUE AVALANCHE_TIMER0_BASE addr := val]> (timer0 b)) b)
  else if INRANGE AVALANCHE_UART0_BASE sizeof_uart addr then
    mret (with_ports (ports b ++ [PortOut (UART_MEM_TO_IO addr) val]) b)
  else if INRANGE AVALANCHE_UART1_BASE sizeof_uart addr then
    mret (with_ports (ports b ++ [PortOut (UART_MEM_TO_IO addr) val]) b)
  else if INRANGE AVALANCHE_USB_SLAVE_BASE sizeof_usb addr then
    mret (with_usb (<[VALUE AVALANCHE_USB_SLAVE_BASE addr := val]> (usb b)) b)
  else if INRANGE AVALANCHE_RESET_BASE sizeof_reset_control addr then
    let b := with_reset_control (<[VALUE AVALANCHE_RESET_BASE addr := val]> (reset_control b)) b in
    mret (ar7_reset_write (addr - AVALANCHE_RESET_BASE) val b)
  else if INRANGE AVALANCHE_DCL_BASE sizeof_device_config_latch addr then
    mret (with_device_config_latch
            (<[VALUE AVALANCHE_DCL_BASE addr := val]> (device_config_latch b)) b)
  else if INRANGE AVALANCHE_VLYNQ0_BASE sizeof_vlynq addr then
    m ← ar7_vlynq_write 0 (addr - AVALANCHE_VLYNQ0_BASE) val (core b);
    mret (with_core m b)
  else if INRANGE AVALANCHE_VLYNQ1_BASE sizeof_vlynq addr then
    m ← ar7_vlynq_write 1 (addr - AVALANCHE_VLYNQ1_BASE) val (core b);
    mret (with_core m b)
  else if INRANGE AVALANCHE_MDIO_BASE sizeof_mdio addr then
    mret (with_core (ar7_mdio_write (VALUE AVALANCHE_MDIO_BASE addr) val (core b)) b)
  else if INRANGE OHIO_WDT_BASE sizeof_wdt addr then
    mret (with_wdt (<[VALUE OHIO_WDT_BASE addr := val]> (wdt b)) b)
  else if INRANGE AVALANCHE_INTC_BASE sizeof_intc addr then
    mret (with_core (ar7_intc_write (VALUE AVALANCHE_INTC_BASE addr) val (core b)) b)
  else if INRANGE AVALANCHE_CPMAC1_BASE sizeof_cpmac addr then
    m ← ar7_cpmac_write fuel 1 (addr - AVALANCHE_CPMAC1_BASE) val (core b);
    mret (with_core m b)
  else mret b.

(** [io_writeb]: the branches differ in what they log. *)
Definition io_writeb (fuel : nat) (addr value : Z) (b : board) : result board :=
  if negb (Z.land addr 3 =? 0) then ar7_io_memwrite fuel addr value b
  else if INRANGE AVALANCHE_UART0_BASE sizeof_uart addr then ar7_io_memwrite fuel addr value b
  else if INRANGE AVALANCHE_UART1_BASE sizeof_uart addr then ar7_io_memwrite fuel addr value b
  else ar7_io_memwrite fuel addr value b.

(** [io_readb] *)
Definition io_readb (cpu_inb : Z -> Z) (addr : Z) (b : board) : result (Z * board) :=
  '(v, b) ← ar7_io_memread cpu_inb (Z.land addr (Z.lnot 3)) b;
  mret (Z.land v 0xff, b).

(** [io_writew] *)
Definition io_writew (fuel : nat) (addr value : Z) (b : board) : result board :=
  ar7_io_memwrite fuel addr value b.

(** [io_readw] *)
Definition io_readw (cpu_inb : Z -> Z) (addr : Z) (b : board) : result (Z * board) :=
  '(value, b) ← ar7_io_memread cpu_inb (Z.land addr (Z.lnot 3)) b;
  if Z.land addr 3 =? 0 then mret (Z.shiftr value 16, b)
  else if Z.land addr 3 =? 2 then mret (Z.land value 0xffff, b)
  else Abort.

(** [io_writel] *)
Definition io_writel (fuel : nat) (addr value : Z) (b : board) : result board :=
  ar7_io_memwrite fuel addr value b.

(** [io_readl] *)
Definition io_readl (cpu_inb : Z -> Z) (addr : Z) (b : board) : result (Z * board) :=
  ar7_io_memread cpu_inb addr b.

(** * Properties *)

(** ** Bits and little-endian words *)

Lemma land_shiftl_1 (a n : Z) :
  0 <= n -> Z.land a (Z.shiftl 1 n) = if Z.testbit a n then 2 ^ n else 0.
Proof.
  intros Hn. rewrite Z.shiftl_1_l. apply Z.bits_inj'. intros i Hi.
  rewrite Z.land_spec, Z.pow2_bits_eqb by lia.
  destruct (Z.eqb_spec n i) as [->|Hne].
  - destruct (Z.testbit a i) eqn:E; rewrite ?Z.pow2_bits_eqb, ?Z.bits_0 by lia;
      rewrite ?Z.eqb_refl; reflexivity.
  - rewrite andb_false_r.
    destruct (Z.testbit a n); rewrite ?Z.pow2_bits_eqb, ?Z.bits_0 by lia; trivial.
    symmetry. apply Z.eqb_neq. exact Hne.
Qed.

Lemma land_bit_eqb (a n : Z) :
  0 <= n -> (Z.land a (BIT n) =? 0) = negb (Z.testbit a n).
Proof.
  intros Hn. unfold BIT. rewrite land_shiftl_1 by exact Hn.
  destruct (Z.testbit a n); simpl; [apply Z.eqb_neq; lia | reflexivity].
Qed.

Lemma le32_roundtrip (v : Z) :
  match le32_bytes v with
  | [b0; b1; b2; b3] => le32_of_bytes b0 b1 b2 b3 = u32 v
  | _ => False
  end.
Proof.
  unfold le32_bytes, le32_of_bytes, u32.
  change (2 ^ 8) with 256. change (2 ^ 16) with (256 * 256).
  change (2 ^ 24) with (256 * 256 * 256). change (2 ^ 32) with (256 * 256 * 256 * 256).
  rewrite <- !Z.div_div by lia.
  set (q1 := v / 256). set (q2 := q1 / 256). set (q3 := q2 / 256).
  pose proof (Z.div_mod v 256 ltac:(lia)) as H0.
  pose proof (Z.div_mod q1 256 ltac:(lia)) as H1.
  pose proof (Z.div_mod q2 256 ltac:(lia)) as H2.
  pose proof (Z.div_mod q3 256 ltac:(lia)) as H3.
  fold q1 in H0. fold q2 in H1. fold q3 in H2.
  pose proof (Z.mod_pos_bound v 256 ltac:(lia)).
  pose proof (Z.mod_pos_bound q1 256 ltac:(lia)).
  pose proof (Z.mod_pos_bound q2 256 ltac:(lia)).
  pose proof (Z.mod_pos_bound q3 256 ltac:(lia)).
  apply Z.mod_unique_pos with (q := q3 / 256); lia.
Qed.

Lemma u32_range (v : Z) : 0 <= u32 v < 2 ^ 32.
Proof. unfold u32. apply Z.mod_pos_bound. lia. Qed.

Lemma u32_small (v : Z) : 0 <= v < 2 ^ 32 -> u32 v = v.
Proof. intros H. unfold u32. apply Z.mod_small. exact H. Qed.

Lemma u32_testbit (v i : Z) : 0 <= i < 32 -> Z.testbit (u32 v) i = Z.testbit v i.
Proof. intros H. unfold u32. apply Z.mod_pow2_bits_low. lia. Qed.

(** ** Register banks *)

Lemma elt_inserts_in (reg k : list Z) (i j : nat) :
  (i <= j < i + length k)%nat -> (j < length reg)%nat ->
  elt (list_inserts i k reg) j = elt k (j - i).
Proof. intros H1 H2. unfold elt. rewrite list_lookup_inserts by lia. reflexivity. Qed.

Lemma elt_inserts_out (reg k : list Z) (i j : nat) :
  (j < i)%nat \/ (i + length k <= j)%nat ->
  elt (list_inserts i k reg) j = elt reg j.
Proof.
  intros [H|H]; unfold elt.
  - rewrite list_lookup_inserts_lt by lia. reflexivity.
  - rewrite list_lookup_inserts_ge by lia. reflexivity.
Qed.

Lemma length_store32 (reg : list Z) (addr value : Z) :
  length (store32 reg addr value) = length reg.
Proof. unfold store32. apply length_inserts. Qed.

Lemma reg_read_store32 (reg : list Z) (addr value : Z) :
  0 <= addr -> (Z.to_nat addr + 4 <= length reg)%nat ->
  reg_read (store32 reg addr value) addr = u32 value.
Proof.
  intros Ha Hl. unfold reg_read, store32.
  pose proof (le32_roundtrip value) as R.
  destruct (le32_bytes value) as [|b0 [|b1 [|b2 [|b3 [|? ?]]]]] eqn:E; try contradiction.
  rewrite !elt_inserts_in by (simpl; lia).
  replace (Z.to_nat addr - Z.to_nat addr)%nat with 0%nat by lia.
  replace (Z.to_nat addr + 1 - Z.to_nat addr)%nat with 1%nat by lia.
  replace (Z.to_nat addr + 2 - Z.to_nat addr)%nat with 2%nat by lia.
  replace (Z.to_nat addr + 3 - Z.to_nat addr)%nat with 3%nat by lia.
  exact R.
Qed.

Lemma reg_read_store32_other (reg : list Z) (addr addr' value : Z) :
  0 <= addr -> 0 <= addr' -> addr' + 4 <= addr \/ addr + 4 <= addr' ->
  reg_read (store32 reg addr value) addr' = reg_read reg addr'.
Proof.
  intros Ha Ha' Hd. unfold reg_read, store32.
  rewrite !elt_inserts_out; [reflexivity | | | |]; simpl; lia.
Qed.

(** ** Interrupt intake and interrupt controller *)

Lemma intc_write_enable_set (m : machine) (val : Z) :
  length (intmask (av m)) = 2%nat ->
  elt (intmask (av (ar7_intc_write 8 val m))) 0 = Z.lor (elt (intmask (av m)) 0) val.
Proof.
  intros Hl. unfold ar7_intc_write. simpl. unfold elt at 1.
  rewrite list_lookup_insert_eq by lia. reflexivity.
Qed.

Lemma ar7_irq_enabled (m : machine) (l : Z) :
  l = 15 \/ l = 16 \/ l = 27 ->
  Z.testbit (elt (intmask (av m)) 0) (l - 8) = true ->
  ar7_irq l 1 m =
  mkMachine
    (set_intc (<[16%nat := Z.lor (Z.shiftl (l - 8) 16) (l - 8)]> (intc (av m))) (av m))
    (mkCPU (Z.lor (CP0_Cause (cpu_env m)) 0x400) true)
    (phy m) (ram m) (net_out m) (irq_log m ++ [(l, 1)]).
Proof.
  intros Hl Hb. unfold ar7_irq.
  replace ((l =? 15) || (l =? 16) || (l =? 27) || (l =? 41)) with true
    by (destruct Hl as [->|[->| ->]]; reflexivity).
  replace (l - 8 <? 32) with true by (destruct Hl as [->|[->| ->]]; reflexivity).
  cbn [negb Z.eqb with_irq_log with_av with_cpu av cpu_env intmask].
  rewrite land_shiftl_1 by lia. rewrite Hb.
  replace (2 ^ (l - 8) =? 0) with false
    by (destruct Hl as [->|[->| ->]]; reflexivity).
  reflexivity.
Qed.

Lemma ar7_irq_gated (m : machine) (l : Z) :
  0 <= l - 8 ->
  Z.testbit (elt (intmask (av m)) 0) (l - 8) = false ->
  ar7_irq l 1 m = with_irq_log (irq_log m ++ [(l, 1)]) m.
Proof.
  intros Hl Hb. unfold ar7_irq.
  cbn [negb Z.eqb with_irq_log with_av with_cpu av cpu_env intmask].
  rewrite land_shiftl_1 by lia. rewrite Hb. cbn [Z.eqb negb].
  destruct (_ || _), (l - 8 <? 32); reflexivity.
Qed.

Lemma ar7_irq_41 (m : machine) :
  ar7_irq 41 1 m = with_irq_log (irq_log m ++ [(41, 1)]) m.
Proof. reflexivity. Qed.

(** A machine whose interrupt mask 1 has exactly channel 7 enabled. *)
Definition machine_chan7 : machine :=
  with_av (set_intmask [0x80; 0] av_init) machine_init.

(** C1, as stated, fails: with channel 7 enabled, raising line 15 latches
    [0x00070007] into INTC word 16, not [(15<<16)|7]; and writing
    [0x00008000] to enable-set-1 enables channel 15, so that raising line 15
    afterwards leaves INTC word 16 at 0, not at [0x0007000f]. *)
Lemma C1_counterexample :
  Z.testbit (elt (intmask (av machine_chan7)) 0) (15 - 8) = true /\
  ar7_intc_read (intc (av (ar7_irq 15 1 machine_chan7))) 16
    <> Z.lor (Z.shiftl 15 16) (15 - 8) /\
  ar7_intc_read (intc (av (ar7_irq 15 1 (ar7_intc_write 8 0x00008000 machine_init)))) 16
    <> 0x0007000f.
Proof. repeat split; vm_compute; discriminate. Qed.

(** C1 (amended): for every line [l] in {15, 16, 27} asserted with level 1
    while bit [l-8] of [intmask[0]] is set, the model writes
    [((l-8)<<16)|(l-8)] into INTC word index 16, sets CPU Cause bit 0x400
    and asserts hardware interrupt 0.  Line 41 (channel 33, beyond the 32
    bits of [intmask[0]]) changes neither the device nor the CPU.  After
    writing [0x00000080] to enable-set-1 and raising line 15 with level 1, a
    read of INTC word index 16 returns [0x00070007]; after writing
    [0x00008000] instead, it returns 0. *)
Theorem C1_irq_assert_latches_channel (m : machine) (l : Z) :
  l = 15 \/ l = 16 \/ l = 27 ->
  (16 < length (intc (av m)))%nat ->
  Z.testbit (elt (intmask (av m)) 0) (l - 8) = true ->
  (ar7_intc_read (intc (av (ar7_irq l 1 m))) 16 = Z.lor (Z.shiftl (l - 8) 16) (l - 8) /\
   Z.land (CP0_Cause (cpu_env (ar7_irq l 1 m))) 0x400 = 0x400 /\
   hw_irq0 (cpu_env (ar7_irq l 1 m)) = true) /\
  (av (ar7_irq 41 1 m) = av m /\ cpu_env (ar7_irq 41 1 m) = cpu_env m) /\
  ar7_intc_read (intc (av (ar7_irq 15 1 (ar7_intc_write 8 0x00000080 machine_init)))) 16
    = 0x00070007 /\
  ar7_intc_read (intc (av (ar7_irq 15 1 (ar7_intc_write 8 0x00008000 machine_init)))) 16
    = 0.
Proof.
  intros Hl Hlen Hbit. split; [|split; [|split]].
  - rewrite ar7_irq_enabled by assumption. cbn [av cpu_env CP0_Cause hw_irq0 set_intc intc].
    split; [|split].
    + unfold ar7_intc_read, elt. rewrite list_lookup_insert_eq by exact Hlen. reflexivity.
    + change 0x400 with (Z.shiftl 1 10). rewrite land_shiftl_1 by lia.
      rewrite Z.lor_spec, Z.shiftl_1_l, Z.pow2_bits_true by lia.
      rewrite orb_true_r. reflexivity.
    + reflexivity.
  - rewrite ar7_irq_41. split; reflexivity.
  - vm_compute. reflexivity.
  - vm_compute. reflexivity.
Qed.

Lemma C1_witness :
  (15 = 15 \/ 15 = 16 \/ 15 = 27) /\
  ar7_intc_read (intc (av (ar7_irq 15 1 machine_chan7))) 16 = 0x00070007 /\
  hw_irq0 (cpu_env (ar7_irq 15 1 machine_chan7)) = true.
Proof.
  split; [left; reflexivity|].
  destruct (C1_irq_assert_latches_channel machine_chan7 15) as [(H1 & _ & H3) _].
  - left; reflexivity.
  - vm_compute. lia.
  - reflexivity.
  - split; [exact H1 | exact H3].
Defined.

(** C2, as stated, fails for channel 33: whatever is written to the
    enable-set registers (bit 33 of the 64-bit mask is bit 1 of
    enable-set-2), re-asserting line 41 does not raise HW-IRQ0. *)
Lemma C2_counterexample :
  hw_irq0 (cpu_env (ar7_irq 41 1 (ar7_intc_write 9 (Z.shiftl 1 (33 - 32))
                                    (ar7_irq 41 1 machine_init)))) = false /\
  hw_irq0 (cpu_env (ar7_irq 41 1 (ar7_intc_write 8 0xffffffff
                                    (ar7_irq 41 1 machine_init)))) = false.
Proof. split; vm_compute; reflexivity. Qed.

(** C2 (amended): for every channel [c] in {7, 8, 19}, asserting line [c+8]
    with level 1 while bit [c] of [intmask[0]] is clear leaves the CPU (Cause,
    HW-IRQ0) and the INTC bank unchanged, so HW-IRQ0 stays deasserted; after
    a write to enable-set-1 of a value with bit [c] set, re-asserting the
    line raises HW-IRQ0 and sets Cause bit 0x400.  For channel 33 (line 41)
    the assertion never reaches the CPU, whatever was written to the
    controller before. *)
Theorem C2_irq_gating (m : machine) (c v : Z) :
  c = 7 \/ c = 8 \/ c = 19 ->
  length (intmask (av m)) = 2%nat ->
  Z.testbit (elt (intmask (av m)) 0) c = false ->
  Z.testbit v c = true ->
  (cpu_env (ar7_irq (c + 8) 1 m) = cpu_env m /\
   intc (av (ar7_irq (c + 8) 1 m)) = intc (av m) /\
   (hw_irq0 (cpu_env m) = false -> hw_irq0 (cpu_env (ar7_irq (c + 8) 1 m)) = false)) /\
  (hw_irq0 (cpu_env (ar7_irq (c + 8) 1 (ar7_intc_write 8 v (ar7_irq (c + 8) 1 m)))) = true /\
   Z.land (CP0_Cause (cpu_env (ar7_irq (c + 8) 1
             (ar7_intc_write 8 v (ar7_irq (c + 8) 1 m))))) 0x400 = 0x400) /\
  (forall (index : nat) (w : Z),
     cpu_env (ar7_irq 41 1 (ar7_intc_write index w (ar7_irq 41 1 m))) = cpu_env m).
Proof.
  intros Hc Hlen Hclear Hv.
  assert (Hg : ar7_irq (c + 8) 1 m = with_irq_log (irq_log m ++ [(c + 8, 1)]) m).
  { apply ar7_irq_gated; replace (c + 8 - 8) with c by lia; [lia | exact Hclear]. }
  split; [|split].
  - rewrite Hg. cbn. auto.
  - rewrite Hg.
    set (m1 := ar7_intc_write 8 v _).
    assert (Hset : Z.testbit (elt (intmask (av m1)) 0) (c + 8 - 8) = true).
    { unfold m1. rewrite intc_write_enable_set by exact Hlen.
      replace (c + 8 - 8) with c by lia. rewrite Z.lor_spec, Hv. apply orb_true_r. }
    rewrite ar7_irq_enabled by (assumption || lia). cbn [cpu_env hw_irq0 CP0_Cause].
    split; [reflexivity|].
    change 0x400 with (Z.shiftl 1 10). rewrite land_shiftl_1 by lia.
    rewrite Z.lor_spec, Z.shiftl_1_l, Z.pow2_bits_true by lia.
    rewrite orb_true_r. reflexivity.
  - intros index w. rewrite !ar7_irq_41. unfold ar7_intc_write.
    destruct (_ || _); [reflexivity|]. destruct (_ || _); reflexivity.
Qed.

Lemma C2_witness :
  Z.testbit (elt (intmask (av machine_init)) 0) 19 = false /\
  hw_irq0 (cpu_env (ar7_irq 27 1 machine_init)) = false /\
  hw_irq0 (cpu_env (ar7_irq 27 1 (ar7_intc_write 8 0x00080000
                                    (ar7_irq 27 1 machine_init)))) = true.
Proof.
  split; [reflexivity|].
  destruct (C2_irq_gating machine_init 19 0x00080000) as [(_ & _ & H1) [(H2 & _) _]].
  - right; right; reflexivity.
  - reflexivity.
  - reflexivity.
  - reflexivity.
  - split; [apply H1; reflexivity | exact H2].
Defined.

(** ** CPMAC registers *)

#[global] Arguments store32 : simpl never.
#[global] Arguments reg_read : simpl never.
#[global] Arguments cpmac_of : simpl never.
#[global] Arguments put_cpmac : simpl never.

Ltac res_simpl :=
  unfold mbind, mret, result_bind, result_ret, assert in *.

Lemma reg_write_aligned (reg : list Z) (addr value : Z) :
  aligned addr = true -> reg_write reg addr value = Done (store32 reg addr value).
Proof. intros H. unfold reg_write. rewrite H. reflexivity. Qed.

Lemma reg_inc_aligned (reg : list Z) (addr : Z) :
  aligned addr = true ->
  reg_inc reg addr = Done (store32 reg addr (u32 (reg_read reg addr + 1))).
Proof. intros H. unfold reg_inc, reg_write. rewrite H. reflexivity. Qed.

Lemma reg_set_aligned (reg : list Z) (addr value : Z) :
  aligned addr = true ->
  reg_set reg addr value = Done (store32 reg addr (Z.lor (reg_read reg addr) value)).
Proof. intros H. unfold reg_set. rewrite H. reflexivity. Qed.

Lemma reg_clear_aligned (reg : list Z) (addr value : Z) :
  aligned addr = true ->
  reg_clear reg addr value =
  Done (store32 reg addr (Z.land (reg_read reg addr) (Z.lnot value))).
Proof. intros H. unfold reg_clear. rewrite H. reflexivity. Qed.

Lemma cpmac_of_put (index : nat) (c : list Z) (m : machine) :
  cpmac_of index (put_cpmac index c m) = c.
Proof. destruct index; reflexivity. Qed.

Lemma put_cpmac_put (index : nat) (c c' : list Z) (m : machine) :
  put_cpmac index c (put_cpmac index c' m) = put_cpmac index c m.
Proof. destruct index; reflexivity. Qed.

Lemma cpmac_of_sized (index : nat) (m : machine) :
  av_wf (av m) -> length (cpmac_of index m) = 0x800%nat.
Proof. intros H. destruct index; apply H. Qed.

Lemma cpmac_of_bytes (index : nat) (m : machine) :
  av_wf (av m) -> Forall is_byte (cpmac_of index m).
Proof. intros H. destruct index; apply H. Qed.

Lemma Forall_is_byte_replicate (n : nat) : Forall is_byte (replicate n 0).
Proof. apply Forall_replicate. unfold is_byte. lia. Qed.

Lemma av_wf_init : av_wf av_init.
Proof. split; try reflexivity; apply Forall_is_byte_replicate. Qed.

(** C3: for either CPMAC instance, after a write of [v <> 0] to
    MAC_IN_VECTOR (offset 0x0180) the next read of that offset returns [v]
    and zeroes the register, so that a second read returns 0. *)
Theorem C3_mac_in_vector_read_to_clear (fuel index : nat) (v : Z) (m : machine) :
  (index < 2)%nat ->
  av_wf (av m) ->
  0 <= v < 2 ^ 32 -> v <> 0 ->
  exists m1 m2 m3,
    ar7_cpmac_write fuel index CPMAC_MAC_IN_VECTOR v m = Done m1 /\
    ar7_cpmac_read index CPMAC_MAC_IN_VECTOR m1 = Done (v, m2) /\
    reg_read (cpmac_of index m2) CPMAC_MAC_IN_VECTOR = 0 /\
    ar7_cpmac_read index CPMAC_MAC_IN_VECTOR m2 = Done (0, m3).
Proof.
  intros Hi Hsz Hv Hnz.
  pose proof (cpmac_of_sized index m Hsz) as Hlen.
  set (c1 := store32 (cpmac_of index m) CPMAC_MAC_IN_VECTOR v).
  set (c2 := store32 c1 CPMAC_MAC_IN_VECTOR 0).
  assert (Hl1 : length c1 = 0x800%nat) by (unfold c1; rewrite length_store32; exact Hlen).
  assert (Hl2 : length c2 = 0x800%nat) by (unfold c2; rewrite length_store32; exact Hl1).
  assert (Hr1 : reg_read c1 CPMAC_MAC_IN_VECTOR = v).
  { unfold c1. rewrite reg_read_store32; [apply u32_small; exact Hv | vm_compute; discriminate |].
    rewrite Hlen. vm_compute. lia. }
  assert (Hr2 : reg_read c2 CPMAC_MAC_IN_VECTOR = 0).
  { unfold c2. rewrite reg_read_store32; [reflexivity | vm_compute; discriminate |].
    rewrite Hl1. vm_compute. lia. }
  exists (put_cpmac index c1 m), (put_cpmac index c2 m),
         (put_cpmac index (store32 c2 CPMAC_MAC_IN_VECTOR 0) m).
  split; [|split; [|split]].
  - reflexivity.
  - unfold ar7_cpmac_read. rewrite cpmac_of_put, Hr1. cbn.
    rewrite reg_write_aligned by reflexivity. cbn. rewrite put_cpmac_put. reflexivity.
  - rewrite cpmac_of_put. exact Hr2.
  - unfold ar7_cpmac_read. rewrite cpmac_of_put, Hr2. cbn.
    rewrite reg_write_aligned by reflexivity. cbn. rewrite put_cpmac_put. reflexivity.
Qed.

Lemma C3_witness :
  exists m1 m2 m3,
    ar7_cpmac_write 0 1 CPMAC_MAC_IN_VECTOR 0x00020000 machine_init = Done m1 /\
    ar7_cpmac_read 1 CPMAC_MAC_IN_VECTOR m1 = Done (0x00020000, m2) /\
    reg_read (cpmac_of 1 m2) CPMAC_MAC_IN_VECTOR = 0 /\
    ar7_cpmac_read 1 CPMAC_MAC_IN_VECTOR m2 = Done (0, m3).
Proof.
  apply (C3_mac_in_vector_read_to_clear 0 1 0x00020000 machine_init).
  - lia.
  - exact av_wf_init.
  - lia.
  - lia.
Defined.

Lemma le32_bytes_is_byte (v : Z) : Forall is_byte (le32_bytes v).
Proof.
  unfold le32_bytes, is_byte.
  repeat (apply Forall_cons; split; [apply Z.mod_pos_bound; lia|]). apply Forall_nil_2.
Qed.

Lemma store32_is_byte (reg : list Z) (addr value : Z) :
  Forall is_byte reg -> Forall is_byte (store32 reg addr value).
Proof. intros H. unfold store32. apply Forall_inserts; [exact H | apply le32_bytes_is_byte]. Qed.

Lemma elt_is_byte (reg : list Z) (i : nat) : Forall is_byte reg -> is_byte (elt reg i).
Proof.
  intros H. unfold elt. destruct (reg !! i) as [b|] eqn:E; simpl.
  - eapply Forall_lookup_1; eassumption.
  - unfold is_byte. lia.
Qed.

Lemma le32_of_bytes_range (b0 b1 b2 b3 : Z) :
  is_byte b0 -> is_byte b1 -> is_byte b2 -> is_byte b3 ->
  0 <= le32_of_bytes b0 b1 b2 b3 < 2 ^ 32.
Proof. unfold is_byte, le32_of_bytes. lia. Qed.

Lemma reg_read_range (reg : list Z) (addr : Z) :
  Forall is_byte reg -> 0 <= reg_read reg addr < 2 ^ 32.
Proof.
  intros H. unfold reg_read. apply le32_of_bytes_range; apply elt_is_byte; exact H.
Qed.

Lemma testbit_above (a i : Z) : 0 <= a < 2 ^ i -> 0 <= i -> Z.testbit a i = false.
Proof.
  intros Ha Hi. destruct (Z.eq_dec a 0) as [->|Hn]; [apply Z.bits_0|].
  apply Z.bits_above_log2; [lia|]. apply Z.log2_lt_pow2; lia.
Qed.

Lemma below_pow2_bits (a n : Z) :
  0 <= n -> 0 <= a -> (forall i, n <= i -> Z.testbit a i = false) -> a < 2 ^ n.
Proof.
  intros Hn Ha Hb. destruct (Z.eq_dec a 0) as [->|Hnz]; [apply Z.pow_pos_nonneg; lia|].
  apply Z.log2_lt_pow2; [lia|].
  destruct (Z_lt_le_dec (Z.log2 a) n) as [|Hge]; [assumption|].
  specialize (Hb _ Hge). rewrite Z.bit_log2 in Hb by lia. discriminate.
Qed.

Lemma lor_u32_range (a b : Z) :
  0 <= a < 2 ^ 32 -> 0 <= b < 2 ^ 32 -> 0 <= Z.lor a b < 2 ^ 32.
Proof.
  intros Ha Hb. split; [apply Z.lor_nonneg; lia|].
  apply below_pow2_bits; [lia | apply Z.lor_nonneg; lia|].
  intros i Hi. rewrite Z.lor_spec.
  assert (2 ^ 32 <= 2 ^ i) by (apply Z.pow_le_mono_r; lia).
  rewrite !testbit_above by lia. reflexivity.
Qed.

Lemma land_u32_range (a b : Z) : 0 <= a < 2 ^ 32 -> 0 <= Z.land a b < 2 ^ 32.
Proof.
  intros Ha. assert (H0 : 0 <= Z.land a b) by (apply Z.land_nonneg; lia).
  split; [exact H0|].
  apply below_pow2_bits; [lia | exact H0|].
  intros i Hi. rewrite Z.land_spec.
  assert (2 ^ 32 <= 2 ^ i) by (apply Z.pow_le_mono_r; lia).
  rewrite (testbit_above a) by lia. reflexivity.
Qed.

(** ** The channel of a TX_INTMASK_SET write *)

Lemma tx_int_channel_log2 (fuel : nat) (val channel : Z) :
  0 < val < 2 ^ Z.of_nat fuel ->
  tx_int_channel fuel val channel = Done (channel + Z.log2 val).
Proof.
  revert val channel. induction fuel as [|fuel IH]; intros val channel Hv.
  - simpl in Hv. lia.
  - cbn [tx_int_channel]. destruct (Z.eqb_spec val 1) as [->|Hne]; cbn [negb].
    + cbn. f_equal. lia.
    + assert (Hd : 0 < val / 2 < 2 ^ Z.of_nat fuel).
      { rewrite Nat2Z.inj_succ, Z.pow_succ_r in Hv by lia.
        split; [apply Z.div_str_pos; lia | apply Z.div_lt_upper_bound; lia]. }
      rewrite IH by exact Hd. f_equal.
      rewrite <- Z.div2_div, Z.div2_spec, Z.log2_shiftr by lia.
      assert (1 <= Z.log2 val) by (apply Z.log2_le_pow2; lia). lia.
Qed.

(** Follows the spec's words: the index of the lowest set bit of [v]. *)
Definition lowest_set_bit (v : Z) : Z := Z.log2 (Z.land v (- v)).

Example lowest_set_bit_6 : lowest_set_bit 6 = 1.
Proof. reflexivity. Qed.

Example lowest_set_bit_pow2 : map lowest_set_bit [1; 2; 4; 0x80; 0x80000000] = [0; 1; 2; 7; 31].
Proof. reflexivity. Qed.

#[global] Arguments tx_int_channel : simpl never.
#[global] Arguments ar7_irq : simpl never.

Lemma lowest_set_bit_pow2_eq (i : Z) : 0 <= i -> lowest_set_bit (2 ^ i) = i.
Proof.
  intros Hi. unfold lowest_set_bit.
  replace (Z.land (2 ^ i) (- 2 ^ i)) with (2 ^ i); [apply Z.log2_pow2; exact Hi|].
  replace (- 2 ^ i) with (Z.lnot (Z.ones i)) by (rewrite Z.ones_equiv; unfold Z.lnot; lia).
  apply Z.bits_inj'. intros j Hj.
  rewrite Z.land_spec, Z.lnot_spec, Z.pow2_bits_eqb by lia.
  destruct (Z.eqb_spec i j) as [->|Hne]; [|reflexivity].
  rewrite Z.ones_spec_high by lia. reflexivity.
Qed.

Lemma irq_log_ar7_irq (irq_num level : Z) (m : machine) :
  irq_log (ar7_irq irq_num level m) = irq_log m ++ [(irq_num, level)].
Proof.
  unfold ar7_irq. destruct (_ || _); [|reflexivity].
  destruct (negb (level =? 0)); [|reflexivity].
  destruct (_ <? _); [|reflexivity]. destruct (negb _); reflexivity.
Qed.

Lemma cpmac_of_ar7_irq (index : nat) (irq_num level : Z) (m : machine) :
  cpmac_of index (ar7_irq irq_num level m) = cpmac_of index m.
Proof.
  unfold ar7_irq. destruct (_ || _); [|destruct index; reflexivity].
  destruct (negb (level =? 0)); [|destruct index; reflexivity].
  destruct (_ <? _); [|destruct index; reflexivity].
  destruct (negb _); destruct index; reflexivity.
Qed.

Lemma irq_log_put_cpmac (index : nat) (c : list Z) (m : machine) :
  irq_log (put_cpmac index c m) = irq_log m.
Proof. destruct index; reflexivity. Qed.

Lemma cpmac_line (index : nat) :
  (index < 2)%nat -> elt cpmac_interrupt index = if (index =? 0)%nat then 27 else 41.
Proof. intros H. destruct index as [|[|?]]; [reflexivity | reflexivity | lia]. Qed.

(** C5, as stated, fails: a write of 6 (bits 1 and 2) to TX_INTMASK_SET
    combines channel 2, the highest set bit, with TX_INT_OR, where the
    lowest set bit is 1. *)
Lemma C5_counterexample :
  exists m',
    ar7_cpmac_write 0 0 CPMAC_TX_INTMASK_SET 6 machine_init = Done m' /\
    lowest_set_bit 6 = 1 /\
    reg_read (cpmac_of 0 m') CPMAC_MAC_IN_VECTOR = MAC_IN_VECTOR_TX_INT_OR + 2 /\
    reg_read (cpmac_of 0 m') CPMAC_MAC_IN_VECTOR <>
      Z.lor (reg_read (cpmac_of 0 machine_init) CPMAC_MAC_IN_VECTOR)
            (MAC_IN_VECTOR_TX_INT_OR + lowest_set_bit 6).
Proof.
  eexists. split; [vm_compute; reflexivity|].
  split; [reflexivity|]. split; [vm_compute; reflexivity | vm_compute; discriminate].
Qed.

(** C5 (amended): for every write of a value [v <> 0] to TX_INTMASK_SET
    (offset 0x0178) of either CPMAC instance, the channel number combined
    with TX_INT_OR into MAC_IN_VECTOR is the index of the highest set bit of
    [v] (which is also the lowest one when [v] is a single bit [2^i]), and
    the CPMAC IRQ line (27 or 41) is asserted. *)
Theorem C5_tx_intmask_set_channel (fuel index : nat) (v : Z) (m : machine) :
  (index < 2)%nat ->
  av_wf (av m) ->
  0 <= v < 2 ^ 32 -> v <> 0 ->
  exists m',
    ar7_cpmac_write fuel index CPMAC_TX_INTMASK_SET v m = Done m' /\
    reg_read (cpmac_of index m') CPMAC_MAC_IN_VECTOR =
      Z.lor (reg_read (cpmac_of index m) CPMAC_MAC_IN_VECTOR)
            (MAC_IN_VECTOR_TX_INT_OR + Z.log2 v) /\
    (0 <= Z.log2 v < 32 /\ Z.testbit v (Z.log2 v) = true /\
     forall i, Z.log2 v < i -> Z.testbit v i = false) /\
    (forall i, 0 <= i -> v = 2 ^ i -> Z.log2 v = i /\ lowest_set_bit v = i) /\
    irq_log m' = irq_log m ++ [(if (index =? 0)%nat then 27 else 41, 1)].
Proof.
  intros Hi Hwf Hv Hnz.
  pose proof (cpmac_of_sized index m Hwf) as Hlen.
  pose proof (cpmac_of_bytes index m Hwf) as Hby.
  assert (Hlog : 0 <= Z.log2 v < 32).
  { split; [apply Z.log2_nonneg | apply Z.log2_lt_pow2; lia]. }
  set (c1 := store32 (cpmac_of index m) CPMAC_TX_INTMASK_SET v).
  set (old := reg_read (cpmac_of index m) CPMAC_MAC_IN_VECTOR).
  assert (Hold : reg_read c1 CPMAC_MAC_IN_VECTOR = old).
  { unfold c1. apply reg_read_store32_other;
      unfold CPMAC_TX_INTMASK_SET, CPMAC_MAC_IN_VECTOR; lia. }
  set (c2 := store32 c1 CPMAC_MAC_IN_VECTOR (Z.lor old (MAC_IN_VECTOR_TX_INT_OR + Z.log2 v))).
  exists (ar7_irq (elt cpmac_interrupt index) 1 (put_cpmac index c2 m)).
  split; [|split; [|split; [|split]]].
  - unfold ar7_cpmac_write.
    rewrite reg_write_aligned by reflexivity. fold c1.
    replace (v =? 0) with false by (symmetry; apply Z.eqb_neq; exact Hnz).
    cbn. rewrite tx_int_channel_log2 by (change (2 ^ Z.of_nat 32) with (2 ^ 32); lia).
    cbn. rewrite reg_set_aligned by reflexivity. cbn.
    rewrite Hold, put_cpmac_put. reflexivity.
  - rewrite cpmac_of_ar7_irq, cpmac_of_put. unfold c2.
    rewrite reg_read_store32.
    + apply u32_small. apply lor_u32_range.
      * apply reg_read_range. exact Hby.
      * change MAC_IN_VECTOR_TX_INT_OR with 65536. change (2 ^ 32) with 4294967296. lia.
    + vm_compute. discriminate.
    + unfold c1. rewrite length_store32, Hlen. vm_compute. lia.
  - split; [exact Hlog|]. split.
    + apply Z.bit_log2. lia.
    + intros i Hlt. apply Z.bits_above_log2; lia.
  - intros i Hi0 ->. split; [apply Z.log2_pow2; exact Hi0 | apply lowest_set_bit_pow2_eq; exact Hi0].
  - rewrite irq_log_ar7_irq, irq_log_put_cpmac, cpmac_line by exact Hi. reflexivity.
Qed.

Lemma C5_witness :
  exists m',
    ar7_cpmac_write 0 1 CPMAC_TX_INTMASK_SET 0x20 machine_init = Done m' /\
    reg_read (cpmac_of 1 m') CPMAC_MAC_IN_VECTOR = 0x10005 /\
    irq_log m' = [(41, 1)].
Proof.
  destruct (C5_tx_intmask_set_channel 0 1 0x20 machine_init) as (m' & H1 & H2 & _ & _ & H3).
  - lia.
  - exact av_wf_init.
  - lia.
  - lia.
  - exists m'. split; [exact H1|]. split; [exact H2 | exact H3].
Defined.

(** ** VLYNQ link *)

#[global] Arguments vlynq_of : simpl never.
#[global] Arguments put_vlynq : simpl never.

Lemma vlynq_of_put (index : nat) (c : list Z) (m : machine) :
  vlynq_of index (put_vlynq index c m) = c.
Proof. destruct index; reflexivity. Qed.

Lemma vlynq_of_sized (index : nat) (m : machine) :
  av_wf (av m) -> length (vlynq_of index m) = 0x100%nat.
Proof. intros H. destruct index; apply H. Qed.

(** C9: for either VLYNQ bank, after a write to CONTROL (offset 4) with bit 0
    clear a read of STATUS (offset 8) has bit 0 set (link up); after a write
    to CONTROL with bit 0 set a read of STATUS has bit 0 clear. *)
Theorem C9_vlynq_link (index : nat) (val : Z) (m : machine) :
  (index < 2)%nat ->
  av_wf (av m) ->
  exists m',
    ar7_vlynq_write index VLYNQ_CTRL val m = Done m' /\
    Z.testbit (ar7_vlynq_read (vlynq_of index m') VLYNQ_STAT) 0 = negb (Z.testbit val 0).
Proof.
  intros Hi Hwf. pose proof (vlynq_of_sized index m Hwf) as Hlen.
  unfold ar7_vlynq_write.
  change (VLYNQ_CTRL =? VLYNQ_REVID) with false. change (VLYNQ_CTRL =? VLYNQ_CTRL) with true.
  cbn match. rewrite land_bit_eqb by lia.
  set (old := reg_read (vlynq_of index m) VLYNQ_STAT).
  assert (Hst : forall c, length c = 0x100%nat ->
            forall w, reg_read (store32 (store32 c VLYNQ_STAT w) VLYNQ_CTRL val) VLYNQ_STAT
                      = u32 w).
  { intros c Hc w. rewrite reg_read_store32_other by (unfold VLYNQ_CTRL, VLYNQ_STAT; lia).
    apply reg_read_store32; [unfold VLYNQ_STAT; lia|]. rewrite Hc. vm_compute. lia. }
  destruct (Z.testbit val 0) eqn:Hb; cbn [negb].
  - rewrite reg_clear_aligned by reflexivity. cbn.
    rewrite reg_write_aligned by reflexivity. cbn.
    eexists. split; [reflexivity|].
    rewrite vlynq_of_put. unfold ar7_vlynq_read. change (VLYNQ_STAT =? VLYNQ_REVID) with false.
    cbn match. rewrite Hst by exact Hlen. rewrite <- Z.bit0_odd, u32_testbit by lia.
    rewrite Z.land_spec. change (Z.testbit (Z.lnot (BIT 0)) 0) with false.
    apply andb_false_r.
  - rewrite reg_set_aligned by reflexivity. cbn.
    rewrite reg_write_aligned by reflexivity. cbn.
    eexists. split; [reflexivity|].
    rewrite vlynq_of_put. unfold ar7_vlynq_read. change (VLYNQ_STAT =? VLYNQ_REVID) with false.
    cbn match. rewrite Hst by exact Hlen. rewrite <- Z.bit0_odd, u32_testbit by lia.
    rewrite Z.lor_spec. change (Z.testbit (BIT 0) 0) with true.
    apply orb_true_r.
Qed.

Lemma C9_witness :
  (exists m',
     ar7_vlynq_write 0 VLYNQ_CTRL 0x00000000 machine_init = Done m' /\
     Z.testbit (ar7_vlynq_read (vlynq_of 0 m') VLYNQ_STAT) 0 = true) /\
  (exists m',
     ar7_vlynq_write 1 VLYNQ_CTRL 0x00000001 machine_init = Done m' /\
     Z.testbit (ar7_vlynq_read (vlynq_of 1 m') VLYNQ_STAT) 0 = false).
Proof.
  split.
  - apply (C9_vlynq_link 0 0 machine_init); [lia | exact av_wf_init].
  - apply (C9_vlynq_link 1 1 machine_init); [lia | exact av_wf_init].
Defined.

(** ** Watchdog lock sequencing *)

(** Follows the spec's words: the table of accepted lock writes and the
    lock stage each one yields; [None] for every other value. *)
Definition unlock_stage (lock : nat) (val : Z) : option Z :=
  if (lock =? kick_lock)%nat then
    if val =? 0x5555 then Some 1 else if val =? 0xAAAA then Some 3 else None
  else if (lock =? change_lock)%nat then
    if val =? 0x6666 then Some 1 else if val =? 0xBBBB then Some 3 else None
  else if (lock =? disable_lock)%nat then
    if val =? 0x7777 then Some 1 else if val =? 0xCCCC then Some 2
    else if val =? 0xDDDD then Some 3 else None
  else if (lock =? prescale_lock)%nat then
    if val =? 0x5A5A then Some 1 else if val =? 0xA5A5 then Some 3 else None
  else None.

(** The 2-bit stage field of a lock register. *)
Definition lock_stage (lock : nat) (m : machine) : Z :=
  Z.land (elt (watchdog (av m)) lock) 3.

Definition is_lock (r : nat) : Prop :=
  r = kick_lock \/ r = change_lock \/ r = disable_lock \/ r = prescale_lock.

Definition is_value (r : nat) : Prop :=
  r = kick \/ r = change \/ r = disable \/ r = prescale.

(** Decide the conditions of the goal that are closed. *)
Ltac eval_conds :=
  repeat match goal with
  | |- context [if ?c then _ else _] =>
    let v := eval vm_compute in c in
    match v with
    | true => change c with true
    | false => change c with false
    end; cbv iota
  end.

Lemma wdt_value_write (r : nat) (val : Z) (m : machine) :
  is_value r -> ar7_wdt_write (4 * Z.of_nat r) val m = m.
Proof.
  intros [->|[->|[->| ->]]]; unfold ar7_wdt_write; eval_conds;
    repeat match goal with |- context [if ?c then _ else _] => destruct c end; reflexivity.
Qed.

Lemma wdt_lock_write (r : nat) (val : Z) (m : machine) :
  is_lock r ->
  ar7_wdt_write (4 * Z.of_nat r) val m =
  match unlock_stage r val with
  | Some k => wdt_store r (wd_val val k) m
  | None => m
  end.
Proof.
  intros [->|[->|[->| ->]]]; unfold ar7_wdt_write, unlock_stage; eval_conds;
    unfold KICK_LOCK_1ST_STAGE, KICK_LOCK_2ND_STAGE, CHANGE_LOCK_1ST_STAGE,
      CHANGE_LOCK_2ND_STAGE, DISABLE_LOCK_1ST_STAGE, DISABLE_LOCK_2ND_STAGE,
      DISABLE_LOCK_3RD_STAGE, PRESCALE_LOCK_1ST_STAGE, PRESCALE_LOCK_2ND_STAGE;
    repeat match goal with |- context [if ?c then _ else _] => destruct c end; reflexivity.
Qed.

Lemma unlock_stage_wd_val (r : nat) (val k : Z) :
  unlock_stage r val = Some k -> Z.land (wd_val val k) 3 = k /\ 1 <= k <= 3.
Proof.
  unfold unlock_stage. intros H.
  repeat match type of H with
         | (if (?a =? ?b)%nat then _ else _) = _ => destruct (a =? b)%nat
         | (if ?a =? ?b then _ else _) = _ => destruct (Z.eqb_spec a b); [subst|]
         end;
    try discriminate; injection H as <-; split; (reflexivity || lia).
Qed.

(** C8: a write to a watchdog value register (kick, change, disable or
    prescale) while the low two bits of its paired lock register differ from
    3 leaves the whole machine, hence all watchdog state, unchanged; a write
    to a lock register sets its 2-bit stage field exactly on the magic values
    of its unlock sequence (kick 0x5555/0xAAAA, change 0x6666/0xBBBB,
    prescale 0x5A5A/0xA5A5 give stages 1 and 3; disable 0x7777, 0xCCCC,
    0xDDDD give stages 1, 2, 3) and touches no other watchdog word, and any
    other value leaves the machine unchanged. *)
Theorem C8_watchdog_lock_sequencing (m : machine) (val : Z) :
  av_wf (av m) ->
  (forall value : nat,
     is_value value ->
     lock_stage (value - 1) m <> 3 ->
     ar7_wdt_write (4 * Z.of_nat value) val m = m) /\
  (forall lock : nat,
     is_lock lock ->
     match unlock_stage lock val with
     | Some k =>
       lock_stage lock (ar7_wdt_write (4 * Z.of_nat lock) val m) = k /\
       forall r : nat, r <> lock ->
         elt (watchdog (av (ar7_wdt_write (4 * Z.of_nat lock) val m))) r
         = elt (watchdog (av m)) r
     | None => ar7_wdt_write (4 * Z.of_nat lock) val m = m
     end) /\
  unlock_stage prescale_lock 0x5A5A = Some 1 /\
  unlock_stage prescale_lock 0xA5A5 = Some 3 /\
  map (unlock_stage disable_lock) [0x7777; 0xCCCC; 0xDDDD] = [Some 1; Some 2; Some 3].
Proof.
  intros Hwf. split; [|split; [|repeat split]].
  - intros value Hv _. apply wdt_value_write. exact Hv.
  - intros lock Hl. rewrite wdt_lock_write by exact Hl.
    destruct (unlock_stage lock val) as [k|] eqn:E; [|reflexivity].
    destruct (unlock_stage_wd_val _ _ _ E) as [Hk _].
    assert (Hlt : (lock < length (watchdog (av m)))%nat).
    { rewrite (sz_watchdog _ Hwf).
      destruct Hl as [->|[->|[->| ->]]]; vm_compute; lia. }
    split.
    + unfold lock_stage, wdt_store, elt. cbn [av with_av set_watchdog watchdog].
      rewrite list_lookup_insert_eq by exact Hlt. exact Hk.
    + intros r Hr. unfold wdt_store, elt. cbn [av with_av set_watchdog watchdog].
      rewrite list_lookup_insert_ne by congruence. reflexivity.
Qed.

Lemma C8_witness :
  lock_stage prescale_lock machine_init <> 3 /\
  ar7_wdt_write 0x1c 0xFFFF machine_init = machine_init /\
  lock_stage prescale_lock (ar7_wdt_write 0x18 0x5A5A machine_init) = 1 /\
  lock_stage prescale_lock
    (ar7_wdt_write 0x18 0xA5A5 (ar7_wdt_write 0x18 0x5A5A machine_init)) = 3.
Proof.
  assert (Hn : lock_stage prescale_lock machine_init <> 3) by (vm_compute; discriminate).
  split; [exact Hn|].
  destruct (C8_watchdog_lock_sequencing machine_init 0xFFFF av_wf_init) as [Hv _].
  destruct (C8_watchdog_lock_sequencing machine_init 0x5A5A av_wf_init) as (_ & H1 & _).
  assert (Hwf1 : av_wf (av (ar7_wdt_write 0x18 0x5A5A machine_init))).
  { split; try reflexivity; try apply Forall_is_byte_replicate. }
  destruct (C8_watchdog_lock_sequencing _ 0xA5A5 Hwf1) as (_ & H3 & _).
  split; [|split].
  - apply (Hv prescale); [right; right; right; reflexivity | exact Hn].
  - apply (H1 prescale_lock). right; right; right; reflexivity.
  - apply (H3 prescale_lock). right; right; right; reflexivity.
Defined.

(** ** MDIO user access *)

Lemma land_range (a b n : Z) : 0 <= n -> 0 <= a < 2 ^ n -> 0 <= Z.land a b < 2 ^ n.
Proof.
  intros Hn Ha. assert (H0 : 0 <= Z.land a b) by (apply Z.land_nonneg; lia).
  split; [exact H0|].
  apply below_pow2_bits; [lia | exact H0|].
  intros i Hi. rewrite Z.land_spec.
  assert (2 ^ n <= 2 ^ i) by (apply Z.pow_le_mono_r; lia).
  rewrite (testbit_above a) by lia. reflexivity.
Qed.

Lemma lor_range (a b n : Z) :
  0 <= n -> 0 <= a < 2 ^ n -> 0 <= b < 2 ^ n -> 0 <= Z.lor a b < 2 ^ n.
Proof.
  intros Hn Ha Hb. split; [apply Z.lor_nonneg; lia|].
  apply below_pow2_bits; [lia | apply Z.lor_nonneg; lia|].
  intros i Hi. rewrite Z.lor_spec.
  assert (2 ^ n <= 2 ^ i) by (apply Z.pow_le_mono_r; lia).
  rewrite !testbit_above by lia. reflexivity.
Qed.

Lemma u16_small (v : Z) : 0 <= v < 2 ^ 16 -> u16 v = v.
Proof. intros H. unfold u16. apply Z.mod_small. exact H. Qed.

(** The fields of a USERACCESS0 value, as [ar7_mdio_write] decodes them. *)
Definition useraccess_go (val : Z) : bool := negb (Z.land val MDIO_USERACCESS_GO =? 0).
Definition useraccess_write (val : Z) : Z := Z.shiftr (Z.land val MDIO_USERACCESS_WRITE) 30.
Definition useraccess_regaddr (val : Z) : Z := Z.shiftr (Z.land val MDIO_USERACCESS_REGADR) 21.
Definition useraccess_phyaddr (val : Z) : Z := Z.shiftr (Z.land val MDIO_USERACCESS_PHYADR) 16.

(** [uint16_t mdio_useraccess_data[1][6]] *)
Definition phy_wf (p : mdio_statics) : Prop :=
  length (mdio_useraccess_data p) = 6%nat /\
  Forall (fun x => 0 <= x < 2 ^ 16) (mdio_useraccess_data p).

Lemma phy_wf_elt (p : mdio_statics) (i : nat) :
  phy_wf p -> 0 <= elt (mdio_useraccess_data p) i < 2 ^ 16.
Proof.
  intros [_ H]. unfold elt. destruct (_ !! i) as [x|] eqn:E; simpl; [|lia].
  eapply (Forall_lookup_1 _ _ _ _ H). exact E.
Qed.

(** A read access ([GO], PHY 31, register CONTROL, no data). *)
Definition useraccess_read_control : Z := 0x801F0000.

(** The machine after the guest stored [AUTO_NEGOTIATE_EN | RENEGOTIATE] into
    the PHY control register through a write access. *)
Definition machine_renegotiate : machine :=
  ar7_mdio_write 0x20 (0xC01F0000 + 0x1200) machine_init.

(** The same with [PHY_RESET] set as well. *)
Definition machine_reset_renegotiate : machine :=
  ar7_mdio_write 0x20 (0xC01F0000 + 0x9200) machine_init.

(** C10, as stated, fails: the access that finds RENEGOTIATE set leaves MDIO
    word 8 at 0 and stores [0x80000000] into word 3, the [link] member at
    byte offset 0x0c of [mdio_t]; and when the control register has
    PHY_RESET set too, RENEGOTIATE is not cleared. *)
Lemma C10_counterexample :
  Z.testbit (elt (mdio_useraccess_data (phy machine_renegotiate)) 0) 9 = true /\
  elt (mdio (av (ar7_mdio_write 0x20 useraccess_read_control machine_renegotiate))) 8
    <> 0x80000000 /\
  elt (mdio (av (ar7_mdio_write 0x20 useraccess_read_control machine_renegotiate))) 3
    = 0x80000000 /\
  Z.testbit (elt (mdio_useraccess_data (phy machine_reset_renegotiate)) 0) 9 = true /\
  Z.testbit (elt (mdio_useraccess_data
     (phy (ar7_mdio_write 0x20 useraccess_read_control machine_reset_renegotiate))) 0) 9
    = true.
Proof. repeat split; vm_compute; discriminate. Qed.

(** C10 (amended): when a USERACCESS0 write with GO=1, WRITE=0, PHYADDR=31
    and REGADDR=0 (CONTROL) finds the RENEGOTIATE bit set and the PHY_RESET
    bit clear in the PHY control register, RENEGOTIATE is cleared there, the
    PHY status register becomes [0x782d], the remote-advertise register
    becomes advertise | ISOLATE | RESET, the MDIO LINK register, word index 3
    (byte offset 0x0c), is set to [0x80000000], and word index 8 keeps its
    value. *)
Theorem C10_mdio_renegotiate (val : Z) (m : machine) :
  av_wf (av m) -> phy_wf (phy m) ->
  useraccess_go val = true ->
  useraccess_write val = 0 ->
  useraccess_phyaddr val = 31 ->
  useraccess_regaddr val = PHY_CONTROL_REG ->
  Z.testbit (elt (mdio_useraccess_data (phy m)) 0) 9 = true ->
  Z.testbit (elt (mdio_useraccess_data (phy m)) 0) 15 = false ->
  let data := mdio_useraccess_data (phy m) in
  let m' := ar7_mdio_write 0x20 val m in
  let data' := mdio_useraccess_data (phy m') in
  elt data' 0 = Z.land (elt data 0) (Z.lnot RENEGOTIATE) /\
  Z.testbit (elt data' 0) 9 = false /\
  elt data' 1 = 0x782d /\
  elt data' 5 = Z.lor (Z.lor (elt data 4) PHY_ISOLATE) PHY_RESET /\
  elt (mdio (av m')) 3 = 0x80000000 /\
  elt (mdio (av m')) 8 = elt (mdio (av m)) 8.
Proof.
  intros Hwf Hphy Hgo Hwr Hpa Hra Hren Hrst data m' data'.
  pose proof (phy_wf_elt _ 0 Hphy) as Hc. pose proof (phy_wf_elt _ 4 Hphy) as Ha.
  destruct Hphy as [Hlen _]. pose proof (sz_mdio _ Hwf) as Hml.
  fold data in Hc, Ha, Hlen, Hren, Hrst.
  set (c := elt data 0) in *.
  assert (Hc' : 0 <= Z.land c (Z.lnot RENEGOTIATE) < 2 ^ 16) by (apply land_range; lia).
  assert (Hm' : m' =
    with_av (set_mdio (<[32%nat := Z.land c (Z.lnot RENEGOTIATE)]>
                         (<[3%nat := 0x80000000]> (mdio (av m)))) (av m))
      (with_phy (mkMdio 0 0 (Z.land val MDIO_USERACCESS_DATA)
         (<[5%nat := Z.lor (Z.lor (elt data 4) PHY_ISOLATE) PHY_RESET]>
            (<[1%nat := 0x782d]> (<[0%nat := Z.land c (Z.lnot RENEGOTIATE)]> data)))) m)).
  { unfold m', ar7_mdio_write. unfold useraccess_go in Hgo.
    unfold useraccess_write in Hwr. unfold useraccess_phyaddr in Hpa.
    unfold useraccess_regaddr in Hra. unfold PHY_CONTROL_REG in Hra.
    change (32 =? 0)%nat with false. change (32 =? 1)%nat with false.
    change (32 =? 32)%nat with true. cbv iota. rewrite Hgo, Hpa, Hra, Hwr.
    change ((31 =? 31) && (0 <? 6)) with true. cbv iota beta.
    unfold mdio_user_access. fold data. change (Z.to_nat 0) with 0%nat. fold c.
    change (0 =? PHY_CONTROL_REG) with true. change (negb (0 =? 0)) with false.
    unfold PHY_RESET at 1, RENEGOTIATE at 1. rewrite !land_bit_eqb by lia.
    rewrite Hren, Hrst. cbn [negb andb]. cbv iota beta.
    rewrite (u16_small (Z.land c _)) by exact Hc'.
    replace (elt (<[1%nat:=30765]> (<[0%nat:=Z.land c (Z.lnot RENEGOTIATE)]> data)) 4)
      with (elt data 4)
      by (unfold elt; rewrite !list_lookup_insert_ne by lia; reflexivity).
    rewrite u16_small; [reflexivity|].
    apply lor_range; [lia | apply lor_range; [lia | exact Ha | vm_compute; split; congruence]
                     | vm_compute; split; congruence]. }
  assert (Hd : data' =
    <[5%nat := Z.lor (Z.lor (elt data 4) PHY_ISOLATE) PHY_RESET]>
      (<[1%nat := 0x782d]> (<[0%nat := Z.land c (Z.lnot RENEGOTIATE)]> data))).
  { unfold data'. rewrite Hm'. reflexivity. }
  assert (H0 : elt data' 0 = Z.land c (Z.lnot RENEGOTIATE)).
  { rewrite Hd. unfold elt. rewrite !list_lookup_insert_ne by lia.
    rewrite list_lookup_insert_eq by lia. reflexivity. }
  split; [exact H0|]. split.
  { rewrite H0, Z.land_spec. change (Z.testbit (Z.lnot RENEGOTIATE) 9) with false.
    apply andb_false_r. }
  split.
  { rewrite Hd. unfold elt. rewrite list_lookup_insert_ne by lia.
    rewrite list_lookup_insert_eq; [reflexivity|]. rewrite length_insert. lia. }
  split.
  { rewrite Hd. unfold elt. rewrite list_lookup_insert_eq; [reflexivity|].
    rewrite !length_insert. lia. }
  rewrite Hm'. cbn [av with_av set_mdio mdio]. unfold elt. split.
  - rewrite list_lookup_insert_ne by lia. rewrite list_lookup_insert_eq by lia. reflexivity.
  - rewrite !list_lookup_insert_ne by lia. reflexivity.
Qed.

Lemma phy_wf_renegotiate : phy_wf (phy machine_renegotiate).
Proof.
  split; [reflexivity|].
  change (mdio_useraccess_data (phy machine_renegotiate))
    with [0x1200; 0x7809; 0; 0; 0x01e1; 0x0001].
  repeat (apply Forall_cons; split; [lia|]). apply Forall_nil_2.
Qed.

Lemma av_wf_renegotiate : av_wf (av machine_renegotiate).
Proof. split; try reflexivity; apply Forall_is_byte_replicate. Qed.

Lemma C10_witness :
  let m' := ar7_mdio_write 0x20 useraccess_read_control machine_renegotiate in
  elt (mdio_useraccess_data (phy machine_renegotiate)) 0 = 0x1200 /\
  elt (mdio_useraccess_data (phy m')) 0 = 0x1000 /\
  elt (mdio_useraccess_data (phy m')) 1 = 0x782d /\
  elt (mdio_useraccess_data (phy m')) 5 = 0x85e1 /\
  elt (mdio (av m')) 3 = 0x80000000.
Proof.
  intros m'. split; [reflexivity|].
  destruct (C10_mdio_renegotiate useraccess_read_control machine_renegotiate)
    as (H0 & _ & H1 & H5 & H3 & _).
  - exact av_wf_renegotiate.
  - exact phy_wf_renegotiate.
  - reflexivity.
  - reflexivity.
  - reflexivity.
  - reflexivity.
  - reflexivity.
  - reflexivity.
  - repeat split; assumption.
Defined.

(** ** Guest memory *)

Definition ram_wf (r : gmap Z Z) : Prop := map_Forall (fun _ b => is_byte b) r.

(** The 32-bit little-endian word of guest memory at [a]. *)
Definition ldl (r : gmap Z Z) (a : Z) : Z :=
  le32_of_bytes (ram_get r a) (ram_get r (a + 1)) (ram_get r (a + 2)) (ram_get r (a + 3)).

Lemma ram_get_is_byte (r : gmap Z Z) (a : Z) : ram_wf r -> is_byte (ram_get r a).
Proof.
  intros H. unfold ram_get. destruct (r !! a) as [b|] eqn:E; simpl.
  - exact (H a b E).
  - unfold is_byte. lia.
Qed.

Lemma ldl_range (r : gmap Z Z) (a : Z) : ram_wf r -> 0 <= ldl r a < 2 ^ 32.
Proof. intros H. apply le32_of_bytes_range; apply ram_get_is_byte; exact H. Qed.

Lemma ram_get_insert (r : gmap Z Z) (a x b : Z) :
  ram_get (<[a := b]> r) x = if decide (a = x) then b else ram_get r x.
Proof. unfold ram_get. rewrite lookup_insert. destruct (decide (a = x)); reflexivity. Qed.

Lemma ram_get_write (buf : list Z) (r : gmap Z Z) (addr x : Z) :
  0 <= addr -> addr + Z.of_nat (length buf) <= 2 ^ 32 ->
  ram_get (cpu_physical_memory_write r addr buf) x =
  if (addr <=? x) && (x <? addr + Z.of_nat (length buf))
  then elt buf (Z.to_nat (x - addr)) else ram_get r x.
Proof.
  revert r addr. induction buf as [|b buf IH]; intros r addr Ha Hl.
  - cbn [cpu_physical_memory_write length]. destruct (addr <=? x) eqn:E1; [|reflexivity].
    destruct (x <? addr + Z.of_nat 0) eqn:E2; [lia | reflexivity].
  - cbn [cpu_physical_memory_write]. cbn [length] in *.
    rewrite IH by lia. rewrite ram_get_insert. rewrite (u32_small addr) by lia.
    destruct (decide (addr = x)) as [->|Hne].
    + replace (x + 1 <=? x) with false by lia. replace (x <=? x) with true by lia.
      replace (x <? x + Z.of_nat (S (length buf))) with true by lia.
      replace (x - x) with 0 by lia. reflexivity.
    + destruct (addr + 1 <=? x) eqn:E1.
      * replace (addr <=? x) with true by lia.
        replace (x <? addr + Z.of_nat (S (length buf)))
          with (x <? addr + 1 + Z.of_nat (length buf)) by lia.
        destruct (x <? _); [|reflexivity]. cbn [andb].
        replace (Z.to_nat (x - addr)) with (S (Z.to_nat (x - (addr + 1)))) by lia.
        reflexivity.
      * cbn [andb]. replace (addr <=? x) with false by lia. reflexivity.
Qed.

Lemma ram_wf_write (buf : list Z) (r : gmap Z Z) (addr : Z) :
  ram_wf r -> Forall is_byte buf -> ram_wf (cpu_physical_memory_write r addr buf).
Proof.
  revert r addr. induction buf as [|b buf IH]; intros r addr Hr Hb; [exact Hr|].
  cbn [cpu_physical_memory_write]. apply Forall_cons in Hb as [Hb1 Hb2].
  apply IH; [|exact Hb2]. apply map_Forall_insert_2; assumption.
Qed.

Lemma read_lookup (r : gmap Z Z) (addr len : Z) (i : nat) :
  (i < Z.to_nat len)%nat ->
  cpu_physical_memory_read r addr len !! i = Some (ram_get r (u32 (addr + Z.of_nat i))).
Proof.
  intros Hi. unfold cpu_physical_memory_read.
  rewrite list_lookup_fmap, lookup_seq_lt by exact Hi. reflexivity.
Qed.

Lemma length_read (r : gmap Z Z) (addr len : Z) :
  length (cpu_physical_memory_read r addr len) = Z.to_nat len.
Proof. unfold cpu_physical_memory_read. rewrite length_map, length_seq. reflexivity. Qed.

Lemma read_is_byte (r : gmap Z Z) (addr len : Z) :
  ram_wf r -> Forall is_byte (cpu_physical_memory_read r addr len).
Proof.
  intros H. unfold cpu_physical_memory_read. apply Forall_fmap, Forall_forall.
  intros i _. apply ram_get_is_byte. exact H.
Qed.

(** Two reads of the same range agree when the memories agree on it. *)
Lemma read_ext (r r' : gmap Z Z) (addr len : Z) :
  0 <= addr -> addr + len <= 2 ^ 32 ->
  (forall x, addr <= x < addr + len -> ram_get r' x = ram_get r x) ->
  cpu_physical_memory_read r' addr len = cpu_physical_memory_read r addr len.
Proof.
  intros Ha Hl H. unfold cpu_physical_memory_read. apply map_ext_in.
  intros i Hi. apply in_seq in Hi. rewrite u32_small by lia. apply H. lia.
Qed.


Lemma read_write_disjoint (buf : list Z) (r : gmap Z Z) (addr addr' len : Z) :
  0 <= addr -> addr + Z.of_nat (length buf) <= 2 ^ 32 ->
  0 <= addr' -> addr' + len <= 2 ^ 32 ->
  addr' + len <= addr \/ addr + Z.of_nat (length buf) <= addr' ->
  cpu_physical_memory_read (cpu_physical_memory_write r addr buf) addr' len =
  cpu_physical_memory_read r addr' len.
Proof.
  intros Ha Hl Ha' Hl' Hd. apply read_ext; [lia | lia|].
  intros x Hx. rewrite ram_get_write by lia.
  replace ((addr <=? x) && (x <? addr + Z.of_nat (length buf))) with false by lia.
  reflexivity.
Qed.

Lemma read_cb_ldl (r : gmap Z Z) (val : Z) :
  0 <= val -> val + 16 <= 2 ^ 32 ->
  read_cb r val = mkTcb (ldl r val) (ldl r (val + 4)) (ldl r (val + 8)) (ldl r (val + 12)).
Proof.
  intros Hv Hl. unfold read_cb, ldl, elt.
  rewrite !read_lookup by (vm_compute; lia). cbn [default].
  rewrite !u32_small by lia. unfold id.
  repeat (f_equal; try lia).
Qed.

Lemma ldl_write_disjoint (buf : list Z) (r : gmap Z Z) (addr a : Z) :
  0 <= addr -> addr + Z.of_nat (length buf) <= 2 ^ 32 ->
  a + 4 <= addr \/ addr + Z.of_nat (length buf) <= a ->
  ldl (cpu_physical_memory_write r addr buf) a = ldl r a.
Proof.
  intros Ha Hl Hd. unfold ldl. rewrite !ram_get_write by lia.
  repeat match goal with
         | |- context [(?p <=? ?q) && (?x <? ?y)] =>
           replace ((p <=? q) && (x <? y)) with false by lia
         end.
  reflexivity.
Qed.

Lemma ldl_stl_same (r : gmap Z Z) (a v : Z) :
  0 <= a -> a + 4 <= 2 ^ 32 -> ldl (stl_phys r a v) a = u32 v.
Proof.
  intros Ha Hl. unfold ldl, stl_phys.
  pose proof (le32_roundtrip v) as R.
  destruct (le32_bytes v) as [|b0 [|b1 [|b2 [|b3 [|? ?]]]]] eqn:E; try contradiction.
  rewrite !ram_get_write by (cbn [length]; lia). cbn [length].
  repeat match goal with
         | |- context [(?p <=? ?q) && (?x <? ?y)] =>
           replace ((p <=? q) && (x <? y)) with true by lia
         end.
  replace (Z.to_nat (a - a)) with 0%nat by lia.
  replace (Z.to_nat (a + 1 - a)) with 1%nat by lia.
  replace (Z.to_nat (a + 2 - a)) with 2%nat by lia.
  replace (Z.to_nat (a + 3 - a)) with 3%nat by lia.
  exact R.
Qed.

(** ** CPMAC receive *)

Lemma ram_put_cpmac (index : nat) (c : list Z) (m : machine) :
  ram (put_cpmac index c m) = ram m.
Proof. destruct index; reflexivity. Qed.

(** The bank after [reg_inc(cpmac, addr)]. *)
Definition bump (cpmac : list Z) (addr : Z) : list Z :=
  store32 cpmac addr (u32 (reg_read cpmac addr + 1)).

(** The bank after the classification and size counters of
    [ar7_nic_receive] were stepped. *)
Definition rx_counted (buf : nat -> Z) (size : Z) (cpmac : list Z) : list Z :=
  let c1 := if is_broadcast buf then bump cpmac CPMAC_RXBROADCASTFRAMES
            else if is_multicast buf then bump cpmac CPMAC_RXMULTICASTFRAMES
            else cpmac in
  let c2 := if size <? 64 then bump c1 CPMAC_RXUNDERSIZEDFRAMES
            else if MAX_ETH_FRAME_SIZE <? size then bump c1 CPMAC_RXOVERSIZEDFRAMES
            else c1 in
  bump c2 CPMAC_RXGOODFRAMES.

Lemma length_bump (c : list Z) (a : Z) : length (bump c a) = length c.
Proof. apply length_store32. Qed.

Lemma bump_is_byte (c : list Z) (a : Z) : Forall is_byte c -> Forall is_byte (bump c a).
Proof. apply store32_is_byte. Qed.

Lemma reg_read_bump_same (c : list Z) (a : Z) :
  0 <= a -> (Z.to_nat a + 4 <= length c)%nat ->
  reg_read (bump c a) a = u32 (reg_read c a + 1).
Proof.
  intros Ha Hl. unfold bump. rewrite reg_read_store32 by assumption.
  apply u32_small, u32_range.
Qed.

Lemma reg_read_bump_other (c : list Z) (a a' : Z) :
  0 <= a -> 0 <= a' -> a' + 4 <= a \/ a + 4 <= a' ->
  reg_read (bump c a) a' = reg_read c a'.
Proof. intros. apply reg_read_store32_other; assumption. Qed.



Ltac cpmac_consts :=
  unfold CPMAC_RXGOODFRAMES, CPMAC_RXBROADCASTFRAMES, CPMAC_RXMULTICASTFRAMES,
    CPMAC_RXUNDERSIZEDFRAMES, CPMAC_RXOVERSIZEDFRAMES, CPMAC_RX0_HDP,
    CPMAC_MAC_IN_VECTOR, CPMAC_TXGOODFRAMES, CPMAC_TX0_HDP, CPMAC_TX7_HDP in *.

(** Read a register through a stack of [bump]s on a bank of known length. *)
Ltac read_bumps Hlen :=
  repeat first
    [ rewrite reg_read_bump_other by (cpmac_consts; lia)
    | rewrite reg_read_bump_same
        by (cpmac_consts; rewrite ?length_bump, ?Hlen; lia) ].

Lemma rx_counted_other (buf : nat -> Z) (size : Z) (c : list Z) (a : Z) :
  0 <= a -> a + 4 <= CPMAC_RXGOODFRAMES \/ CPMAC_RXUNDERSIZEDFRAMES + 4 <= a ->
  reg_read (rx_counted buf size c) a = reg_read c a.
Proof.
  intros Ha Hd. unfold rx_counted.
  repeat match goal with |- context [if ?b then _ else _] => destruct b end;
    read_bumps tt; reflexivity.
Qed.

Lemma rx_counted_counters (buf : nat -> Z) (size : Z) (c : list Z) :
  length c = 0x800%nat ->
  let c' := rx_counted buf size c in
  reg_read c' CPMAC_RXGOODFRAMES = u32 (reg_read c CPMAC_RXGOODFRAMES + 1) /\
  reg_read c' CPMAC_RXBROADCASTFRAMES =
    (if is_broadcast buf then u32 (reg_read c CPMAC_RXBROADCASTFRAMES + 1)
     else reg_read c CPMAC_RXBROADCASTFRAMES) /\
  reg_read c' CPMAC_RXMULTICASTFRAMES =
    (if negb (is_broadcast buf) && is_multicast buf
     then u32 (reg_read c CPMAC_RXMULTICASTFRAMES + 1)
     else reg_read c CPMAC_RXMULTICASTFRAMES) /\
  reg_read c' CPMAC_RXUNDERSIZEDFRAMES =
    (if size <? 64 then u32 (reg_read c CPMAC_RXUNDERSIZEDFRAMES + 1)
     else reg_read c CPMAC_RXUNDERSIZEDFRAMES) /\
  reg_read c' CPMAC_RXOVERSIZEDFRAMES =
    (if MAX_ETH_FRAME_SIZE <? size then u32 (reg_read c CPMAC_RXOVERSIZEDFRAMES + 1)
     else reg_read c CPMAC_RXOVERSIZEDFRAMES).
Proof.
  intros Hlen c'. unfold c', rx_counted.
  destruct (is_broadcast buf), (is_multicast buf); cbn [negb andb];
    destruct (size <? 64) eqn:E1;
    destruct (MAX_ETH_FRAME_SIZE <? size) eqn:E2;
    try (unfold MAX_ETH_FRAME_SIZE in E2; lia);
    repeat split; read_bumps Hlen; reflexivity.
Qed.

Lemma bind_done {A B : Type} (x : A) (f : A -> result B) : (Done x ≫= f) = f x.
Proof. reflexivity. Qed.

(** What [ar7_nic_receive] does once the counters are stepped: [cpmac] is
    the bank with the counters already incremented. *)
Definition rx_deliver (index : nat) (buf : nat -> Z) (size : Z) (m : machine)
           (cpmac : list Z) : result machine :=
  let m := put_cpmac index cpmac m in
  let val := reg_read cpmac CPMAC_RX0_HDP in
  if val =? 0 then mret m
  else
    let rcb := read_cb (ram m) val in
    let addr := tcb_buff rcb in
    let mode := tcb_mode rcb in
    if negb (Z.land mode CB_OWNERSHIP_BIT =? 0) then
      let mode := Z.land mode (Z.lnot CB_OWNERSHIP_BIT) in
      let mode := Z.lor mode (Z.land size CB_SIZE_MASK) in
      let mode := Z.lor mode (Z.lor CB_SOF_BIT CB_EOF_BIT) in
      let mode := if tcb_next rcb =? 0 then Z.lor mode CB_EOQ_BIT else mode in
      let rcb := mkTcb (tcb_next rcb) (tcb_buff rcb) (u32 size) mode in
      let r := cpu_physical_memory_write (ram m) addr (bytes_of buf size) in
      let r := cpu_physical_memory_write r val (cb_bytes rcb) in
      let m := with_ram r m in
      cpmac ← reg_write cpmac CPMAC_RX0_HDP (tcb_next rcb);
      cpmac ← reg_set cpmac CPMAC_MAC_IN_VECTOR (MAC_IN_VECTOR_RX_INT_OR + 0);
      mret (ar7_irq (elt cpmac_interrupt index) 1 (put_cpmac index cpmac m))
    else mret m.

#[global] Arguments rx_deliver : simpl never.

Lemma nic_receive_unfold (index : nat) (buf : nat -> Z) (size : Z) (m : machine) :
  ar7_nic_receive index buf size m =
  (let cpmac := cpmac_of index m in
   cpmac ← (if is_broadcast buf then reg_inc cpmac CPMAC_RXBROADCASTFRAMES
            else if is_multicast buf then reg_inc cpmac CPMAC_RXMULTICASTFRAMES
            else mret cpmac);
   cpmac ← (if size <? 64 then reg_inc cpmac CPMAC_RXUNDERSIZEDFRAMES
            else if MAX_ETH_FRAME_SIZE <? size then reg_inc cpmac CPMAC_RXOVERSIZEDFRAMES
            else mret cpmac);
   cpmac ← reg_inc cpmac CPMAC_RXGOODFRAMES;
   rx_deliver index buf size m cpmac).
Proof. reflexivity. Qed.

Lemma nic_receive_count (index : nat) (buf : nat -> Z) (size : Z) (m : machine) :
  ar7_nic_receive index buf size m =
  rx_deliver index buf size m (rx_counted buf size (cpmac_of index m)).
Proof.
  rewrite nic_receive_unfold. unfold rx_counted, bump. cbv zeta.
  destruct (is_broadcast buf); [|destruct (is_multicast buf)];
    (destruct (size <? 64);
     [|destruct (MAX_ETH_FRAME_SIZE <? size)]);
    unfold mret, result_ret;
    repeat (rewrite reg_inc_aligned by reflexivity; rewrite bind_done);
    rewrite ?bind_done;
    repeat (rewrite reg_inc_aligned by reflexivity; rewrite bind_done);
    reflexivity.
Qed.

Lemma rx_deliver_none (index : nat) (buf : nat -> Z) (size : Z) (m : machine)
      (cpmac : list Z) :
  reg_read cpmac CPMAC_RX0_HDP = 0 ->
  rx_deliver index buf size m cpmac = Done (put_cpmac index cpmac m).
Proof. intros H. unfold rx_deliver. cbv zeta. rewrite H. reflexivity. Qed.




Lemma cb_bytes_is_byte (cb : cpphy_tcb_t) : Forall is_byte (cb_bytes cb).
Proof. unfold cb_bytes. repeat apply Forall_app_2; apply le32_bytes_is_byte. Qed.


Lemma read_cb_range (r : gmap Z Z) (val : Z) :
  ram_wf r ->
  0 <= tcb_next (read_cb r val) < 2 ^ 32 /\ 0 <= tcb_buff (read_cb r val) < 2 ^ 32 /\
  0 <= tcb_length (read_cb r val) < 2 ^ 32 /\ 0 <= tcb_mode (read_cb r val) < 2 ^ 32.
Proof.
  intros H. unfold read_cb. cbn [tcb_next tcb_buff tcb_length tcb_mode].
  pose proof (read_is_byte r val 16 H) as Hb.
  repeat split; try (apply le32_of_bytes_range; apply elt_is_byte; exact Hb).
  all: apply le32_of_bytes_range; apply elt_is_byte; exact Hb.
Qed.

Lemma ar7_irq_frame (irq_num level : Z) (m : machine) :
  ram (ar7_irq irq_num level m) = ram m /\
  net_out (ar7_irq irq_num level m) = net_out m /\
  phy (ar7_irq irq_num level m) = phy m /\
  nic (av (ar7_irq irq_num level m)) = nic (av m) /\
  intmask (av (ar7_irq irq_num level m)) = intmask (av m).
Proof.
  unfold ar7_irq. destruct (_ || _); [|repeat split].
  destruct (negb (level =? 0)); [|repeat split].
  destruct (_ <? _); [|repeat split]. destruct (negb _); repeat split.
Qed.

(** The address tests, in terms of the bytes they read. *)
Lemma is_broadcast_spec (buf : nat -> Z) :
  is_broadcast buf = true <-> forall i : nat, (i < 6)%nat -> buf i = 0xff.
Proof.
  unfold is_broadcast, broadcast_macaddr. cbn [memcmp_eq].
  rewrite !andb_true_iff, !Z.eqb_eq. split.
  - intros (H0 & H1 & H2 & H3 & H4 & H5 & _) i Hi.
    destruct i as [|[|[|[|[|[|i]]]]]]; try assumption. lia.
  - intros H. repeat split; apply H; lia.
Qed.

Lemma is_multicast_spec (buf : nat -> Z) :
  is_multicast buf = true <-> Z.odd (buf 0%nat) = true.
Proof.
  unfold is_multicast. change 1 with (BIT 0). rewrite land_bit_eqb by lia.
  rewrite negb_involutive, Z.bit0_odd. reflexivity.
Qed.


(** The memory that holds the bytes [l], followed by zeros. *)
Definition bytes_at (l : list Z) : nat -> Z := fun i => elt l i.

Lemma bytes_of_bytes_at (l : list Z) : bytes_of (bytes_at l) (Z.of_nat (length l)) = l.
Proof.
  unfold bytes_of, bytes_at. rewrite Nat2Z.id. apply list_eq. intros i.
  rewrite list_lookup_fmap. destruct (decide (i < length l)%nat) as [Hi|Hi].
  - rewrite lookup_seq_lt by exact Hi. cbn. unfold elt.
    destruct (l !! i) eqn:E; [reflexivity|]. apply lookup_ge_None in E. lia.
  - rewrite lookup_seq_ge by lia. symmetry. apply lookup_ge_None. lia.
Qed.

(** C7: when a frame is delivered while RX0_HDP is 0, the call returns with
    RXGOODFRAMES incremented, the broadcast or multicast counter and the
    undersized or oversized counter incremented when the frame is of that
    kind, RX0_HDP still 0, guest memory unchanged, no packet sent, the CPU
    untouched and no line asserted.  The frame is the first [size] bytes at
    [buf], for any [size]; it counts as broadcast when the first six bytes
    at [buf] are all 0xff and else as multicast when the first byte is odd,
    also when the frame is shorter than six bytes. *)
Theorem C7_rx_without_buffer (index : nat) (buf : nat -> Z) (size : Z) (m : machine) :
  (index < 2)%nat ->
  av_wf (av m) ->
  reg_read (cpmac_of index m) CPMAC_RX0_HDP = 0 ->
  exists m',
    ar7_nic_receive index buf size m = Done m' /\
    let c := cpmac_of index m in
    let c' := cpmac_of index m' in
    reg_read c' CPMAC_RXGOODFRAMES = u32 (reg_read c CPMAC_RXGOODFRAMES + 1) /\
    reg_read c' CPMAC_RXBROADCASTFRAMES =
      (if is_broadcast buf then u32 (reg_read c CPMAC_RXBROADCASTFRAMES + 1)
       else reg_read c CPMAC_RXBROADCASTFRAMES) /\
    reg_read c' CPMAC_RXMULTICASTFRAMES =
      (if negb (is_broadcast buf) && is_multicast buf
       then u32 (reg_read c CPMAC_RXMULTICASTFRAMES + 1)
       else reg_read c CPMAC_RXMULTICASTFRAMES) /\
    reg_read c' CPMAC_RXUNDERSIZEDFRAMES =
      (if size <? 64 then u32 (reg_read c CPMAC_RXUNDERSIZEDFRAMES + 1)
       else reg_read c CPMAC_RXUNDERSIZEDFRAMES) /\
    reg_read c' CPMAC_RXOVERSIZEDFRAMES =
      (if MAX_ETH_FRAME_SIZE <? size then u32 (reg_read c CPMAC_RXOVERSIZEDFRAMES + 1)
       else reg_read c CPMAC_RXOVERSIZEDFRAMES) /\
    (is_broadcast buf = true <-> forall i : nat, (i < 6)%nat -> buf i = 0xff) /\
    (is_multicast buf = true <-> Z.odd (buf 0%nat) = true) /\
    reg_read c' CPMAC_RX0_HDP = 0 /\
    reg_read c' CPMAC_MAC_IN_VECTOR = reg_read c CPMAC_MAC_IN_VECTOR /\
    ram m' = ram m /\
    irq_log m' = irq_log m /\
    cpu_env m' = cpu_env m /\
    intc (av m') = intc (av m) /\
    net_out m' = net_out m.
Proof.
  intros Hi Hwf Hhdp. pose proof (cpmac_of_sized index m Hwf) as Hlen.
  assert (Hh : reg_read (rx_counted buf size (cpmac_of index m)) CPMAC_RX0_HDP = 0).
  { rewrite rx_counted_other by (cpmac_consts; lia). exact Hhdp. }
  exists (put_cpmac index (rx_counted buf size (cpmac_of index m)) m). split.
  - rewrite nic_receive_count. apply rx_deliver_none. exact Hh.
  - cbv zeta. rewrite cpmac_of_put.
    destruct (rx_counted_counters buf size _ Hlen) as (H1 & H2 & H3 & H4 & H5).
    repeat (split; [assumption|]).
    split; [apply is_broadcast_spec|].
    split; [apply is_multicast_spec|].
    split; [exact Hh|].
    split; [apply rx_counted_other; cpmac_consts; lia|].
    destruct index; repeat split.
Qed.

(** An all-ones 100-byte frame. *)
Definition frame_100 : list Z := replicate 100 0xff.

(** A receive buffer of all ones: a frame of its first three bytes is
    followed by what an earlier frame left there. *)
Definition buffer_ones : nat -> Z := fun _ => 0xff.

Lemma C7_witness :
  (exists m',
     ar7_nic_receive 0 (bytes_at frame_100) 100 machine_init = Done m' /\
     reg_read (cpmac_of 0 m') CPMAC_RXGOODFRAMES = 1 /\
     reg_read (cpmac_of 0 m') CPMAC_RXBROADCASTFRAMES = 1 /\
     reg_read (cpmac_of 0 m') CPMAC_RX0_HDP = 0 /\
     ram m' = ram machine_init /\
     irq_log m' = []) /\
  (exists m',
     ar7_nic_receive 0 buffer_ones 3 machine_init = Done m' /\
     reg_read (cpmac_of 0 m') CPMAC_RXGOODFRAMES = 1 /\
     reg_read (cpmac_of 0 m') CPMAC_RXBROADCASTFRAMES = 1 /\
     reg_read (cpmac_of 0 m') CPMAC_RXMULTICASTFRAMES = 0 /\
     reg_read (cpmac_of 0 m') CPMAC_RXUNDERSIZEDFRAMES = 1) /\
  (exists m',
     ar7_nic_receive 0 (bytes_at [0xff; 0xff; 0xff]) 3 machine_init = Done m' /\
     reg_read (cpmac_of 0 m') CPMAC_RXBROADCASTFRAMES = 0 /\
     reg_read (cpmac_of 0 m') CPMAC_RXMULTICASTFRAMES = 1).
Proof.
  split; [|split].
  - destruct (C7_rx_without_buffer 0 (bytes_at frame_100) 100 machine_init)
      as (m' & H & H1 & H2 & _ & _ & _ & _ & _ & H6 & _ & H7 & H8 & _).
    + lia.
    + exact av_wf_init.
    + reflexivity.
    + exists m'. repeat split; assumption.
  - destruct (C7_rx_without_buffer 0 buffer_ones 3 machine_init)
      as (m' & H & H1 & H2 & H3 & H4 & _).
    + lia.
    + exact av_wf_init.
    + reflexivity.
    + exists m'. repeat split; assumption.
  - destruct (C7_rx_without_buffer 0 (bytes_at [0xff; 0xff; 0xff]) 3 machine_init)
      as (m' & H & _ & H2 & H3 & _).
    + lia.
    + exact av_wf_init.
    + reflexivity.
    + exists m'. repeat split; assumption.
Defined.












(** ** CPMAC transmit *)

(** The ranges [[a, a+n)] and [[b, b+k)] do not meet. *)
Definition apart (a n b k : Z) : Prop := a + n <= b \/ b + k <= a.

(** The chain of transmit descriptors at the addresses [ps] that the
    device walks from [val], with [len] bytes of the current frame already
    assembled.  Every descriptor lies in the 32-bit address space with its
    payload, has SOF, EOF and OWNERSHIP set and a length equal to the low 16
    bits of its mode; the frame under assembly stays within
    [MAX_ETH_FRAME_SIZE]; a descriptor with EOQ set, which continues the
    frame, has a successor; the mode word of a descriptor overlaps no later
    descriptor and no payload of a later descriptor; the chain ends where
    [next] is 0. *)
Fixpoint tx_chain (r : gmap Z Z) (val len : Z) (ps : list Z) : Prop :=
  match ps with
  | [] => val = 0
  | p :: rest =>
    let d := read_cb r p in
    p = val /\ 0 < val /\ val + 16 <= 2 ^ 32 /\
    Z.testbit (tcb_mode d) 31 = true /\
    Z.testbit (tcb_mode d) 30 = true /\
    Z.testbit (tcb_mode d) 29 = true /\
    Z.land (tcb_mode d) CB_SIZE_MASK = tcb_length d /\
    len + tcb_length d <= MAX_ETH_FRAME_SIZE /\
    tcb_buff d + tcb_length d <= 2 ^ 32 /\
    (Z.testbit (tcb_mode d) 28 = true -> tcb_next d <> 0) /\
    Forall (fun p' => apart (p + 12) 4 p' 16 /\
                      apart (p + 12) 4 (tcb_buff (read_cb r p')) (tcb_length (read_cb r p')))
           rest /\
    tx_chain r (tcb_next d) (if Z.testbit (tcb_mode d) 28 then len + tcb_length d else 0) rest
  end.

(** The frames of a chain: the payloads of its descriptors, those of a
    descriptor with EOQ set and of its successor joined. *)
Fixpoint tx_frames (r : gmap Z Z) (ps : list Z) (acc : list Z) : list (list Z) :=
  match ps with
  | [] => []
  | p :: rest =>
    let d := read_cb r p in
    let acc := acc ++ cpu_physical_memory_read r (tcb_buff d) (tcb_length d) in
    if Z.testbit (tcb_mode d) 28 then tx_frames r rest acc
    else acc :: tx_frames r rest []
  end.

(** Guest memory after the mode of every descriptor of [ps] was written back
    with OWNERSHIP cleared, in chain order. *)
Fixpoint clear_own (r : gmap Z Z) (ps : list Z) : gmap Z Z :=
  match ps with
  | [] => r
  | p :: rest =>
    clear_own (stl_phys r (p + 12) (Z.land (tcb_mode (read_cb r p)) (Z.lnot CB_OWNERSHIP_BIT)))
              rest
  end.

(** [r'] holds the same descriptors and payloads as [r] at [ps]. *)
Definition agree (r r' : gmap Z Z) (ps : list Z) : Prop :=
  Forall (fun p =>
            read_cb r' p = read_cb r p /\
            cpu_physical_memory_read r' (tcb_buff (read_cb r p)) (tcb_length (read_cb r p)) =
            cpu_physical_memory_read r (tcb_buff (read_cb r p)) (tcb_length (read_cb r p)))
         ps.

Lemma agree_refl (r : gmap Z Z) (ps : list Z) : agree r r ps.
Proof. apply Forall_forall. intros p _. split; reflexivity. Qed.

Lemma agree_trans (r1 r2 r3 : gmap Z Z) (ps : list Z) :
  agree r1 r2 ps -> agree r2 r3 ps -> agree r1 r3 ps.
Proof.
  unfold agree. rewrite !Forall_forall. intros H12 H23 p Hp.
  destruct (H12 p Hp) as [A1 B1]. destruct (H23 p Hp) as [A2 B2].
  rewrite A1 in A2, B2. split; congruence.
Qed.

Lemma agree_app_r (r r' : gmap Z Z) (ps1 ps2 : list Z) :
  agree r r' (ps1 ++ ps2) -> agree r r' ps2.
Proof. unfold agree. rewrite Forall_app. tauto. Qed.

Lemma tx_chain_agree (r r' : gmap Z Z) (ps : list Z) (val len : Z) :
  agree r r' ps -> tx_chain r val len ps -> tx_chain r' val len ps.
Proof.
  revert val len. induction ps as [|p rest IH]; intros val len Ha Hc; [exact Hc|].
  apply Forall_cons in Ha as [[Hd _] Ha].
  cbn [tx_chain] in *. rewrite Hd.
  destruct Hc as (H1 & H2 & H3 & H4 & H5 & H6 & H7 & H8 & H9 & H10 & H11 & H12).
  repeat (split; [assumption|]). split.
  - unfold agree in Ha. rewrite Forall_forall in *.
    intros p' Hp'. destruct (Ha p' Hp') as [-> _]. apply H11. exact Hp'.
  - apply IH; assumption.
Qed.

Lemma tx_frames_agree (r r' : gmap Z Z) (ps : list Z) (acc : list Z) :
  agree r r' ps -> tx_frames r' ps acc = tx_frames r ps acc.
Proof.
  revert acc. induction ps as [|p rest IH]; intros acc Ha; [reflexivity|].
  apply Forall_cons in Ha as [[Hd Hb] Ha].
  cbn [tx_frames]. rewrite Hd, Hb, !IH by exact Ha. reflexivity.
Qed.

Lemma read_cb_write_disjoint (buf : list Z) (r : gmap Z Z) (addr p : Z) :
  0 <= addr -> addr + Z.of_nat (length buf) <= 2 ^ 32 ->
  0 <= p -> p + 16 <= 2 ^ 32 ->
  apart addr (Z.of_nat (length buf)) p 16 ->
  read_cb (cpu_physical_memory_write r addr buf) p = read_cb r p.
Proof.
  intros Ha Hl Hp Hpl Hd. unfold read_cb.
  rewrite read_write_disjoint by (unfold apart in Hd; lia). reflexivity.
Qed.

Lemma stl_phys_wf (r : gmap Z Z) (a v : Z) : ram_wf r -> ram_wf (stl_phys r a v).
Proof. intros H. apply ram_wf_write; [exact H | apply le32_bytes_is_byte]. Qed.

(** A mode write-back at [p] leaves the rest of the chain as it was. *)
Lemma agree_stl (r : gmap Z Z) (p v val len : Z) (rest : list Z) :
  ram_wf r -> 0 <= p -> p + 16 <= 2 ^ 32 ->
  tx_chain r val len rest ->
  Forall (fun p' => apart (p + 12) 4 p' 16 /\
                    apart (p + 12) 4 (tcb_buff (read_cb r p')) (tcb_length (read_cb r p')))
         rest ->
  agree r (stl_phys r (p + 12) v) rest.
Proof.
  intros Hwf Hp Hpl. revert val len.
  induction rest as [|p' rest IH]; intros val len Hc Hap; [apply Forall_nil_2|].
  apply Forall_cons in Hap as [[Ha1 Ha2] Hap].
  cbn [tx_chain] in Hc.
  destruct Hc as (H1 & H2 & H3 & _ & _ & _ & _ & _ & H9 & _ & _ & H12). subst p'.
  destruct (read_cb_range r val Hwf) as (_ & Hb & Hl & _).
  apply Forall_cons. split; [split|].
  - unfold stl_phys. apply read_cb_write_disjoint; cbn [length le32_bytes]; try lia.
    exact Ha1.
  - unfold stl_phys. apply read_write_disjoint; cbn [length le32_bytes]; try lia.
    unfold apart in Ha2. lia.
  - eapply IH; eassumption.
Qed.

Lemma sendloop_step (fuel : nat) (r : gmap Z Z) (val len : Z) (buffer : list Z) :
  let d := read_cb r val in
  0 <= val -> val + 16 <= 2 ^ 32 ->
  Z.of_nat (length buffer) = len -> 0 <= tcb_length d ->
  len + tcb_length d <= MAX_ETH_FRAME_SIZE ->
  Z.land (tcb_mode d) CB_SIZE_MASK = tcb_length d ->
  Z.testbit (tcb_mode d) 31 = true ->
  Z.testbit (tcb_mode d) 30 = true ->
  Z.testbit (tcb_mode d) 29 = true ->
  sendloop (S fuel) r val len buffer =
  let buffer' := buffer ++ cpu_physical_memory_read r (tcb_buff d) (tcb_length d) in
  let r1 := stl_phys r (val + 12) (Z.land (tcb_mode d) (Z.lnot CB_OWNERSHIP_BIT)) in
  if Z.testbit (tcb_mode d) 28 then sendloop fuel r1 (tcb_next d) (len + tcb_length d) buffer'
  else Done (r1, d, len + tcb_length d, buffer').
Proof.
  intros d Hv Hvl Hlen Hcur Hmax Hsz H31 H30 H29.
  cbn [sendloop]. fold d. cbv zeta.
  assert (Hu : u32 (len + tcb_length d) = len + tcb_length d).
  { apply u32_small. unfold MAX_ETH_FRAME_SIZE in Hmax. lia. }
  rewrite Hu, (u32_small (val + 12)) by lia.
  replace (len + tcb_length d <=? MAX_ETH_FRAME_SIZE) with true by lia.
  rewrite Hsz, Z.eqb_refl.
  change (Z.land (tcb_mode d) CB_SOF_BIT) with (Z.land (tcb_mode d) (BIT 31)).
  change (Z.land (tcb_mode d) CB_EOF_BIT) with (Z.land (tcb_mode d) (BIT 30)).
  change (Z.land (tcb_mode d) CB_OWNERSHIP_BIT) with (Z.land (tcb_mode d) (BIT 29)).
  unfold CB_EOQ_BIT.
  rewrite !land_bit_eqb by lia. rewrite H31, H30, H29.
  rewrite Z.land_spec. change (Z.testbit (Z.lnot CB_OWNERSHIP_BIT) 28) with true.
  rewrite andb_true_r, negb_involutive.
  replace (take (Z.to_nat len) buffer) with buffer
    by (symmetry; apply take_ge; lia).
  reflexivity.
Qed.

#[global] Arguments sendloop : simpl never.
#[global] Arguments tx_while : simpl never.

(** One run of the block at [sendloop:] consumes the descriptors [ps1] of one
    frame and leaves the rest [ps2] of the chain as it was. *)
Lemma sendloop_group (ps : list Z) :
  forall (r : gmap Z Z) (val len : Z) (buffer : list Z) (fuel : nat),
  ram_wf r -> tx_chain r val len ps -> ps <> [] ->
  Z.of_nat (length buffer) = len ->
  (length ps <= fuel)%nat ->
  exists (ps1 ps2 : list Z) (d : cpphy_tcb_t) (frame : list Z),
    ps = ps1 ++ ps2 /\ ps1 <> [] /\
    sendloop fuel r val len buffer =
      Done (clear_own r ps1, d, Z.of_nat (length frame), frame) /\
    tx_frames r ps buffer = frame :: tx_frames r ps2 [] /\
    tx_chain (clear_own r ps1) (tcb_next d) 0 ps2 /\
    agree r (clear_own r ps1) ps2.
Proof.
  induction ps as [|p rest IH]; intros r val len buffer fuel Hwf Hc Hne Hlen Hfuel;
    [contradiction|].
  destruct fuel as [|fuel]; [cbn [length] in Hfuel; lia|].
  pose proof Hc as Hc'. cbn [tx_chain] in Hc'.
  destruct Hc' as (H1 & H2 & H3 & H31 & H30 & H29 & Hsz & Hmax & Hbl & Heoq & Hap & Hrest).
  subst p.
  destruct (read_cb_range r val Hwf) as (_ & _ & Hcur & _).
  set (d := read_cb r val) in *.
  set (r1 := stl_phys r (val + 12) (Z.land (tcb_mode d) (Z.lnot CB_OWNERSHIP_BIT))).
  assert (Hwf1 : ram_wf r1) by (apply stl_phys_wf; exact Hwf).
  assert (Hag : agree r r1 rest) by (eapply agree_stl; try eassumption; lia).
  rewrite sendloop_step by (fold d; assumption || lia). fold d. cbv zeta. fold r1.
  cbn [tx_frames]. fold d.
  set (buffer' := buffer ++ cpu_physical_memory_read r (tcb_buff d) (tcb_length d)).
  assert (Hlen' : Z.of_nat (length buffer') = len + tcb_length d).
  { unfold buffer'. rewrite length_app, length_read. lia. }
  destruct (Z.testbit (tcb_mode d) 28) eqn:E.
  - (* the frame continues in the next descriptor *)
    assert (Hrne : rest <> []).
    { intros ->. cbn [tx_chain] in Hrest. apply Heoq; [reflexivity | exact Hrest]. }
    destruct (IH r1 (tcb_next d) (len + tcb_length d) buffer' fuel)
      as (ps1 & ps2 & d' & frame & Hsplit & Hps1 & Hrun & Hfr & Hch & Hag2).
    + exact Hwf1.
    + eapply tx_chain_agree; eassumption.
    + exact Hrne.
    + exact Hlen'.
    + cbn [length] in Hfuel. lia.
    + exists (val :: ps1), ps2, d', frame.
      split; [rewrite Hsplit; reflexivity|]. split; [discriminate|].
      split; [exact Hrun|]. split.
      * rewrite <- (tx_frames_agree r r1 rest) by exact Hag. rewrite Hfr.
        f_equal. apply tx_frames_agree. rewrite Hsplit in Hag.
        apply agree_app_r in Hag. exact Hag.
      * split; [exact Hch|].
        cbn [clear_own]. fold d. fold r1. rewrite Hsplit in Hag.
        apply agree_app_r in Hag. eapply agree_trans; eassumption.
  - (* the frame ends here *)
    exists [val], rest, d, buffer'.
    split; [reflexivity|]. split; [discriminate|].
    split; [rewrite Hlen'; reflexivity|]. split; [reflexivity|].
    split; [|exact Hag].
    cbn [clear_own]. fold d. fold r1. eapply tx_chain_agree; eassumption.
Qed.

(** The machine after one frame was handed to the backend of CPMAC [index]:
    packet sent, TXGOODFRAMES stepped, MAC_IN_VECTOR updated, line asserted. *)
Definition tx_sent (index : nat) (channel : Z) (frame : list Z) (m : machine) : machine :=
  let c1 := bump (cpmac_of index m) CPMAC_TXGOODFRAMES in
  let c2 := store32 c1 CPMAC_MAC_IN_VECTOR
              (Z.lor (reg_read c1 CPMAC_MAC_IN_VECTOR) (MAC_IN_VECTOR_TX_INT_OR + channel)) in
  ar7_irq (elt cpmac_interrupt index) 1
    (put_cpmac index c2 (with_net_out (net_out m ++ [(index, frame)]) m)).

Definition nic_bound (index : nat) (m : machine) : Prop :=
  is_Some (nic (av m) !! index ≫= vc).

Lemma tx_while_step (fuel index : nat) (channel val : Z) (m : machine)
      (r : gmap Z Z) (tcb : cpphy_tcb_t) (len : Z) (buffer : list Z) :
  val <> 0 -> nic_bound index m ->
  sendloop (S fuel) (ram m) val 0 [] = Done (r, tcb, len, buffer) ->
  tx_while (S fuel) index channel val m =
  tx_while fuel index channel (tcb_next tcb)
    (tx_sent index channel (take (Z.to_nat len) buffer) (with_ram r m)).
Proof.
  intros Hnz Hb Hs. unfold tx_while at 1. fold tx_while.
  replace (val =? 0) with false by lia. cbn [negb]. rewrite Hs, bind_done.
  cbv zeta. cbn [av with_ram].
  rewrite bool_decide_eq_true_2 by exact Hb.
  rewrite reg_inc_aligned by reflexivity. rewrite bind_done.
  rewrite reg_set_aligned by reflexivity. rewrite bind_done.
  unfold mret, result_ret. rewrite bind_done.
  unfold tx_sent, bump. cbv zeta.
  destruct index; reflexivity.
Qed.

Lemma av_wf_put_cpmac (index : nat) (c : list Z) (m : machine) :
  av_wf (av m) -> length c = 0x800%nat -> Forall is_byte c ->
  av_wf (av (put_cpmac index c m)).
Proof.
  intros H Hl Hb. destruct index; split; cbn; try apply H; assumption.
Qed.

Lemma av_wf_ar7_irq (irq_num level : Z) (m : machine) :
  av_wf (av m) -> av_wf (av (ar7_irq irq_num level m)).
Proof.
  intros H. unfold ar7_irq.
  repeat match goal with |- context [if ?b then _ else _] => destruct b end;
    try exact H; split; cbn; rewrite ?length_insert; apply H.
Qed.

Lemma nic_put_cpmac (index : nat) (c : list Z) (m : machine) :
  nic (av (put_cpmac index c m)) = nic (av m).
Proof. destruct index; reflexivity. Qed.

Lemma net_out_put_cpmac (index : nat) (c : list Z) (m : machine) :
  net_out (put_cpmac index c m) = net_out m.
Proof. destruct index; reflexivity. Qed.

Lemma cpmac_of_with_net_out (index : nat) (x : list (nat * list Z)) (m : machine) :
  cpmac_of index (with_net_out x m) = cpmac_of index m.
Proof. destruct index; reflexivity. Qed.

Lemma cpmac_of_with_ram (index : nat) (x : gmap Z Z) (m : machine) :
  cpmac_of index (with_ram x m) = cpmac_of index m.
Proof. destruct index; reflexivity. Qed.

Lemma tx_sent_facts (index : nat) (channel : Z) (frame : list Z) (m : machine) :
  (index < 2)%nat -> av_wf (av m) -> 0 <= channel < 8 ->
  let m1 := tx_sent index channel frame m in
  av_wf (av m1) /\ ram m1 = ram m /\ nic (av m1) = nic (av m) /\
  net_out m1 = net_out m ++ [(index, frame)] /\
  irq_log m1 = irq_log m ++ [(if (index =? 0)%nat then 27 else 41, 1)] /\
  reg_read (cpmac_of index m1) CPMAC_TXGOODFRAMES =
    u32 (reg_read (cpmac_of index m) CPMAC_TXGOODFRAMES + 1) /\
  reg_read (cpmac_of index m1) CPMAC_MAC_IN_VECTOR =
    Z.lor (reg_read (cpmac_of index m) CPMAC_MAC_IN_VECTOR)
          (MAC_IN_VECTOR_TX_INT_OR + channel).
Proof.
  intros Hi Hwf Hch m1.
  pose proof (cpmac_of_sized index m Hwf) as Hlen.
  pose proof (cpmac_of_bytes index m Hwf) as Hby.
  unfold m1, tx_sent. cbv zeta.
  set (c1 := bump (cpmac_of index m) CPMAC_TXGOODFRAMES).
  set (c2 := store32 c1 _ _).
  set (m0 := with_net_out _ m).
  assert (Hl1 : length c1 = 0x800%nat) by (unfold c1; rewrite length_bump; exact Hlen).
  assert (Hb1 : Forall is_byte c1) by (apply bump_is_byte; exact Hby).
  destruct (ar7_irq_frame (elt cpmac_interrupt index) 1 (put_cpmac index c2 m0))
    as (E1 & E2 & _ & E4 & _).
  split.
  { apply av_wf_ar7_irq, av_wf_put_cpmac.
    - exact Hwf.
    - unfold c2. rewrite length_store32. exact Hl1.
    - apply store32_is_byte. exact Hb1. }
  split; [rewrite E1, ram_put_cpmac; reflexivity|].
  split; [rewrite E4, nic_put_cpmac; reflexivity|].
  split; [rewrite E2, net_out_put_cpmac; reflexivity|].
  split.
  { rewrite irq_log_ar7_irq, irq_log_put_cpmac, cpmac_line by exact Hi. reflexivity. }
  rewrite cpmac_of_ar7_irq, cpmac_of_put. unfold c2. split.
  - rewrite reg_read_store32_other by (cpmac_consts; lia).
    unfold c1. apply reg_read_bump_same; [cpmac_consts; lia|].
    rewrite Hlen. cpmac_consts. lia.
  - rewrite reg_read_store32.
    + unfold c1. rewrite reg_read_bump_other by (cpmac_consts; lia).
      apply u32_small, lor_u32_range.
      * apply reg_read_range. exact Hby.
      * change MAC_IN_VECTOR_TX_INT_OR with 65536. change (2 ^ 32) with 4294967296. lia.
    + cpmac_consts. lia.
    + rewrite Hl1. cpmac_consts. lia.
Qed.

Lemma clear_own_app (ps1 ps2 : list Z) (r : gmap Z Z) :
  clear_own r (ps1 ++ ps2) = clear_own (clear_own r ps1) ps2.
Proof. revert r. induction ps1 as [|p ps1 IH]; intros r; [reflexivity|]. cbn. apply IH. Qed.

Lemma clear_own_wf (ps : list Z) (r : gmap Z Z) : ram_wf r -> ram_wf (clear_own r ps).
Proof.
  revert r. induction ps as [|p ps IH]; intros r H; [exact H|].
  cbn [clear_own]. apply IH, stl_phys_wf, H.
Qed.

Section Transmit.
Variables (index : nat) (channel : Z).
Hypothesis Hindex : (index < 2)%nat.
Hypothesis Hchannel : 0 <= channel < 8.

Let line : Z := if (index =? 0)%nat then 27 else 41.

(** The [while] loop drains a chain: every frame is sent, counted and
    signalled, and every descriptor is written back. *)
Lemma tx_while_chain (n : nat) :
  forall (ps : list Z) (fuel : nat) (m : machine) (val : Z),
  (length ps <= n)%nat -> (n < fuel)%nat ->
  av_wf (av m) -> ram_wf (ram m) -> nic_bound index m ->
  tx_chain (ram m) val 0 ps ->
  exists m',
    tx_while fuel index channel val m = Done m' /\
    ram m' = clear_own (ram m) ps /\
    net_out m' = net_out m ++ map (pair index) (tx_frames (ram m) ps []) /\
    reg_read (cpmac_of index m') CPMAC_TXGOODFRAMES =
      u32 (reg_read (cpmac_of index m) CPMAC_TXGOODFRAMES
           + Z.of_nat (length (tx_frames (ram m) ps []))) /\
    reg_read (cpmac_of index m') CPMAC_MAC_IN_VECTOR =
      (if tx_frames (ram m) ps [] is [] then reg_read (cpmac_of index m) CPMAC_MAC_IN_VECTOR
       else Z.lor (reg_read (cpmac_of index m) CPMAC_MAC_IN_VECTOR)
                  (MAC_IN_VECTOR_TX_INT_OR + channel)) /\
    irq_log m' = irq_log m ++ replicate (length (tx_frames (ram m) ps [])) (line, 1).
Proof.
  assert (Hnil : forall (fuel : nat) (m : machine),
            (0 < fuel)%nat -> av_wf (av m) ->
            exists m',
              tx_while fuel index channel 0 m = Done m' /\
              ram m' = clear_own (ram m) [] /\
              net_out m' = net_out m ++ map (pair index) (tx_frames (ram m) [] []) /\
              reg_read (cpmac_of index m') CPMAC_TXGOODFRAMES =
                u32 (reg_read (cpmac_of index m) CPMAC_TXGOODFRAMES
                     + Z.of_nat (length (tx_frames (ram m) [] []))) /\
              reg_read (cpmac_of index m') CPMAC_MAC_IN_VECTOR =
                reg_read (cpmac_of index m) CPMAC_MAC_IN_VECTOR /\
              irq_log m' = irq_log m ++ replicate (length (tx_frames (ram m) [] [])) (line, 1)).
  { intros fuel m Hf Hwf. destruct fuel as [|fuel]; [lia|]. exists m.
    cbn [tx_frames length map replicate clear_own]. rewrite !app_nil_r, Z.add_0_r.
    repeat split. symmetry. apply u32_small, reg_read_range, cpmac_of_bytes, Hwf. }
  induction n as [|n IH]; intros ps fuel m val Hlen Hfuel Hwf Hram Hnic Hc.
  - destruct ps; [|cbn [length] in Hlen; lia]. cbn [tx_chain] in Hc. subst val.
    apply Hnil; [lia | exact Hwf].
  - destruct ps as [|p rest].
    { cbn [tx_chain] in Hc. subst val. apply Hnil; [lia | exact Hwf]. }
    destruct fuel as [|fuel]; [lia|].
    assert (Hnz : val <> 0) by (cbn [tx_chain] in Hc; lia).
    destruct (sendloop_group (p :: rest) (ram m) val 0 [] (S fuel))
      as (ps1 & ps2 & d & frame & Hsplit & Hps1 & Hrun & Hfr & Hch & Hag);
      [exact Hram | exact Hc | discriminate | reflexivity | lia |].
    rewrite (tx_while_step _ _ _ _ _ _ _ _ _ Hnz Hnic Hrun).
    replace (take (Z.to_nat (Z.of_nat (length frame))) frame) with frame
      by (symmetry; apply take_ge; lia).
    set (r1 := clear_own (ram m) ps1) in *.
    set (m1 := tx_sent index channel frame (with_ram r1 m)).
    destruct (tx_sent_facts index channel frame (with_ram r1 m) Hindex Hwf Hchannel)
      as (Hwf1 & Hr1 & Hn1 & Ho1 & Hq1 & Hg1 & Hv1).
    fold m1 in Hwf1, Hr1, Hn1, Ho1, Hq1, Hg1, Hv1.
    cbn [ram with_ram net_out irq_log av] in Hr1, Hn1, Ho1, Hq1.
    rewrite cpmac_of_with_ram in Hg1, Hv1.
    assert (Hl2 : (length ps2 <= n)%nat).
    { assert (length (p :: rest) = length ps1 + length ps2)%nat
        by (rewrite Hsplit; apply length_app).
      destruct ps1; [contradiction|]. cbn [length] in *. lia. }
    destruct (IH ps2 fuel m1 (tcb_next d)) as (m' & Hw & Hr & Ho & Hg & Hv & Hq).
    + exact Hl2.
    + lia.
    + exact Hwf1.
    + rewrite Hr1. apply clear_own_wf. exact Hram.
    + unfold nic_bound. rewrite Hn1. exact Hnic.
    + rewrite Hr1. exact Hch.
    + rewrite Hr1 in Hr, Ho, Hg, Hv, Hq.
      rewrite (tx_frames_agree _ _ _ _ Hag) in Ho, Hg, Hv, Hq.
      exists m'. rewrite Hfr. cbn [length map replicate].
      split; [exact Hw|]. split; [rewrite Hr, Hsplit, clear_own_app; reflexivity|].
      split; [rewrite Ho, Ho1, <- app_assoc; reflexivity|].
      split.
      { rewrite Hg, Hg1. unfold u32. rewrite Z.add_mod_idemp_l by lia.
        f_equal. lia. }
      split.
      { rewrite Hv, Hv1. destruct (tx_frames (ram m) ps2 []); [reflexivity|].
        rewrite <- Z.lor_assoc, Z.lor_diag. reflexivity. }
      rewrite Hq, Hq1, <- app_assoc. reflexivity.
Qed.
End Transmit.

Lemma tx_chain_bounds (r : gmap Z Z) (ps : list Z) (val len : Z) :
  tx_chain r val len ps -> Forall (fun p => 0 < p /\ p + 16 <= 2 ^ 32) ps.
Proof.
  revert val len. induction ps as [|p rest IH]; intros val len Hc; [apply Forall_nil_2|].
  cbn [tx_chain] in Hc. destruct Hc as (-> & H2 & H3 & _ & _ & _ & _ & _ & _ & _ & _ & H12).
  apply Forall_cons. split; [lia|]. eapply IH. exact H12.
Qed.

Lemma tx_frames_nonempty (r : gmap Z Z) (ps : list Z) (val len : Z) (acc : list Z) :
  tx_chain r val len ps -> ps <> [] -> tx_frames r ps acc <> [].
Proof.
  revert val len acc. induction ps as [|p rest IH]; intros val len acc Hc Hne;
    [contradiction|].
  cbn [tx_chain] in Hc. destruct Hc as (_ & _ & _ & _ & _ & _ & _ & _ & _ & Heoq & _ & H12).
  cbn [tx_frames]. destruct (Z.testbit _ 28); [|discriminate].
  eapply IH; [exact H12|]. intros ->. cbn [tx_chain] in H12. apply Heoq; [reflexivity|exact H12].
Qed.

Lemma ldl_clear_own_other (ps : list Z) (r : gmap Z Z) (a : Z) :
  Forall (fun p => 0 < p /\ p + 16 <= 2 ^ 32) ps ->
  Forall (fun p => apart a 4 (p + 12) 4) ps ->
  ldl (clear_own r ps) a = ldl r a.
Proof.
  revert r. induction ps as [|p rest IH]; intros r Hb Ha; [reflexivity|].
  apply Forall_cons in Hb as [Hp Hb]. apply Forall_cons in Ha as [Hap Ha].
  cbn [clear_own]. rewrite IH by assumption.
  unfold stl_phys. apply ldl_write_disjoint; cbn [length le32_bytes]; unfold apart in Hap; lia.
Qed.

(** After the walk the mode of every descriptor of the chain has lost its
    OWNERSHIP bit and nothing else. *)
Lemma clear_own_mode (ps : list Z) :
  forall (r : gmap Z Z) (val len : Z),
  ram_wf r -> tx_chain r val len ps ->
  forall p, p ∈ ps ->
    tcb_mode (read_cb (clear_own r ps) p) =
    Z.land (tcb_mode (read_cb r p)) (Z.lnot CB_OWNERSHIP_BIT).
Proof.
  induction ps as [|p0 rest IH]; intros r val len Hwf Hc p Hp; [inversion Hp|].
  pose proof (tx_chain_bounds _ _ _ _ Hc) as Hb.
  apply Forall_cons in Hb as [Hb0 Hb].
  pose proof Hc as Hc'. cbn [tx_chain] in Hc'.
  destruct Hc' as (H1 & H2 & H3 & _ & _ & _ & _ & _ & _ & _ & Hap & Hrest). subst p0.
  set (mode' := Z.land (tcb_mode (read_cb r val)) (Z.lnot CB_OWNERSHIP_BIT)).
  set (r1 := stl_phys r (val + 12) mode').
  assert (Hag : agree r r1 rest) by (eapply agree_stl; try eassumption; lia).
  assert (Hhead : tcb_mode (read_cb (clear_own r (val :: rest)) val) = mode').
  { cbn [clear_own]. fold mode'. fold r1. rewrite read_cb_ldl by lia. cbn [tcb_mode].
    rewrite ldl_clear_own_other; [| exact Hb |].
    - unfold r1. rewrite ldl_stl_same by lia. apply u32_small, land_u32_range.
      apply (read_cb_range r val Hwf).
    - rewrite Forall_forall in *. intros p' Hp'. destruct (Hap p' Hp') as [Ha _].
      unfold apart in *. lia. }
  apply elem_of_cons in Hp as [->|Hp]; [exact Hhead|].
  cbn [clear_own]. fold mode'. fold r1.
  rewrite (IH r1 (tcb_next (read_cb r val))
              (if Z.testbit (tcb_mode (read_cb r val)) 28
               then len + tcb_length (read_cb r val) else 0)).
  - unfold agree in Hag. rewrite Forall_forall in Hag. destruct (Hag p Hp) as [-> _].
    reflexivity.
  - apply stl_phys_wf. exact Hwf.
  - eapply tx_chain_agree; eassumption.
  - exact Hp.
Qed.

(** Guest memory with one transmit descriptor at 0x10000 (buff = 0x10010,
    length = 64, the given [next] and [mode]) and a 64-byte payload. *)
Definition tx_ram (next mode : Z) : gmap Z Z :=
  cpu_physical_memory_write
    (cpu_physical_memory_write ∅ 0x10010 (replicate 64 0x5a))
    0x10000 (cb_bytes (mkTcb next 0x10010 64 mode)).

(** A machine with that memory whose CPMAC0 has the backend [backend]. *)
Definition machine_tx (backend : option nat) (r : gmap Z Z) : machine :=
  with_av (set_nic [mkNIC (replicate 6 0) backend; mkNIC (replicate 6 0) None] av_init)
    (with_ram r machine_init).

(** C4, as stated, fails twice.  A single descriptor with SOF, EOF,
    OWNERSHIP and EOQ set, length 64 and [next = 0] makes the handler follow
    [next] to guest address 0 and abort on an [assert], whatever the fuel: no
    frame reaches the backend.  And with no backend bound to the CPMAC a
    well-formed descriptor is consumed without TXGOODFRAMES, MAC_IN_VECTOR or
    the IRQ line being touched. *)
Lemma C4_counterexample :
  read_cb (tx_ram 0 0xF0000040) 0x10000 = mkTcb 0 0x10010 64 0xF0000040 /\
  (forall fuel : nat, (2 <= fuel)%nat ->
     ar7_cpmac_write fuel 0 CPMAC_TX0_HDP 0x10000 (machine_tx (Some 0%nat) (tx_ram 0 0xF0000040))
     = Abort) /\
  read_cb (tx_ram 0 0xE0000040) 0x10000 = mkTcb 0 0x10010 64 0xE0000040 /\
  exists m',
    ar7_cpmac_write 2 0 CPMAC_TX0_HDP 0x10000 (machine_tx None (tx_ram 0 0xE0000040))
      = Done m' /\
    Z.testbit (tcb_mode (read_cb (ram m') 0x10000)) 29 = false /\
    net_out m' = [] /\
    reg_read (cpmac_of 0 m') CPMAC_TXGOODFRAMES = 0 /\
    reg_read (cpmac_of 0 m') CPMAC_MAC_IN_VECTOR = 0 /\
    irq_log m' = [].
Proof.
  split; [vm_compute; reflexivity|]. split.
  - intros fuel Hf. destruct fuel as [|[|fuel]]; [lia | lia|]. vm_compute. reflexivity.
  - split; [vm_compute; reflexivity|].
    eexists. split; [vm_compute; reflexivity|]. repeat split; vm_compute; reflexivity.
Qed.

(** C4 (amended): with a network backend bound to the CPMAC instance, after
    a write to TXc_HDP of a nonzero guest pointer naming a well-formed
    descriptor chain (every descriptor has SOF, EOF and OWNERSHIP set and
    length equal to mode & 0xFFFF, a descriptor with EOQ set has a successor
    whose payload continues the same frame, every assembled frame has at most
    1514 bytes, and no mode word overlaps a later descriptor or payload), the
    store returns for every fuel above the number of descriptors; every
    descriptor's OWNERSHIP bit in guest memory is then 0, each assembled
    frame was handed to the backend in chain order, TXGOODFRAMES was
    incremented once per frame, MAC_IN_VECTOR has TX_INT_OR and the channel
    number OR-ed in, and the CPMAC IRQ line (27 for instance 0, 41 for
    instance 1) was asserted once per frame. *)
Theorem C4_tx_chain (fuel index : nat) (c val : Z) (ps : list Z) (m : machine) :
  (index < 2)%nat -> 0 <= c < 8 ->
  av_wf (av m) -> ram_wf (ram m) -> nic_bound index m ->
  val <> 0 ->
  tx_chain (ram m) val 0 ps ->
  (length ps < fuel)%nat ->
  exists m',
    ar7_cpmac_write fuel index (CPMAC_TX0_HDP + 4 * c) val m = Done m' /\
    (forall p, p ∈ ps -> Z.testbit (tcb_mode (read_cb (ram m') p)) 29 = false) /\
    tx_frames (ram m) ps [] <> [] /\
    net_out m' = net_out m ++ map (pair index) (tx_frames (ram m) ps []) /\
    reg_read (cpmac_of index m') CPMAC_TXGOODFRAMES =
      u32 (reg_read (cpmac_of index m) CPMAC_TXGOODFRAMES
           + Z.of_nat (length (tx_frames (ram m) ps []))) /\
    reg_read (cpmac_of index m') CPMAC_MAC_IN_VECTOR =
      Z.lor (reg_read (cpmac_of index m) CPMAC_MAC_IN_VECTOR) (MAC_IN_VECTOR_TX_INT_OR + c) /\
    irq_log m' =
      irq_log m ++ replicate (length (tx_frames (ram m) ps []))
                             (if (index =? 0)%nat then 27 else 41, 1).
Proof.
  intros Hi Hc Hwf Hram Hnic Hnz Hch Hfuel.
  pose proof (cpmac_of_sized index m Hwf) as Hlen.
  pose proof (cpmac_of_bytes index m Hwf) as Hby.
  assert (Hps : ps <> []) by (intros ->; cbn [tx_chain] in Hch; contradiction).
  set (offset := CPMAC_TX0_HDP + 4 * c).
  set (m0 := put_cpmac index (store32 (cpmac_of index m) offset val) m).
  assert (Hrun : ar7_cpmac_write fuel index offset val m = tx_while fuel index c val m0).
  { unfold m0, offset.
    assert (Hcs : c = 0 \/ c = 1 \/ c = 2 \/ c = 3 \/ c = 4 \/ c = 5 \/ c = 6 \/ c = 7) by lia.
    destruct Hcs as [->|[->|[->|[->|[->|[->|[->| ->]]]]]]];
      unfold ar7_cpmac_write; eval_conds;
      rewrite reg_write_aligned by reflexivity; rewrite bind_done; cbv zeta;
      eval_conds; reflexivity. }
  destruct (tx_while_chain index c Hi Hc (length ps) ps fuel m0 val)
    as (m' & Hw & Hr & Ho & Hg & Hv & Hq).
  - lia.
  - exact Hfuel.
  - unfold m0. apply av_wf_put_cpmac; [exact Hwf | rewrite length_store32; exact Hlen|].
    apply store32_is_byte. exact Hby.
  - unfold m0. rewrite ram_put_cpmac. exact Hram.
  - unfold nic_bound, m0. rewrite nic_put_cpmac. exact Hnic.
  - unfold m0. rewrite ram_put_cpmac. exact Hch.
  - unfold m0 in Hr, Ho, Hg, Hv, Hq.
    rewrite ram_put_cpmac in Hr, Ho, Hg, Hv, Hq.
    rewrite net_out_put_cpmac in Ho. rewrite irq_log_put_cpmac in Hq.
    rewrite cpmac_of_put in Hg, Hv.
    rewrite reg_read_store32_other in Hg, Hv by (unfold offset; cpmac_consts; lia).
    pose proof (tx_frames_nonempty _ _ _ _ [] Hch Hps) as Hfr.
    exists m'. split; [rewrite Hrun; exact Hw|]. split.
    { intros p Hp. rewrite Hr, (clear_own_mode ps (ram m) val 0 Hram Hch p Hp).
      rewrite Z.land_spec. change (Z.testbit (Z.lnot CB_OWNERSHIP_BIT) 29) with false.
      apply andb_false_r. }
    split; [exact Hfr|]. split; [exact Ho|]. split; [exact Hg|]. split; [|exact Hq].
    rewrite Hv. destruct (tx_frames (ram m) ps []); [contradiction | reflexivity].
Qed.

(** Guest memory with a chain of three descriptors at 0x10000, 0x10010 and
    0x10020: the first has EOQ set, so its 64 bytes and the 32 bytes of the
    second make one frame; the third is a frame of 60 bytes. *)
Definition tx_ram3 : gmap Z Z :=
  let r := cpu_physical_memory_write ∅ 0x20000 (replicate 64 0x11) in
  let r := cpu_physical_memory_write r 0x20100 (replicate 32 0x22) in
  let r := cpu_physical_memory_write r 0x20200 (replicate 60 0x33) in
  let r := cpu_physical_memory_write r 0x10000 (cb_bytes (mkTcb 0x10010 0x20000 64 0xF0000040)) in
  let r := cpu_physical_memory_write r 0x10010 (cb_bytes (mkTcb 0x10020 0x20100 32 0xE0000020)) in
  cpu_physical_memory_write r 0x10020 (cb_bytes (mkTcb 0 0x20200 60 0xE000003C)).

Lemma ram_wf_tx_ram3 : ram_wf tx_ram3.
Proof.
  unfold tx_ram3. cbv zeta.
  repeat (apply ram_wf_write;
          [| first [apply cb_bytes_is_byte
                   | apply Forall_replicate; unfold is_byte; lia]]).
  apply map_Forall_empty.
Qed.

Lemma av_wf_machine_tx (backend : option nat) (r : gmap Z Z) :
  av_wf (av (machine_tx backend r)).
Proof. split; try reflexivity; apply Forall_is_byte_replicate. Qed.

Lemma tx_chain_tx_ram3 : tx_chain tx_ram3 0x10000 0 [0x10000; 0x10010; 0x10020].
Proof.
  assert (E1 : read_cb tx_ram3 0x10000 = mkTcb 0x10010 0x20000 64 0xF0000040)
    by (vm_compute; reflexivity).
  assert (E2 : read_cb tx_ram3 0x10010 = mkTcb 0x10020 0x20100 32 0xE0000020)
    by (vm_compute; reflexivity).
  assert (E3 : read_cb tx_ram3 0x10020 = mkTcb 0 0x20200 60 0xE000003C)
    by (vm_compute; reflexivity).
  cbn [tx_chain]. rewrite !Forall_cons, !E1, !E2, !E3.
  cbn [tcb_next tcb_buff tcb_length tcb_mode].
  unfold apart, MAX_ETH_FRAME_SIZE, CB_SIZE_MASK.
  change (Z.testbit 4026531904 28) with true.
  change (Z.testbit 3758096416 28) with false.
  change (Z.testbit 3758096444 28) with false. cbv iota.
  repeat match goal with |- _ /\ _ => split end;
    first [ reflexivity | lia | intros _; lia | apply Forall_nil_2 ].
Qed.

Lemma C4_witness :
  exists m',
    ar7_cpmac_write 4 0 (CPMAC_TX0_HDP + 4 * 2) 0x10000 (machine_tx (Some 0%nat) tx_ram3)
      = Done m' /\
    map (fun p => Z.testbit (tcb_mode (read_cb (ram m') p)) 29)
        [0x10000; 0x10010; 0x10020] = [false; false; false] /\
    net_out m' = [(0%nat, replicate 64 0x11 ++ replicate 32 0x22); (0%nat, replicate 60 0x33)] /\
    reg_read (cpmac_of 0 m') CPMAC_TXGOODFRAMES = 2 /\
    reg_read (cpmac_of 0 m') CPMAC_MAC_IN_VECTOR = 0x10002 /\
    irq_log m' = [(27, 1); (27, 1)].
Proof.
  assert (Ef : tx_frames tx_ram3 [0x10000; 0x10010; 0x10020] []
               = [replicate 64 0x11 ++ replicate 32 0x22; replicate 60 0x33])
    by (vm_compute; reflexivity).
  destruct (C4_tx_chain 4 0 2 0x10000 [0x10000; 0x10010; 0x10020]
              (machine_tx (Some 0%nat) tx_ram3))
    as (m' & H & Hown & _ & Ho & Hg & Hv & Hq).
  - lia.
  - lia.
  - apply av_wf_machine_tx.
  - exact ram_wf_tx_ram3.
  - eexists. reflexivity.
  - lia.
  - exact tx_chain_tx_ram3.
  - simpl. lia.
  - change (ram (machine_tx (Some 0%nat) tx_ram3)) with tx_ram3 in *.
    rewrite Ef in *.
    exists m'. split; [exact H|]. split.
    { cbn [map]. rewrite !Hown by (repeat constructor). reflexivity. }
    split; [exact Ho|]. split; [exact Hg|]. split; [exact Hv | exact Hq].
Defined.

(** * Further properties of the handlers *)

(** ** Register-bank primitives *)

(** X1: a [reg_write] at an aligned offset inside the bank returns, keeps
    the size of the bank, makes [reg_read] at that offset return the value
    modulo 2^32, and leaves every word that does not overlap it as it was. *)
Theorem X1_reg_write_read (reg : list Z) (addr value : Z) :
  aligned addr = true -> 0 <= addr -> (Z.to_nat addr + 4 <= length reg)%nat ->
  exists reg',
    reg_write reg addr value = Done reg' /\
    length reg' = length reg /\
    reg_read reg' addr = u32 value /\
    forall addr', 0 <= addr' -> addr' + 4 <= addr \/ addr + 4 <= addr' ->
      reg_read reg' addr' = reg_read reg addr'.
Proof.
  intros Hal Ha Hl. exists (store32 reg addr value).
  split; [apply reg_write_aligned; exact Hal|].
  split; [apply length_store32|].
  split; [apply reg_read_store32; assumption|].
  intros addr' Ha' Hd. apply reg_read_store32_other; assumption.
Qed.

Lemma X1_witness :
  exists reg',
    reg_write (replicate 16 0) 8 0x1234567890 = Done reg' /\
    reg_read reg' 8 = 0x34567890 /\
    reg_read reg' 4 = 0 /\ reg_read reg' 12 = 0.
Proof.
  destruct (X1_reg_write_read (replicate 16 0) 8 0x1234567890)
    as (reg' & H & _ & H1 & H2).
  - reflexivity.
  - lia.
  - simpl. lia.
  - exists reg'. split; [exact H|]. split; [exact H1|].
    split; [rewrite H2 by lia | rewrite H2 by lia]; reflexivity.
Defined.

(** X2: [reg_inc] steps a counter modulo 2^32: a counter that holds
    0xffffffff wraps to 0, any other one grows by one. *)
Theorem X2_reg_inc_wraps (reg : list Z) (addr : Z) :
  aligned addr = true -> 0 <= addr -> (Z.to_nat addr + 4 <= length reg)%nat ->
  Forall is_byte reg ->
  exists reg',
    reg_inc reg addr = Done reg' /\
    reg_read reg' addr =
      (if reg_read reg addr =? 0xffffffff then 0 else reg_read reg addr + 1).
Proof.
  intros Hal Ha Hl Hb. exists (store32 reg addr (u32 (reg_read reg addr + 1))).
  split; [apply reg_inc_aligned; exact Hal|].
  rewrite reg_read_store32 by assumption.
  pose proof (reg_read_range reg addr Hb) as Hr.
  rewrite (u32_small (u32 _)) by apply u32_range.
  destruct (Z.eqb_spec (reg_read reg addr) 0xffffffff) as [->|Hne]; [reflexivity|].
  apply u32_small. change (2 ^ 32) with 4294967296 in *. lia.
Qed.

Lemma X2_witness :
  exists reg',
    reg_inc [0xff; 0xff; 0xff; 0xff; 7; 0; 0; 0] 0 = Done reg' /\
    reg_read reg' 0 = 0 /\
    exists reg'',
      reg_inc [0xff; 0xff; 0xff; 0xff; 7; 0; 0; 0] 4 = Done reg'' /\
      reg_read reg'' 4 = 8.
Proof.
  assert (Hb : Forall is_byte [0xff; 0xff; 0xff; 0xff; 7; 0; 0; 0]).
  { repeat (apply Forall_cons; split; [unfold is_byte; lia|]). apply Forall_nil_2. }
  destruct (X2_reg_inc_wraps [0xff; 0xff; 0xff; 0xff; 7; 0; 0; 0] 0)
    as (reg' & H & H1); [reflexivity | lia | simpl; lia | exact Hb |].
  destruct (X2_reg_inc_wraps [0xff; 0xff; 0xff; 0xff; 7; 0; 0; 0] 4)
    as (reg'' & H' & H1'); [reflexivity | lia | simpl; lia | exact Hb |].
  exists reg'. split; [exact H|]. split; [exact H1|].
  exists reg''. split; [exact H' | exact H1'].
Defined.

(** X3: [reg_set] ORs the mask into the word and [reg_clear] removes it
    again: after [reg_set] the word is [old | mask], after a following
    [reg_clear] with the same mask it is [old & ~mask]. *)
Theorem X3_reg_set_clear (reg : list Z) (addr mask : Z) :
  aligned addr = true -> 0 <= addr -> (Z.to_nat addr + 4 <= length reg)%nat ->
  Forall is_byte reg -> 0 <= mask < 2 ^ 32 ->
  exists reg1 reg2,
    reg_set reg addr mask = Done reg1 /\
    reg_read reg1 addr = Z.lor (reg_read reg addr) mask /\
    reg_clear reg1 addr mask = Done reg2 /\
    reg_read reg2 addr = Z.land (reg_read reg addr) (Z.lnot mask).
Proof.
  intros Hal Ha Hl Hb Hm.
  pose proof (reg_read_range reg addr Hb) as Hr.
  set (old := reg_read reg addr) in *.
  set (reg1 := store32 reg addr (Z.lor old mask)).
  assert (H1 : reg_read reg1 addr = Z.lor old mask).
  { unfold reg1. rewrite reg_read_store32 by assumption.
    apply u32_small, lor_u32_range; assumption. }
  exists reg1, (store32 reg1 addr (Z.land (reg_read reg1 addr) (Z.lnot mask))).
  split; [apply reg_set_aligned; exact Hal|]. split; [exact H1|].
  split; [apply reg_clear_aligned; exact Hal|].
  rewrite reg_read_store32; [| exact Ha | unfold reg1; rewrite length_store32; exact Hl].
  rewrite H1. rewrite u32_small.
  - apply Z.bits_inj'. intros i Hi.
    rewrite !Z.land_spec, Z.lor_spec, Z.lnot_spec by lia.
    destruct (Z.testbit old i), (Z.testbit mask i); reflexivity.
  - apply land_u32_range, lor_u32_range; assumption.
Qed.

Lemma X3_witness :
  exists reg1 reg2,
    reg_set [0x0f; 0; 0; 0] 0 0x3c = Done reg1 /\
    reg_read reg1 0 = 0x3f /\
    reg_clear reg1 0 0x3c = Done reg2 /\
    reg_read reg2 0 = 0x03.
Proof.
  apply (X3_reg_set_clear [0x0f; 0; 0; 0] 0 0x3c).
  - reflexivity.
  - lia.
  - simpl. lia.
  - repeat (apply Forall_cons; split; [unfold is_byte; lia|]). apply Forall_nil_2.
  - lia.
Defined.

(** ** Interrupt intake *)

Definition supported_line (l : Z) : Prop := l = 15 \/ l = 16 \/ l = 27 \/ l = 41.

(** X4: a deassertion (level 0) of any of the four supported lines clears
    INTC word 16, clears Cause bit 0x400 and no other Cause bit, and drops
    the hardware interrupt 0 request, whatever the masks are and whichever
    line raised it: the controller keeps no per-line pending state. *)
Theorem X4_irq_deassert (m : machine) (l : Z) :
  supported_line l ->
  (16 < length (intc (av m)))%nat ->
  let m' := ar7_irq l 0 m in
  ar7_intc_read (intc (av m')) 16 = 0 /\
  hw_irq0 (cpu_env m') = false /\
  Z.testbit (CP0_Cause (cpu_env m')) 10 = false /\
  (forall i, 0 <= i -> i <> 10 ->
     Z.testbit (CP0_Cause (cpu_env m')) i = Z.testbit (CP0_Cause (cpu_env m)) i) /\
  intmask (av m') = intmask (av m).
Proof.
  intros Hl Hlen m'.
  assert (Hm : m' =
    mkMachine (set_intc (<[16%nat := 0]> (intc (av m))) (av m))
      (mkCPU (Z.land (CP0_Cause (cpu_env m)) (Z.lnot 0x400)) false)
      (phy m) (ram m) (net_out m) (irq_log m ++ [(l, 0)])).
  { unfold m', ar7_irq. destruct Hl as [->|[->|[->| ->]]]; reflexivity. }
  rewrite Hm. cbn [av cpu_env set_intc intc CP0_Cause hw_irq0 intmask].
  split.
  { unfold ar7_intc_read, elt. rewrite list_lookup_insert_eq by exact Hlen. reflexivity. }
  split; [reflexivity|]. split.
  { rewrite Z.land_spec. change (Z.testbit (Z.lnot 1024) 10) with false. apply andb_false_r. }
  split; [|reflexivity].
  intros i Hi Hne. rewrite Z.land_spec, Z.lnot_spec by lia.
  change 1024 with (2 ^ 10). rewrite Z.pow2_bits_eqb by lia.
  replace (10 =? i) with false by lia. apply andb_true_r.
Qed.

(** The machine with channels 7 and 19 enabled, after lines 15 and 27 were
    both raised. *)
Definition machine_two_pending : machine :=
  ar7_irq 27 1 (ar7_irq 15 1 (ar7_intc_write 8 0x00080080 machine_init)).

Lemma X4_witness :
  hw_irq0 (cpu_env machine_two_pending) = true /\
  hw_irq0 (cpu_env (ar7_irq 15 0 machine_two_pending)) = false /\
  ar7_intc_read (intc (av (ar7_irq 15 0 machine_two_pending))) 16 = 0.
Proof.
  split; [reflexivity|].
  destruct (X4_irq_deassert machine_two_pending 15) as (H1 & H2 & _).
  - left. reflexivity.
  - vm_compute. lia.
  - split; [exact H2 | exact H1].
Defined.

(** X5: an interrupt number other than 15, 16, 27 and 41 is ignored at
    either level: device, CPU, PHY state, guest memory and sent packets are
    left as they were. *)
Theorem X5_irq_unsupported (m : machine) (irq_num level : Z) :
  ~ supported_line irq_num ->
  let m' := ar7_irq irq_num level m in
  av m' = av m /\ cpu_env m' = cpu_env m /\ phy m' = phy m /\
  ram m' = ram m /\ net_out m' = net_out m.
Proof.
  intros Hn m'. unfold m', ar7_irq.
  replace ((irq_num =? 15) || (irq_num =? 16) || (irq_num =? 27) || (irq_num =? 41))
    with false by (unfold supported_line in Hn; lia).
  repeat split.
Qed.

Lemma X5_witness :
  av (ar7_irq 7 1 machine_two_pending) = av machine_two_pending /\
  cpu_env (ar7_irq 7 1 machine_two_pending) = cpu_env machine_two_pending.
Proof.
  destruct (X5_irq_unsupported machine_two_pending 7 1) as (H1 & H2 & _).
  - unfold supported_line. lia.
  - split; [exact H1 | exact H2].
Defined.

(** ** Interrupt controller *)

(** X6: a write to enable-clear-1 (index 12) removes from [intmask[0]]
    exactly the bits of the value written, and an assertion of a line whose
    channel was removed no longer reaches the CPU. *)
Theorem X6_intc_enable_clear (m : machine) (val c : Z) :
  length (intmask (av m)) = 2%nat ->
  c = 7 \/ c = 8 \/ c = 19 ->
  Z.testbit val c = true ->
  let m' := ar7_intc_write 12 val m in
  (forall i, 0 <= i ->
     Z.testbit (elt (intmask (av m')) 0) i =
     Z.testbit (elt (intmask (av m)) 0) i && negb (Z.testbit val i)) /\
  elt (intmask (av m')) 1 = elt (intmask (av m)) 1 /\
  cpu_env (ar7_irq (c + 8) 1 m') = cpu_env m /\
  intc (av (ar7_irq (c + 8) 1 m')) = <[12%nat := val]> (intc (av m)).
Proof.
  intros Hlen Hc Hv m'.
  assert (Hm : elt (intmask (av m')) 0 = Z.land (elt (intmask (av m)) 0) (Z.lnot val)).
  { unfold m', ar7_intc_write. cbn. unfold elt at 1.
    rewrite list_lookup_insert_eq by lia. reflexivity. }
  split.
  { intros i Hi. rewrite Hm, Z.land_spec, Z.lnot_spec by lia. reflexivity. }
  split.
  { unfold m', ar7_intc_write. cbn. unfold elt at 1.
    rewrite list_lookup_insert_ne by lia. reflexivity. }
  assert (Hg : ar7_irq (c + 8) 1 m' = with_irq_log (irq_log m' ++ [(c + 8, 1)]) m').
  { apply ar7_irq_gated; [lia|]. replace (c + 8 - 8) with c by lia.
    rewrite Hm, Z.land_spec, Z.lnot_spec, Hv by lia. apply andb_false_r. }
  rewrite Hg. split; reflexivity.
Qed.

Lemma X6_witness :
  hw_irq0 (cpu_env (ar7_irq 27 1 (ar7_intc_write 8 0x00080000 machine_init))) = true /\
  hw_irq0 (cpu_env (ar7_irq 27 1
     (ar7_intc_write 12 0x00080000 (ar7_intc_write 8 0x00080000 machine_init)))) = false.
Proof.
  split; [reflexivity|].
  destruct (X6_intc_enable_clear (ar7_intc_write 8 0x00080000 machine_init) 0x00080000 19)
    as (_ & _ & H & _).
  - reflexivity.
  - right. right. reflexivity.
  - reflexivity.
  - change (27) with (19 + 8). rewrite H. reflexivity.
Defined.

(** X7: every INTC word reads back the value last written to it, the
    enable registers and the priority index (word 16) included: a read of an
    enable register returns the raw value written, not the mask. *)
Theorem X7_intc_store_read (m : machine) (index : nat) (val : Z) :
  (index < length (intc (av m)))%nat ->
  ar7_intc_read (intc (av (ar7_intc_write index val m))) index = val /\
  forall index' : nat, index' <> index ->
    ar7_intc_read (intc (av (ar7_intc_write index val m))) index'
    = ar7_intc_read (intc (av m)) index'.
Proof.
  intros Hlen.
  assert (Hi : intc (av (ar7_intc_write index val m)) = <[index := val]> (intc (av m))).
  { unfold ar7_intc_write. destruct (_ || _); [reflexivity|]. destruct (_ || _); reflexivity. }
  rewrite Hi. unfold ar7_intc_read, elt. split.
  - rewrite list_lookup_insert_eq by exact Hlen. reflexivity.
  - intros index' Hne. rewrite list_lookup_insert_ne by congruence. reflexivity.
Qed.

Lemma X7_witness :
  ar7_intc_read (intc (av (ar7_intc_write 12 0x80 (ar7_intc_write 8 0x80 machine_init)))) 8
    = 0x80 /\
  elt (intmask (av (ar7_intc_write 12 0x80 (ar7_intc_write 8 0x80 machine_init)))) 0 = 0.
Proof.
  destruct (X7_intc_store_read (ar7_intc_write 8 0x80 machine_init) 12 0x80) as [_ H].
  - vm_compute. lia.
  - split; [|reflexivity]. rewrite H by lia. reflexivity.
Defined.

(** ** CPMAC registers with side effects *)

(** X8: a write to a statistics register (offsets 0x0200 to 0x028c) of
    0xffffffff zeroes the register; any other value is not rejected but
    stored, so the register then reads as that value.  No line is asserted
    and guest memory is not touched. *)
Theorem X8_cpmac_statistics_write (fuel index : nat) (offset v : Z) (m : machine) :
  (index < 2)%nat -> av_wf (av m) ->
  aligned offset = true ->
  CPMAC_RXGOODFRAMES <= offset <= CPMAC_RXDMAOVERRUNS ->
  0 <= v < 2 ^ 32 ->
  exists m',
    ar7_cpmac_write fuel index offset v m = Done m' /\
    reg_read (cpmac_of index m') offset = (if v =? 0xffffffff then 0 else v) /\
    irq_log m' = irq_log m /\ ram m' = ram m /\ net_out m' = net_out m.
Proof.
  intros Hi Hwf Hal Hoff Hv.
  pose proof (cpmac_of_sized index m Hwf) as Hlen.
  unfold CPMAC_RXGOODFRAMES, CPMAC_RXDMAOVERRUNS in Hoff.
  unfold ar7_cpmac_write. unfold aligned in Hal. rewrite Hal.
  cbn [assert]. rewrite bind_done.
  rewrite reg_write_aligned by exact Hal. rewrite bind_done. cbv zeta.
  unfold CPMAC_TX_INTMASK_SET, CPMAC_MACADDRHI, CPMAC_RXGOODFRAMES, CPMAC_RXDMAOVERRUNS.
  replace (offset =? 256) with false by lia. replace (offset =? 268) with false by lia.
  replace (offset =? 376) with false by lia. replace (offset =? 468) with false by lia.
  replace ((512 <=? offset) && (offset <=? 652)) with true by lia. cbv iota.
  destruct (Z.eqb_spec v 0xffffffff) as [->|Hne].
  - rewrite reg_write_aligned by exact Hal. rewrite bind_done.
    eexists. split; [reflexivity|].
    rewrite cpmac_of_put, irq_log_put_cpmac, ram_put_cpmac, net_out_put_cpmac.
    rewrite irq_log_put_cpmac, ram_put_cpmac, net_out_put_cpmac.
    split; [|repeat split].
    apply reg_read_store32; [lia|]. rewrite length_store32, Hlen. lia.
  - eexists. split; [reflexivity|].
    rewrite cpmac_of_put, irq_log_put_cpmac, ram_put_cpmac, net_out_put_cpmac.
    split; [|repeat split].
    rewrite reg_read_store32; [apply u32_small; exact Hv | lia |]. rewrite Hlen. lia.
Qed.

Lemma X8_witness :
  (exists m',
     ar7_cpmac_write 0 0 CPMAC_RXGOODFRAMES 0xffffffff machine_init = Done m' /\
     reg_read (cpmac_of 0 m') CPMAC_RXGOODFRAMES = 0) /\
  (exists m',
     ar7_cpmac_write 0 0 CPMAC_RXGOODFRAMES 5 machine_init = Done m' /\
     reg_read (cpmac_of 0 m') CPMAC_RXGOODFRAMES = 5).
Proof.
  split.
  - destruct (X8_cpmac_statistics_write 0 0 CPMAC_RXGOODFRAMES 0xffffffff machine_init)
      as (m' & H & H1 & _); [lia | exact av_wf_init | reflexivity | cpmac_consts;
        unfold CPMAC_RXDMAOVERRUNS; lia | lia |].
    exists m'. split; [exact H | exact H1].
  - destruct (X8_cpmac_statistics_write 0 0 CPMAC_RXGOODFRAMES 5 machine_init)
      as (m' & H & H1 & _); [lia | exact av_wf_init | reflexivity | cpmac_consts;
        unfold CPMAC_RXDMAOVERRUNS; lia | lia |].
    exists m'. split; [exact H | exact H1].
Defined.

(** X9: a write of [v] to RX0_HDP is stored without touching guest memory
    or asserting a line, and [ar7_nic_can_receive] then answers whether
    [v] is nonzero. *)
Theorem X9_rx_hdp_can_receive (fuel index : nat) (v : Z) (m : machine) :
  (index < 2)%nat -> av_wf (av m) -> 0 <= v < 2 ^ 32 ->
  exists m',
    ar7_cpmac_write fuel index CPMAC_RX0_HDP v m = Done m' /\
    ar7_nic_can_receive index m' = negb (v =? 0) /\
    ram m' = ram m /\ irq_log m' = irq_log m /\ net_out m' = net_out m.
Proof.
  intros Hi Hwf Hv. pose proof (cpmac_of_sized index m Hwf) as Hlen.
  exists (put_cpmac index (store32 (cpmac_of index m) CPMAC_RX0_HDP v) m).
  split; [reflexivity|].
  unfold ar7_nic_can_receive.
  rewrite cpmac_of_put, ram_put_cpmac, irq_log_put_cpmac, net_out_put_cpmac.
  split; [|repeat split].
  rewrite reg_read_store32; [rewrite u32_small by exact Hv; reflexivity | cpmac_consts; lia|].
  rewrite Hlen. cpmac_consts. lia.
Qed.

Lemma X9_witness :
  ar7_nic_can_receive 0 machine_init = false /\
  exists m',
    ar7_cpmac_write 0 0 CPMAC_RX0_HDP 0x10000 machine_init = Done m' /\
    ar7_nic_can_receive 0 m' = true.
Proof.
  split; [reflexivity|].
  destruct (X9_rx_hdp_can_receive 0 0 0x10000 machine_init) as (m' & H & H1 & _);
    [lia | exact av_wf_init | lia |].
  exists m'. split; [exact H | exact H1].
Defined.

(** X10: a write of the null pointer to a TX head descriptor pointer
    starts no transmission: the value is stored, no descriptor is read, no
    packet is sent, no counter moves and no line is asserted. *)
Theorem X10_tx_null_pointer (fuel index : nat) (c : Z) (m : machine) :
  (0 < fuel)%nat -> (index < 2)%nat -> 0 <= c < 8 -> av_wf (av m) ->
  ar7_cpmac_write fuel index (CPMAC_TX0_HDP + 4 * c) 0 m =
  Done (put_cpmac index (store32 (cpmac_of index m) (CPMAC_TX0_HDP + 4 * c) 0) m) /\
  forall addr, 0 <= addr -> addr + 4 <= CPMAC_TX0_HDP ->
    reg_read (store32 (cpmac_of index m) (CPMAC_TX0_HDP + 4 * c) 0) addr
    = reg_read (cpmac_of index m) addr.
Proof.
  intros Hf Hi Hc Hwf. split.
  - destruct fuel as [|fuel]; [lia|].
    assert (Hcs : c = 0 \/ c = 1 \/ c = 2 \/ c = 3 \/ c = 4 \/ c = 5 \/ c = 6 \/ c = 7) by lia.
    destruct Hcs as [->|[->|[->|[->|[->|[->|[->| ->]]]]]]];
      unfold ar7_cpmac_write; eval_conds;
      rewrite reg_write_aligned by reflexivity; rewrite bind_done; cbv zeta;
      eval_conds; reflexivity.
  - intros addr Ha Hl. apply reg_read_store32_other; cpmac_consts; lia.
Qed.

Lemma X10_witness :
  exists m',
    ar7_cpmac_write 1 1 (CPMAC_TX0_HDP + 4 * 7) 0 machine_init = Done m' /\
    net_out m' = [] /\ irq_log m' = [] /\
    reg_read (cpmac_of 1 m') CPMAC_TXGOODFRAMES = 0.
Proof.
  destruct (X10_tx_null_pointer 1 1 7 machine_init) as [H _];
    [lia | lia | lia | exact av_wf_init |].
  eexists. split; [exact H|]. repeat split.
Defined.

(** ** Receive and transmit edge cases *)

(** X11: a frame that arrives while RX0_HDP names a descriptor whose
    OWNERSHIP bit is clear is dropped, though still counted: RXGOODFRAMES is
    incremented, RX0_HDP keeps its value, and guest memory, MAC_IN_VECTOR,
    the CPU and the IRQ lines are untouched. *)
Theorem X11_rx_descriptor_not_owned (index : nat) (buf : nat -> Z) (size : Z)
        (m : machine) :
  (index < 2)%nat ->
  av_wf (av m) ->
  reg_read (cpmac_of index m) CPMAC_RX0_HDP <> 0 ->
  Z.testbit (tcb_mode (read_cb (ram m) (reg_read (cpmac_of index m) CPMAC_RX0_HDP))) 29
    = false ->
  exists m',
    ar7_nic_receive index buf size m = Done m' /\
    reg_read (cpmac_of index m') CPMAC_RXGOODFRAMES =
      u32 (reg_read (cpmac_of index m) CPMAC_RXGOODFRAMES + 1) /\
    reg_read (cpmac_of index m') CPMAC_RX0_HDP = reg_read (cpmac_of index m) CPMAC_RX0_HDP /\
    reg_read (cpmac_of index m') CPMAC_MAC_IN_VECTOR =
      reg_read (cpmac_of index m) CPMAC_MAC_IN_VECTOR /\
    ram m' = ram m /\ irq_log m' = irq_log m /\ cpu_env m' = cpu_env m /\
    intc (av m') = intc (av m).
Proof.
  intros Hi Hwf Hnz Hown. pose proof (cpmac_of_sized index m Hwf) as Hlen.
  assert (Hh : reg_read (rx_counted buf size (cpmac_of index m)) CPMAC_RX0_HDP
               = reg_read (cpmac_of index m) CPMAC_RX0_HDP)
    by (apply rx_counted_other; cpmac_consts; lia).
  exists (put_cpmac index (rx_counted buf size (cpmac_of index m)) m). split.
  - rewrite nic_receive_count. unfold rx_deliver. cbv zeta.
    rewrite ram_put_cpmac, Hh.
    replace (reg_read (cpmac_of index m) CPMAC_RX0_HDP =? 0) with false by lia.
    unfold CB_OWNERSHIP_BIT at 1. rewrite land_bit_eqb by lia. rewrite Hown.
    reflexivity.
  - rewrite cpmac_of_put.
    destruct (rx_counted_counters buf size _ Hlen) as (H1 & _).
    split; [exact H1|]. split; [exact Hh|].
    split; [apply rx_counted_other; cpmac_consts; lia|].
    destruct index; repeat split.
Qed.

(** A machine whose CPMAC0 has RX0_HDP = 0x10000 over the memory [r]. *)
Definition machine_rx_at (r : gmap Z Z) : machine :=
  put_cpmac 0 (store32 (replicate 0x800 0) CPMAC_RX0_HDP 0x10000) (with_ram r machine_init).

Lemma X11_witness :
  exists m',
    ar7_nic_receive 0 (fun _ => 0xff) 64 (machine_rx_at (tx_ram 0 0x40)) = Done m' /\
    reg_read (cpmac_of 0 m') CPMAC_RXGOODFRAMES = 1 /\
    reg_read (cpmac_of 0 m') CPMAC_RX0_HDP = 0x10000 /\
    ram m' = tx_ram 0 0x40 /\ irq_log m' = [].
Proof.
  destruct (X11_rx_descriptor_not_owned 0 (fun _ => 0xff) 64
              (machine_rx_at (tx_ram 0 0x40)))
    as (m' & H & Hg & Hh & _ & Hr & Hq & _).
  - lia.
  - split; try reflexivity; try apply Forall_is_byte_replicate.
    apply store32_is_byte, Forall_is_byte_replicate.
  - vm_compute. discriminate.
  - vm_compute. reflexivity.
  - exists m'. split; [exact H|]. split; [exact Hg|]. split; [exact Hh|].
    split; [exact Hr | exact Hq].
Defined.

Lemma bind_abort {A B : Type} (f : A -> result B) : (Abort ≫= f) = Abort.
Proof. reflexivity. Qed.

(** The TXc_HDP branch of [ar7_cpmac_write] is the [while] loop run on the
    machine with the pointer stored. *)
Lemma cpmac_write_tx (fuel index : nat) (c val : Z) (m : machine) :
  0 <= c < 8 ->
  ar7_cpmac_write fuel index (CPMAC_TX0_HDP + 4 * c) val m =
  tx_while fuel index c val
    (put_cpmac index (store32 (cpmac_of index m) (CPMAC_TX0_HDP + 4 * c) val) m).
Proof.
  intros Hc.
  assert (Hcs : c = 0 \/ c = 1 \/ c = 2 \/ c = 3 \/ c = 4 \/ c = 5 \/ c = 6 \/ c = 7) by lia.
  destruct Hcs as [->|[->|[->|[->|[->|[->|[->| ->]]]]]]];
    unfold ar7_cpmac_write; eval_conds;
    rewrite reg_write_aligned by reflexivity; rewrite bind_done; cbv zeta;
    eval_conds; reflexivity.
Qed.

(** X12: a write to TXc_HDP of a nonzero pointer whose first descriptor is
    longer than 1514 bytes, or whose length differs from the low 16 bits of
    its mode, or which lacks SOF, EOF or OWNERSHIP, aborts the emulator on
    an [assert]; in particular a descriptor the device has already consumed
    cannot be submitted again. *)
Theorem X12_tx_bad_descriptor_aborts (fuel index : nat) (c val : Z) (m : machine) :
  (0 < fuel)%nat -> 0 <= c < 8 -> ram_wf (ram m) -> val <> 0 ->
  let d := read_cb (ram m) val in
  MAX_ETH_FRAME_SIZE < tcb_length d \/
  Z.land (tcb_mode d) CB_SIZE_MASK <> tcb_length d \/
  Z.testbit (tcb_mode d) 31 = false \/
  Z.testbit (tcb_mode d) 30 = false \/
  Z.testbit (tcb_mode d) 29 = false ->
  ar7_cpmac_write fuel index (CPMAC_TX0_HDP + 4 * c) val m = Abort.
Proof.
  intros Hf Hc Hram Hnz d Hbad.
  rewrite cpmac_write_tx by exact Hc.
  destruct fuel as [|fuel]; [lia|].
  unfold tx_while. fold tx_while.
  replace (val =? 0) with false by lia. cbn [negb].
  rewrite ram_put_cpmac.
  assert (Hs : sendloop (S fuel) (ram m) val 0 [] = Abort); [|rewrite Hs; reflexivity].
  unfold sendloop. fold sendloop. fold d. cbv zeta.
  destruct (read_cb_range (ram m) val Hram) as (_ & _ & Hl & _). fold d in Hl.
  rewrite Z.add_0_l, (u32_small (tcb_length d)) by exact Hl.
  change (Z.land (tcb_mode d) CB_SOF_BIT) with (Z.land (tcb_mode d) (BIT 31)).
  change (Z.land (tcb_mode d) CB_EOF_BIT) with (Z.land (tcb_mode d) (BIT 30)).
  change (Z.land (tcb_mode d) CB_OWNERSHIP_BIT) with (Z.land (tcb_mode d) (BIT 29)).
  rewrite !land_bit_eqb by lia.
  destruct (tcb_length d <=? MAX_ETH_FRAME_SIZE) eqn:E1; [|reflexivity].
  cbn [assert]. rewrite bind_done.
  destruct (Z.land (tcb_mode d) CB_SIZE_MASK =? tcb_length d) eqn:E2; [|reflexivity].
  cbn [assert]. rewrite bind_done.
  destruct (Z.testbit (tcb_mode d) 31) eqn:E3; [|reflexivity].
  cbn [assert negb]. rewrite bind_done.
  destruct (Z.testbit (tcb_mode d) 30) eqn:E4; [|reflexivity].
  cbn [assert negb]. rewrite bind_done.
  destruct (Z.testbit (tcb_mode d) 29) eqn:E5; [|reflexivity].
  exfalso. destruct Hbad as [H|[H|[H|[H|H]]]]; try discriminate; lia.
Qed.

Lemma X12_witness :
  ar7_cpmac_write 5 0 (CPMAC_TX0_HDP + 4 * 0) 0x10000 (machine_tx (Some 0%nat) (tx_ram 0 0xC0000040))
  = Abort.
Proof.
  apply X12_tx_bad_descriptor_aborts.
  - lia.
  - lia.
  - unfold tx_ram. repeat (apply ram_wf_write;
      [| first [apply cb_bytes_is_byte | apply Forall_replicate; unfold is_byte; lia]]).
    apply map_Forall_empty.
  - lia.
  - right. right. right. right. vm_compute. reflexivity.
Defined.

Lemma tx_while_step_unbound (fuel index : nat) (channel val : Z) (m : machine)
      (r : gmap Z Z) (tcb : cpphy_tcb_t) (len : Z) (buffer : list Z) :
  val <> 0 -> ~ nic_bound index m ->
  sendloop (S fuel) (ram m) val 0 [] = Done (r, tcb, len, buffer) ->
  tx_while (S fuel) index channel val m =
  tx_while fuel index channel (tcb_next tcb) (with_ram r m).
Proof.
  intros Hnz Hb Hs. unfold tx_while at 1. fold tx_while.
  replace (val =? 0) with false by lia. cbn [negb]. rewrite Hs, bind_done.
  cbv zeta. cbn [av with_ram].
  rewrite bool_decide_eq_false_2 by exact Hb.
  unfold mret, result_ret. rewrite bind_done. reflexivity.
Qed.

(** With no backend bound the [while] loop only writes the descriptors
    back. *)
Lemma tx_while_unbound (index : nat) (channel : Z) (n : nat) :
  forall (ps : list Z) (fuel : nat) (m : machine) (val : Z),
  (length ps <= n)%nat -> (n < fuel)%nat ->
  ram_wf (ram m) -> ~ nic_bound index m ->
  tx_chain (ram m) val 0 ps ->
  tx_while fuel index channel val m = Done (with_ram (clear_own (ram m) ps) m).
Proof.
  assert (Hnil : forall (fuel : nat) (m : machine), (0 < fuel)%nat ->
            tx_while fuel index channel 0 m = Done (with_ram (clear_own (ram m) []) m)).
  { intros fuel m Hf. destruct fuel as [|fuel]; [lia|]. destruct m. reflexivity. }
  induction n as [|n IH]; intros ps fuel m val Hlen Hfuel Hram Hnic Hc.
  - destruct ps; [|cbn [length] in Hlen; lia]. cbn [tx_chain] in Hc. subst val.
    apply Hnil. lia.
  - destruct ps as [|p rest].
    { cbn [tx_chain] in Hc. subst val. apply Hnil. lia. }
    destruct fuel as [|fuel]; [lia|].
    assert (Hnz : val <> 0) by (cbn [tx_chain] in Hc; lia).
    destruct (sendloop_group (p :: rest) (ram m) val 0 [] (S fuel))
      as (ps1 & ps2 & d & frame & Hsplit & Hps1 & Hrun & Hfr & Hch & Hag);
      [exact Hram | exact Hc | discriminate | reflexivity | lia |].
    rewrite (tx_while_step_unbound _ _ _ _ _ _ _ _ _ Hnz Hnic Hrun).
    assert (Hl2 : (length ps2 <= n)%nat).
    { assert (length (p :: rest) = length ps1 + length ps2)%nat
        by (rewrite Hsplit; apply length_app).
      destruct ps1; [contradiction|]. cbn [length] in *. lia. }
    rewrite (IH ps2 fuel (with_ram (clear_own (ram m) ps1) m) (tcb_next d)).
    + cbn [ram with_ram]. rewrite Hsplit, clear_own_app. reflexivity.
    + exact Hl2.
    + lia.
    + cbn [ram with_ram]. apply clear_own_wf. exact Hram.
    + exact Hnic.
    + exact Hch.
Qed.

(** X13: with no network backend bound to the CPMAC instance, a write to
    TXc_HDP of a well-formed descriptor chain still walks the whole chain
    and clears every OWNERSHIP bit in guest memory, but sends nothing,
    leaves TXGOODFRAMES and MAC_IN_VECTOR as they were and asserts no
    line. *)
Theorem X13_tx_without_backend (fuel index : nat) (c val : Z) (ps : list Z) (m : machine) :
  (index < 2)%nat -> 0 <= c < 8 ->
  av_wf (av m) -> ram_wf (ram m) -> ~ nic_bound index m ->
  tx_chain (ram m) val 0 ps ->
  (length ps < fuel)%nat ->
  exists m',
    ar7_cpmac_write fuel index (CPMAC_TX0_HDP + 4 * c) val m = Done m' /\
    (forall p, p ∈ ps -> Z.testbit (tcb_mode (read_cb (ram m') p)) 29 = false) /\
    net_out m' = net_out m /\
    reg_read (cpmac_of index m') CPMAC_TXGOODFRAMES =
      reg_read (cpmac_of index m) CPMAC_TXGOODFRAMES /\
    reg_read (cpmac_of index m') CPMAC_MAC_IN_VECTOR =
      reg_read (cpmac_of index m) CPMAC_MAC_IN_VECTOR /\
    irq_log m' = irq_log m /\ cpu_env m' = cpu_env m.
Proof.
  intros Hi Hc Hwf Hram Hnic Hch Hfuel.
  set (offset := CPMAC_TX0_HDP + 4 * c).
  set (m0 := put_cpmac index (store32 (cpmac_of index m) offset val) m).
  exists (with_ram (clear_own (ram m) ps) m0). split.
  - unfold offset. rewrite cpmac_write_tx by exact Hc. fold offset. fold m0.
    rewrite (tx_while_unbound index c (length ps) ps fuel m0 val).
    + unfold m0. rewrite ram_put_cpmac. reflexivity.
    + lia.
    + exact Hfuel.
    + unfold m0. rewrite ram_put_cpmac. exact Hram.
    + unfold nic_bound, m0. rewrite nic_put_cpmac. exact Hnic.
    + unfold m0. rewrite ram_put_cpmac. exact Hch.
  - cbn [ram with_ram net_out irq_log cpu_env]. rewrite cpmac_of_with_ram.
    unfold m0. rewrite cpmac_of_put, net_out_put_cpmac, irq_log_put_cpmac.
    split.
    { intros p Hp. rewrite (clear_own_mode ps (ram m) val 0 Hram Hch p Hp).
      rewrite Z.land_spec. change (Z.testbit (Z.lnot CB_OWNERSHIP_BIT) 29) with false.
      apply andb_false_r. }
    split; [reflexivity|].
    split; [apply reg_read_store32_other; unfold offset; cpmac_consts; lia|].
    split; [apply reg_read_store32_other; unfold offset; cpmac_consts; lia|].
    split; [reflexivity|]. destruct index; reflexivity.
Qed.

Lemma X13_witness :
  exists m',
    ar7_cpmac_write 4 0 (CPMAC_TX0_HDP + 4 * 2) 0x10000 (machine_tx None tx_ram3) = Done m' /\
    map (fun p => Z.testbit (tcb_mode (read_cb (ram m') p)) 29)
        [0x10000; 0x10010; 0x10020] = [false; false; false] /\
    net_out m' = [] /\ irq_log m' = [] /\
    reg_read (cpmac_of 0 m') CPMAC_TXGOODFRAMES = 0.
Proof.
  destruct (X13_tx_without_backend 4 0 2 0x10000 [0x10000; 0x10010; 0x10020]
              (machine_tx None tx_ram3))
    as (m' & H & Hown & Ho & Hg & _ & Hq & _).
  - lia.
  - lia.
  - apply av_wf_machine_tx.
  - exact ram_wf_tx_ram3.
  - intros [x Hx]. discriminate Hx.
  - exact tx_chain_tx_ram3.
  - simpl. lia.
  - exists m'. split; [exact H|]. split.
    { cbn [map]. rewrite !Hown by (repeat constructor). reflexivity. }
    split; [exact Ho|]. split; [exact Hq | exact Hg].
Defined.

Lemma elt_store32_in (reg : list Z) (addr value : Z) (i : nat) :
  0 <= addr -> (i < 4)%nat -> (Z.to_nat addr + 4 <= length reg)%nat ->
  elt (store32 reg addr value) (Z.to_nat addr + i) = elt (le32_bytes value) i.
Proof.
  intros Ha Hi Hl. unfold store32. rewrite elt_inserts_in by (cbn [length le32_bytes]; lia).
  f_equal. lia.
Qed.

Lemma elt_store32_out (reg : list Z) (addr value : Z) (j : nat) :
  (j < Z.to_nat addr)%nat \/ (Z.to_nat addr + 4 <= j)%nat ->
  elt (store32 reg addr value) j = elt reg j.
Proof. intros H. unfold store32. apply elt_inserts_out. cbn [length le32_bytes]. lia. Qed.

Lemma cpmac_write_plain (fuel index : nat) (offset val : Z) (m : machine) :
  offset = CPMAC_MACADDRLO_0 \/ offset = CPMAC_MACADDRMID ->
  ar7_cpmac_write fuel index offset val m =
  Done (put_cpmac index (store32 (cpmac_of index m) offset val) m).
Proof.
  intros [-> | ->]; unfold ar7_cpmac_write; eval_conds;
    rewrite reg_write_aligned by reflexivity; rewrite bind_done; cbv zeta;
    eval_conds; reflexivity.
Qed.

(** X14: the station address of a CPMAC is latched by the write to
    MACADDRHI alone.  After writes of [lo] to MACADDRLO_0, [mid] to
    MACADDRMID and [hi] to MACADDRHI the address is the four bytes of [hi],
    least significant first, then the low byte of [mid], then the low byte
    of [lo]; the first two writes leave the address as it was. *)
Theorem X14_mac_address_latch (fuel index : nat) (lo mid hi : Z) (n : NICState) (m : machine) :
  (index < 2)%nat -> av_wf (av m) ->
  nic (av m) !! index = Some n -> length (phys n) = 6%nat ->
  exists m1 m2 m3,
    ar7_cpmac_write fuel index CPMAC_MACADDRLO_0 lo m = Done m1 /\
    ar7_cpmac_write fuel index CPMAC_MACADDRMID mid m1 = Done m2 /\
    ar7_cpmac_write fuel index CPMAC_MACADDRHI hi m2 = Done m3 /\
    nic (av m2) = nic (av m) /\
    nic (av m3) !! index =
      Some (mkNIC [hi mod 256; (hi / 2 ^ 8) mod 256; (hi / 2 ^ 16) mod 256;
                   (hi / 2 ^ 24) mod 256; mid mod 256; lo mod 256] (vc n)) /\
    (forall j, j <> index -> nic (av m3) !! j = nic (av m) !! j) /\
    ram m3 = ram m /\ irq_log m3 = irq_log m /\ net_out m3 = net_out m.
Proof.
  intros Hi Hwf Hn Hp. pose proof (cpmac_of_sized index m Hwf) as Hlen.
  set (c1 := store32 (cpmac_of index m) CPMAC_MACADDRLO_0 lo).
  set (c2 := store32 c1 CPMAC_MACADDRMID mid).
  set (c3 := store32 c2 CPMAC_MACADDRHI hi).
  set (m1 := put_cpmac index c1 m).
  set (m2 := put_cpmac index c2 m1).
  set (m2' := put_cpmac index c3 m2).
  assert (Hl1 : length c1 = 0x800%nat) by (unfold c1; rewrite length_store32; exact Hlen).
  assert (Hl2 : length c2 = 0x800%nat) by (unfold c2; rewrite length_store32; exact Hl1).
  assert (Hnic : nic (av m2') = nic (av m))
    by (unfold m2', m2, m1; rewrite !nic_put_cpmac; reflexivity).
  exists m1, m2, (with_av (set_nic (alter (set_mac c3) index (nic (av m2'))) (av m2')) m2').
  split; [apply cpmac_write_plain; left; reflexivity|].
  split.
  { rewrite cpmac_write_plain by (right; reflexivity). unfold m1 at 1.
    rewrite cpmac_of_put. reflexivity. }
  split.
  { assert (Hc2 : cpmac_of index m2 = c2) by (unfold m2; apply cpmac_of_put).
    unfold ar7_cpmac_write. rewrite Hc2.
    change (Z.land CPMAC_MACADDRHI 3 =? 0) with true. cbn [assert]. rewrite bind_done.
    rewrite reg_write_aligned by reflexivity. rewrite bind_done. cbv zeta.
    eval_conds. reflexivity. }
  split; [unfold m2, m1; rewrite !nic_put_cpmac; reflexivity|].
  cbn [av with_av set_nic nic ram irq_log net_out].
  split.
  { rewrite Hnic, list_lookup_alter_eq, Hn. cbn [fmap option_fmap option_map]. f_equal.
    unfold set_mac. f_equal.
    destruct (phys n) as [|p0 [|p1 [|p2 [|p3 [|p4 [|p5 [|? ?]]]]]]]; try discriminate Hp.
    cbn [insert list_insert].
    change (Z.to_nat (CPMAC_MACADDRHI + 0)) with (Z.to_nat CPMAC_MACADDRHI + 0)%nat.
    change (Z.to_nat (CPMAC_MACADDRHI + 1)) with (Z.to_nat CPMAC_MACADDRHI + 1)%nat.
    change (Z.to_nat (CPMAC_MACADDRHI + 2)) with (Z.to_nat CPMAC_MACADDRHI + 2)%nat.
    change (Z.to_nat (CPMAC_MACADDRHI + 3)) with (Z.to_nat CPMAC_MACADDRHI + 3)%nat.
    unfold c3.
    rewrite (elt_store32_in c2 CPMAC_MACADDRHI hi 0),
      (elt_store32_in c2 CPMAC_MACADDRHI hi 1),
      (elt_store32_in c2 CPMAC_MACADDRHI hi 2),
      (elt_store32_in c2 CPMAC_MACADDRHI hi 3)
      by (unfold CPMAC_MACADDRHI; rewrite ?Hl2; lia).
    rewrite !elt_store32_out by (unfold CPMAC_MACADDRHI, CPMAC_MACADDRMID, CPMAC_MACADDRLO_0; lia).
    unfold c2.
    replace (Z.to_nat CPMAC_MACADDRMID) with (Z.to_nat CPMAC_MACADDRMID + 0)%nat by lia.
    rewrite (elt_store32_in c1 CPMAC_MACADDRMID mid 0)
      by (unfold CPMAC_MACADDRMID; rewrite ?Hl1; lia).
    rewrite elt_store32_out by (unfold CPMAC_MACADDRMID, CPMAC_MACADDRLO_0; lia).
    unfold c1.
    replace (Z.to_nat CPMAC_MACADDRLO_0) with (Z.to_nat CPMAC_MACADDRLO_0 + 0)%nat by lia.
    rewrite (elt_store32_in (cpmac_of index m) CPMAC_MACADDRLO_0 lo 0)
      by (unfold CPMAC_MACADDRLO_0; rewrite ?Hlen; lia).
    reflexivity. }
  split.
  { intros j Hj. rewrite Hnic. apply list_lookup_alter_ne. congruence. }
  unfold m2', m2, m1.
  rewrite !ram_put_cpmac, !irq_log_put_cpmac, !net_out_put_cpmac. repeat split.
Qed.

Lemma X14_witness :
  exists m1 m2 m3,
    ar7_cpmac_write 0 1 CPMAC_MACADDRLO_0 0x66 machine_init = Done m1 /\
    ar7_cpmac_write 0 1 CPMAC_MACADDRMID 0x55 m1 = Done m2 /\
    ar7_cpmac_write 0 1 CPMAC_MACADDRHI 0x11223344 m2 = Done m3 /\
    phys <$> nic (av m3) !! 1%nat = Some [0x44; 0x33; 0x22; 0x11; 0x55; 0x66].
Proof.
  destruct (X14_mac_address_latch 0 1 0x66 0x55 0x11223344 (mkNIC (replicate 6 0) None)
              machine_init)
    as (m1 & m2 & m3 & H1 & H2 & H3 & _ & Hn & _);
    [lia | exact av_wf_init | reflexivity | reflexivity |].
  exists m1, m2, m3. split; [exact H1|]. split; [exact H2|]. split; [exact H3|].
  rewrite Hn. reflexivity.
Defined.

(** ** MDIO user access, continued *)

Lemma useraccess_regaddr_nonneg (val : Z) : 0 <= useraccess_regaddr val.
Proof.
  unfold useraccess_regaddr. apply Z.shiftr_nonneg, Z.land_nonneg. right.
  vm_compute. discriminate.
Qed.

Lemma useraccess_data_range (val : Z) : 0 <= Z.land val MDIO_USERACCESS_DATA < 2 ^ 16.
Proof. rewrite Z.land_comm. apply land_range; [lia|]. vm_compute. split; congruence. Qed.

(** A USERACCESS0 write with GO set that addresses an implemented PHY
    register. *)
Lemma mdio_write_access (val : Z) (m : machine) :
  useraccess_go val = true -> useraccess_phyaddr val = 31 -> useraccess_regaddr val < 6 ->
  ar7_mdio_write 0x20 val m =
  let '(row, bank, v) :=
    mdio_user_access (useraccess_write val) (useraccess_regaddr val)
      (Z.land val MDIO_USERACCESS_DATA) (mdio_useraccess_data (phy m)) (mdio (av m)) in
  with_av (set_mdio (<[32%nat := v]> bank) (av m))
    (with_phy (mkMdio (useraccess_regaddr val) 0 (Z.land val MDIO_USERACCESS_DATA) row) m).
Proof.
  intros Hgo Hpa Hra. unfold ar7_mdio_write.
  unfold useraccess_go in Hgo. unfold useraccess_phyaddr in Hpa.
  change (32 =? 0)%nat with false. change (32 =? 1)%nat with false.
  change (32 =? 32)%nat with true. cbv iota. rewrite Hgo, Hpa.
  fold (useraccess_regaddr val). fold (useraccess_write val).
  replace (useraccess_regaddr val <? 6) with true by lia.
  cbn [andb Z.eqb Pos.eqb]. cbv zeta.
  destruct (mdio_user_access _ _ _ _ _) as [[row bank] v]. reflexivity.
Qed.

(** X15: a value stored into a PHY register through a USERACCESS0 write
    access (GO, WRITE, PHY 31, register below 6) is returned by a following
    read access of that register; after either access a read of USERACCESS0
    shows the 16 data bits with GO clear.  For the control register this
    holds when the value has neither PHY_RESET nor RENEGOTIATE set. *)
Theorem X15_mdio_phy_write_read (vw vr : Z) (m : machine) :
  av_wf (av m) -> phy_wf (phy m) ->
  useraccess_go vw = true -> useraccess_write vw <> 0 ->
  useraccess_phyaddr vw = 31 -> useraccess_regaddr vw < 6 ->
  useraccess_go vr = true -> useraccess_write vr = 0 ->
  useraccess_phyaddr vr = 31 -> useraccess_regaddr vr = useraccess_regaddr vw ->
  let d := Z.land vw MDIO_USERACCESS_DATA in
  (useraccess_regaddr vw = PHY_CONTROL_REG ->
   Z.testbit d 15 = false /\ Z.testbit d 9 = false) ->
  let m1 := ar7_mdio_write 0x20 vw m in
  let m2 := ar7_mdio_write 0x20 vr m1 in
  fst (ar7_mdio_read 0x20 m1) = d /\
  fst (ar7_mdio_read 0x20 m2) = d /\
  mdio_useraccess_data (phy m2) =
    <[Z.to_nat (useraccess_regaddr vw) := d]> (mdio_useraccess_data (phy m)).
Proof.
  intros Hwf Hphy Hgw Hww Hpw Hrw Hgr Hwr Hpr Hrr d Hctl m1 m2.
  pose proof (useraccess_regaddr_nonneg vw) as Hr0.
  pose proof (useraccess_data_range vw) as Hd. fold d in Hd.
  destruct Hphy as [Hlen _]. pose proof (sz_mdio _ Hwf) as Hml.
  set (data := mdio_useraccess_data (phy m)) in *.
  set (reg := Z.to_nat (useraccess_regaddr vw)).
  assert (Hm1 : m1 = with_av (set_mdio (<[32%nat := d]> (mdio (av m))) (av m))
                       (with_phy (mkMdio (useraccess_regaddr vw) 0 d (<[reg := d]> data)) m)).
  { unfold m1. rewrite mdio_write_access by assumption.
    unfold mdio_user_access. replace (useraccess_write vw =? 0) with false by lia.
    cbn [negb]. fold d. rewrite (u16_small d) by exact Hd. reflexivity. }
  assert (Hl1 : length (<[32%nat := d]> (mdio (av m))) = 0x22%nat)
    by (rewrite length_insert; exact Hml).
  assert (He : elt (<[reg := d]> data) reg = d).
  { unfold elt. rewrite list_lookup_insert_eq; [reflexivity|]. unfold reg. lia. }
  assert (Hm2 : m2 = with_av (set_mdio (<[32%nat := d]> (<[32%nat := d]> (mdio (av m)))) (av m))
                       (with_phy (mkMdio (useraccess_regaddr vw) 0
                                    (Z.land vr MDIO_USERACCESS_DATA) (<[reg := d]> data)) m)).
  { unfold m2. rewrite mdio_write_access by (assumption || lia).
    rewrite Hm1. cbn [phy with_av with_phy mdio_useraccess_data av set_mdio mdio].
    unfold mdio_user_access. rewrite Hwr, Hrr. fold reg.
    change (negb (0 =? 0)) with false. cbv iota zeta. rewrite He.
    unfold PHY_RESET at 1, RENEGOTIATE at 1. rewrite !land_bit_eqb by lia.
    destruct (Z.eqb_spec (useraccess_regaddr vw) PHY_CONTROL_REG) as [E|E].
    - destruct (Hctl E) as [H15 H9]. rewrite H15, H9. cbn [negb andb]. cbv iota.
      reflexivity.
    - cbn [andb]. cbv iota. reflexivity. }
  split; [|split].
  - rewrite Hm1. unfold ar7_mdio_read. cbn [fst av with_av set_mdio mdio Nat.eqb].
    unfold elt. rewrite list_lookup_insert_eq by lia. reflexivity.
  - rewrite Hm2. unfold ar7_mdio_read. cbn [fst av with_av set_mdio mdio Nat.eqb].
    unfold elt. rewrite list_lookup_insert_eq by lia. reflexivity.
  - rewrite Hm2. reflexivity.
Qed.

Lemma X15_witness :
  let m1 := ar7_mdio_write 0x20 (0xC09F0000 + 0x01e1) machine_init in
  let m2 := ar7_mdio_write 0x20 0x809F0000 m1 in
  fst (ar7_mdio_read 0x20 m1) = 0x01e1 /\
  fst (ar7_mdio_read 0x20 m2) = 0x01e1 /\
  elt (mdio_useraccess_data (phy m2)) 4 = 0x01e1.
Proof.
  intros m1 m2.
  destruct (X15_mdio_phy_write_read (0xC09F0000 + 0x01e1) 0x809F0000 machine_init)
    as (H1 & H2 & H3).
  - exact av_wf_init.
  - split; [reflexivity|]. repeat (apply Forall_cons; split; [vm_compute; split; congruence|]).
    apply Forall_nil_2.
  - reflexivity.
  - vm_compute. discriminate.
  - reflexivity.
  - vm_compute. reflexivity.
  - reflexivity.
  - reflexivity.
  - reflexivity.
  - reflexivity.
  - intros H. vm_compute in H. discriminate H.
  - split; [exact H1|]. split; [exact H2|]. fold m1 m2 in H3. rewrite H3. reflexivity.
Defined.

(** X16: a read access of the PHY control register that finds PHY_RESET
    set still returns the value with PHY_RESET set, and completes the reset
    behind it: the register loses PHY_RESET and gains AUTO_NEGOTIATE_EN, the
    other PHY registers and the MDIO LINK word keep their values. *)
Theorem X16_mdio_phy_reset (val : Z) (m : machine) :
  av_wf (av m) -> phy_wf (phy m) ->
  useraccess_go val = true -> useraccess_write val = 0 ->
  useraccess_phyaddr val = 31 -> useraccess_regaddr val = PHY_CONTROL_REG ->
  Z.testbit (elt (mdio_useraccess_data (phy m)) 0) 15 = true ->
  let data := mdio_useraccess_data (phy m) in
  let m' := ar7_mdio_write 0x20 val m in
  let data' := mdio_useraccess_data (phy m') in
  fst (ar7_mdio_read 0x20 m') = elt data 0 /\
  elt data' 0 = Z.lor (Z.land (elt data 0) (Z.lnot PHY_RESET)) AUTO_NEGOTIATE_EN /\
  Z.testbit (elt data' 0) 15 = false /\ Z.testbit (elt data' 0) 12 = true /\
  (forall i, i <> 0%nat -> elt data' i = elt data i) /\
  elt (mdio (av m')) 3 = elt (mdio (av m)) 3.
Proof.
  intros Hwf Hphy Hgo Hwr Hpa Hra Hrst data m' data'.
  pose proof (phy_wf_elt _ 0 Hphy) as Hc. destruct Hphy as [Hlen _].
  pose proof (sz_mdio _ Hwf) as Hml. fold data in Hc, Hlen, Hrst.
  set (c := elt data 0) in *.
  set (c' := Z.lor (Z.land c (Z.lnot PHY_RESET)) AUTO_NEGOTIATE_EN).
  assert (Hc' : 0 <= c' < 2 ^ 16).
  { apply lor_range; [lia | apply land_range; lia | vm_compute; split; congruence]. }
  assert (Hm' : m' = with_av (set_mdio (<[32%nat := c]> (mdio (av m))) (av m))
                       (with_phy (mkMdio 0 0 (Z.land val MDIO_USERACCESS_DATA)
                                    (<[0%nat := c']> data)) m)).
  { unfold m'. rewrite mdio_write_access by (assumption || (rewrite Hra; reflexivity)).
    unfold mdio_user_access. rewrite Hwr, Hra. fold data.
    change (Z.to_nat PHY_CONTROL_REG) with 0%nat. fold c.
    change (negb (0 =? 0)) with false. change (PHY_CONTROL_REG =? PHY_CONTROL_REG) with true.
    cbv iota zeta. unfold PHY_RESET at 1. rewrite land_bit_eqb by lia. rewrite Hrst.
    cbn [negb andb]. cbv iota. fold c'. rewrite (u16_small c') by exact Hc'. reflexivity. }
  assert (Hd : data' = <[0%nat := c']> data) by (unfold data'; rewrite Hm'; reflexivity).
  assert (H0 : elt data' 0 = c').
  { rewrite Hd. unfold elt. rewrite list_lookup_insert_eq by lia. reflexivity. }
  split.
  { rewrite Hm'. unfold ar7_mdio_read. cbn [fst av with_av set_mdio mdio Nat.eqb].
    unfold elt at 1. rewrite list_lookup_insert_eq by lia. reflexivity. }
  split; [exact H0|]. split.
  { rewrite H0. unfold c'. rewrite Z.lor_spec, Z.land_spec.
    change (Z.testbit (Z.lnot PHY_RESET) 15) with false.
    change (Z.testbit AUTO_NEGOTIATE_EN 15) with false.
    rewrite andb_false_r. reflexivity. }
  split.
  { rewrite H0. unfold c'. rewrite Z.lor_spec.
    change (Z.testbit AUTO_NEGOTIATE_EN 12) with true. apply orb_true_r. }
  split.
  { intros i Hi. rewrite Hd. unfold elt. rewrite list_lookup_insert_ne by congruence.
    reflexivity. }
  rewrite Hm'. cbn [av with_av set_mdio mdio]. unfold elt.
  rewrite list_lookup_insert_ne by lia. reflexivity.
Qed.

Lemma phy_wf_reset_renegotiate : phy_wf (phy machine_reset_renegotiate).
Proof.
  split; [reflexivity|].
  change (mdio_useraccess_data (phy machine_reset_renegotiate))
    with [0x9200; 0x7809; 0; 0; 0x01e1; 0x0001].
  repeat (apply Forall_cons; split; [lia|]). apply Forall_nil_2.
Qed.

Lemma X16_witness :
  let m' := ar7_mdio_write 0x20 useraccess_read_control machine_reset_renegotiate in
  fst (ar7_mdio_read 0x20 m') = 0x9200 /\
  elt (mdio_useraccess_data (phy m')) 0 = 0x1200.
Proof.
  intros m'.
  destruct (X16_mdio_phy_reset useraccess_read_control machine_reset_renegotiate)
    as (H1 & H2 & _).
  - split; try reflexivity; apply Forall_is_byte_replicate.
  - exact phy_wf_reset_renegotiate.
  - reflexivity.
  - reflexivity.
  - reflexivity.
  - reflexivity.
  - reflexivity.
  - split; [exact H1 | exact H2].
Defined.

(** X17: a USERACCESS0 access with GO set that names another PHY than 31,
    or a register from 6 on, changes no PHY register: it records the
    register and PHY numbers and the data field, and USERACCESS0 then reads
    as the data field of the request, with GO clear. *)
Theorem X17_mdio_absent_phy (val : Z) (m : machine) :
  av_wf (av m) ->
  useraccess_go val = true ->
  useraccess_phyaddr val <> 31 \/ 6 <= useraccess_regaddr val ->
  let m' := ar7_mdio_write 0x20 val m in
  mdio_useraccess_data (phy m') = mdio_useraccess_data (phy m) /\
  mdio_regaddr (phy m') = useraccess_regaddr val /\
  mdio_phyaddr (phy m') = useraccess_phyaddr val /\
  fst (ar7_mdio_read 0x20 m') = Z.land val MDIO_USERACCESS_DATA /\
  (forall i, i <> 32%nat -> elt (mdio (av m')) i = elt (mdio (av m)) i).
Proof.
  intros Hwf Hgo Habs m'. pose proof (sz_mdio _ Hwf) as Hml.
  assert (Hm' : m' = with_av (set_mdio (<[32%nat := Z.land val MDIO_USERACCESS_DATA]>
                                            (mdio (av m))) (av m))
                       (with_phy (mkMdio (useraccess_regaddr val) (useraccess_phyaddr val)
                                    (Z.land val MDIO_USERACCESS_DATA)
                                    (mdio_useraccess_data (phy m))) m)).
  { unfold m', ar7_mdio_write. unfold useraccess_go in Hgo.
    change (32 =? 0)%nat with false. change (32 =? 1)%nat with false.
    change (32 =? 32)%nat with true. cbv iota. rewrite Hgo.
    fold (useraccess_regaddr val). fold (useraccess_phyaddr val).
    replace ((useraccess_phyaddr val =? 31) && (useraccess_regaddr val <? 6)) with false by lia.
    reflexivity. }
  rewrite Hm'. cbn [phy with_av with_phy mdio_useraccess_data mdio_regaddr mdio_phyaddr].
  repeat (split; [reflexivity|]). split.
  - unfold ar7_mdio_read. cbn [fst av with_av set_mdio mdio Nat.eqb].
    unfold elt. rewrite list_lookup_insert_eq by lia. reflexivity.
  - intros i Hi. cbn [av with_av set_mdio mdio]. unfold elt.
    rewrite list_lookup_insert_ne by congruence. reflexivity.
Qed.

Lemma X17_witness :
  let m' := ar7_mdio_write 0x20 (0x80010000 + 0xbeef) machine_init in
  mdio_useraccess_data (phy m') = mdio_useraccess_data (phy machine_init) /\
  fst (ar7_mdio_read 0x20 m') = 0xbeef.
Proof.
  intros m'.
  destruct (X17_mdio_absent_phy (0x80010000 + 0xbeef) machine_init) as (H1 & _ & _ & H2 & _).
  - exact av_wf_init.
  - reflexivity.
  - left. vm_compute. discriminate.
  - split; [exact H1 | exact H2].
Defined.

(** X18: every other MDIO store, to a word other than USERACCESS0 or to
    USERACCESS0 with GO clear, is a plain store: the word, the version word
    0 included, then reads as the value written, the other words and the
    PHY registers keep their values. *)
Theorem X18_mdio_plain_store (index : nat) (val : Z) (m : machine) :
  av_wf (av m) -> (index < 0x22)%nat ->
  index <> 0x20%nat \/ useraccess_go val = false ->
  let m' := ar7_mdio_write index val m in
  fst (ar7_mdio_read index m') = val /\
  (forall i, i <> index -> elt (mdio (av m')) i = elt (mdio (av m)) i) /\
  mdio_useraccess_data (phy m') = mdio_useraccess_data (phy m).
Proof.
  intros Hwf Hi Hplain m'. pose proof (sz_mdio _ Hwf) as Hml.
  assert (Hm' : m' = with_av (set_mdio (<[index := val]> (mdio (av m))) (av m))
                       (with_phy (phy m) m)).
  { unfold m', ar7_mdio_write. unfold useraccess_go in Hplain.
    destruct (index =? 0)%nat; [reflexivity|]. destruct (index =? 1)%nat; [reflexivity|].
    destruct (Nat.eqb_spec index 32) as [E|E].
    - destruct Hplain as [H|H]; [contradiction|]. rewrite H. reflexivity.
    - reflexivity. }
  rewrite Hm'. split; [|split].
  - assert (Hv : elt (<[index := val]> (mdio (av m))) index = val)
      by (unfold elt; rewrite list_lookup_insert_eq by lia; reflexivity).
    unfold ar7_mdio_read. cbn [av with_av set_mdio mdio]. rewrite Hv.
    destruct (index =? 32)%nat; reflexivity.
  - intros i Hne. cbn [av with_av set_mdio mdio]. unfold elt.
    rewrite list_lookup_insert_ne by congruence. reflexivity.
  - reflexivity.
Qed.

Lemma X18_witness :
  fst (ar7_mdio_read 0 (ar7_mdio_write 0 0x12345678 machine_init)) = 0x12345678 /\
  fst (ar7_mdio_read 0x20 (ar7_mdio_write 0x20 0x401F1234 machine_init)) = 0x401F1234.
Proof.
  split.
  - apply (X18_mdio_plain_store 0 0x12345678 machine_init);
      [exact av_wf_init | lia | left; discriminate].
  - apply (X18_mdio_plain_store 0x20 0x401F1234 machine_init);
      [exact av_wf_init | lia | right; reflexivity].
Defined.

(** ** VLYNQ registers *)

Lemma vlynq_of_put_other (i j : nat) (c : list Z) (m : machine) :
  (i < 2)%nat -> (j < 2)%nat -> i <> j -> vlynq_of j (put_vlynq i c m) = vlynq_of j m.
Proof. intros Hi Hj Hne. destruct i as [|[|i]], j as [|[|j]]; try lia; reflexivity. Qed.

(** X19: a store to a VLYNQ register is kept and read back, except that
    REVID (offset 0) reads as 0x00010206 whatever was stored.  Apart from
    the STATUS word on a store to CONTROL, no other register of the bank
    changes, and the other VLYNQ bank is untouched. *)
Theorem X19_vlynq_store_read (index : nat) (offset val : Z) (m : machine) :
  (index < 2)%nat -> av_wf (av m) ->
  aligned offset = true -> 0 <= offset -> offset + 4 <= 0x100 ->
  0 <= val < 2 ^ 32 ->
  exists m',
    ar7_vlynq_write index offset val m = Done m' /\
    ar7_vlynq_read (vlynq_of index m') offset =
      (if offset =? VLYNQ_REVID then 0x00010206 else val) /\
    (forall o, 0 <= o -> o + 4 <= offset \/ offset + 4 <= o ->
       (offset = VLYNQ_CTRL -> o + 4 <= VLYNQ_STAT \/ VLYNQ_STAT + 4 <= o) ->
       ar7_vlynq_read (vlynq_of index m') o = ar7_vlynq_read (vlynq_of index m) o) /\
    (forall j, (j < 2)%nat -> j <> index -> vlynq_of j m' = vlynq_of j m).
Proof.
  intros Hi Hwf Hal H0 Hhi Hv. pose proof (vlynq_of_sized index m Hwf) as Hlen.
  set (v := vlynq_of index m) in *.
  assert (Hpre : exists v',
            (if offset =? VLYNQ_REVID then mret v
             else if offset =? VLYNQ_CTRL then
               if Z.land val (BIT 0) =? 0 then reg_set v VLYNQ_STAT (BIT 0)
               else reg_clear v VLYNQ_STAT (BIT 0)
             else mret v) = Done v' /\
            length v' = 0x100%nat /\
            forall o, 0 <= o ->
              (offset = VLYNQ_CTRL -> o + 4 <= VLYNQ_STAT \/ VLYNQ_STAT + 4 <= o) ->
              reg_read v' o = reg_read v o).
  { destruct (offset =? VLYNQ_REVID); [exists v; repeat split; assumption|].
    destruct (Z.eqb_spec offset VLYNQ_CTRL) as [E|E];
      [|exists v; repeat split; assumption].
    destruct (Z.land val (BIT 0) =? 0).
    - rewrite reg_set_aligned by reflexivity. eexists. split; [reflexivity|].
      split; [rewrite length_store32; exact Hlen|].
      intros o Ho Hd. apply reg_read_store32_other; [unfold VLYNQ_STAT; lia | exact Ho|].
      apply Hd, E.
    - rewrite reg_clear_aligned by reflexivity. eexists. split; [reflexivity|].
      split; [rewrite length_store32; exact Hlen|].
      intros o Ho Hd. apply reg_read_store32_other; [unfold VLYNQ_STAT; lia | exact Ho|].
      apply Hd, E. }
  destruct Hpre as (v' & Hv' & Hl' & Hfr).
  exists (put_vlynq index (store32 v' offset val) m). split.
  { unfold ar7_vlynq_write. fold v. rewrite Hv', bind_done.
    rewrite reg_write_aligned by exact Hal. rewrite bind_done. reflexivity. }
  rewrite vlynq_of_put. split; [|split].
  - unfold ar7_vlynq_read. destruct (offset =? VLYNQ_REVID); [reflexivity|].
    rewrite reg_read_store32; [apply u32_small; exact Hv | exact H0 |]. rewrite Hl'. lia.
  - intros o Ho Hd Hs. unfold ar7_vlynq_read. destruct (o =? VLYNQ_REVID); [reflexivity|].
    rewrite reg_read_store32_other by assumption. apply Hfr; assumption.
  - intros j Hj Hne. apply vlynq_of_put_other; [exact Hi | exact Hj | congruence].
Qed.

Lemma X19_witness :
  (exists m',
     ar7_vlynq_write 0 VLYNQ_REVID 0xdeadbeef machine_init = Done m' /\
     ar7_vlynq_read (vlynq_of 0 m') VLYNQ_REVID = 0x00010206) /\
  (exists m',
     ar7_vlynq_write 1 0x40 0xdeadbeef machine_init = Done m' /\
     ar7_vlynq_read (vlynq_of 1 m') 0x40 = 0xdeadbeef).
Proof.
  split.
  - destruct (X19_vlynq_store_read 0 VLYNQ_REVID 0xdeadbeef machine_init)
      as (m' & H & H1 & _);
      [lia | exact av_wf_init | reflexivity | unfold VLYNQ_REVID; lia
       | unfold VLYNQ_REVID; lia | lia |].
    exists m'. split; [exact H | exact H1].
  - destruct (X19_vlynq_store_read 1 0x40 0xdeadbeef machine_init)
      as (m' & H & H1 & _);
      [lia | exact av_wf_init | reflexivity | lia | lia | lia |].
    exists m'. split; [exact H | exact H1].
Defined.

(** ** Frame check sequence *)

(** The table [make_crc_table] leaves behind. *)
Definition crc32_table : list Z := map (fun n => crc_shifts 8 (Z.of_nat n)) (seq 0 256).

(** The bit-serial CRC the table is made for: eight shifts per byte. *)
Definition crc_serial (crc : Z) (buf : list Z) : Z :=
  foldl (fun c b => crc_shifts 8 (Z.lxor c b)) crc buf.

(** The table is either still to be computed or complete. *)
Definition crc_state_wf (st : crc_state) : Prop :=
  length (crc_table st) = 256%nat /\
  (crc_table_computed st = true -> crc_table st = crc32_table).

Lemma make_crc_table_from_spec (todo : nat) :
  forall (n : nat) (table : list Z),
  (n + todo <= length table)%nat ->
  make_crc_table_from todo n table =
  take n table ++ map (fun n => crc_shifts 8 (Z.of_nat n)) (seq n todo)
    ++ drop (n + todo) table.
Proof.
  induction todo as [|todo IH]; intros n table Hl.
  - cbn [make_crc_table_from seq map app]. rewrite Nat.add_0_r. symmetry. apply take_drop.
  - cbn [make_crc_table_from seq map]. rewrite IH by (rewrite length_insert; lia).
    rewrite (take_S_r (<[n:=crc_shifts 8 (Z.of_nat n)]> table) n (crc_shifts 8 (Z.of_nat n)))
      by (apply list_lookup_insert_eq; lia).
    rewrite take_insert_ge by lia. rewrite drop_insert_lt by lia.
    replace (S n + todo)%nat with (n + S todo)%nat by lia.
    rewrite <- app_assoc. reflexivity.
Qed.

Lemma make_crc_table_full (table : list Z) :
  length table = 256%nat -> make_crc_table_from 256 0 table = crc32_table.
Proof.
  intros Hl. rewrite make_crc_table_from_spec by lia.
  rewrite take_0, drop_ge by lia. rewrite app_nil_r. reflexivity.
Qed.

Lemma crc32_table_elt (i : Z) :
  0 <= i < 256 -> elt crc32_table (Z.to_nat i) = crc_shifts 8 i.
Proof.
  intros Hi. unfold elt, crc32_table.
  rewrite list_lookup_fmap, lookup_seq_lt by lia. cbn [fmap option_fmap option_map default].
  rewrite Nat.add_0_l, Z2Nat.id by lia. reflexivity.
Qed.

Lemma crc_shift_lxor (a b : Z) :
  crc_shift (Z.lxor a b) = Z.lxor (crc_shift a) (crc_shift b).
Proof.
  unfold crc_shift. change 1 with (BIT 0). rewrite !land_bit_eqb by lia.
  rewrite !negb_involutive, Z.lxor_spec, Z.shiftr_lxor.
  set (p := 0xedb88320). set (x := Z.shiftr a (BIT 0)). set (y := Z.shiftr b (BIT 0)).
  destruct (Z.testbit a 0), (Z.testbit b 0); cbn [xorb];
    apply Z.bits_inj'; intros i Hi; rewrite ?Z.lxor_spec;
    destruct (Z.testbit p i), (Z.testbit x i), (Z.testbit y i); reflexivity.
Qed.

Lemma crc_shifts_lxor (k : nat) (a b : Z) :
  crc_shifts k (Z.lxor a b) = Z.lxor (crc_shifts k a) (crc_shifts k b).
Proof.
  revert a b. induction k as [|k IH]; intros a b; [reflexivity|].
  cbn [crc_shifts]. rewrite crc_shift_lxor. apply IH.
Qed.

(** Shifting out zero bits involves no polynomial. *)
Lemma crc_shifts_shiftl (k : nat) (y : Z) (j : Z) :
  0 <= j -> crc_shifts k (Z.shiftl y (Z.of_nat k + j)) = Z.shiftl y j.
Proof.
  intros Hj. induction k as [|k IH]; [reflexivity|].
  cbn [crc_shifts]. rewrite <- IH. f_equal.
  unfold crc_shift. change (Z.land (Z.shiftl y (Z.of_nat (S k) + j)) 1)
    with (Z.land (Z.shiftl y (Z.of_nat (S k) + j)) (BIT 0)).
  rewrite land_bit_eqb by lia. rewrite Z.shiftl_spec_low by lia. cbn [negb].
  rewrite Z.shiftr_shiftl_l by lia. f_equal. lia.
Qed.

Lemma split_low_byte (x : Z) :
  x = Z.lxor (Z.land x 0xff) (Z.shiftl (Z.shiftr x 8) 8).
Proof.
  apply Z.bits_inj'. intros i Hi. rewrite Z.lxor_spec, Z.land_spec.
  change 0xff with (Z.ones 8).
  destruct (Z_lt_ge_dec i 8) as [H|H].
  - rewrite Z.ones_spec_low, Z.shiftl_spec_low by lia. rewrite andb_true_r, xorb_false_r.
    reflexivity.
  - rewrite Z.ones_spec_high, Z.shiftl_spec, Z.shiftr_spec by lia.
    rewrite andb_false_r, xorb_false_l. f_equal. lia.
Qed.

(** One table look-up does the work of eight shifts. *)
Lemma crc_table_step (c b : Z) :
  0 <= c -> 0 <= b < 256 ->
  Z.lxor (elt crc32_table (Z.to_nat (Z.land (Z.lxor c b) 0xff))) (Z.shiftr c 8)
  = crc_shifts 8 (Z.lxor c b).
Proof.
  intros Hc Hb.
  assert (Hlo : 0 <= Z.land (Z.lxor c b) 0xff < 256).
  { rewrite Z.land_comm. change 256 with (2 ^ 8). apply land_range; lia. }
  rewrite crc32_table_elt by exact Hlo.
  rewrite (split_low_byte (Z.lxor c b)) at 2. rewrite crc_shifts_lxor. f_equal.
  rewrite (crc_shifts_shiftl 8 _ 0) by lia. rewrite Z.shiftl_0_r, Z.shiftr_lxor.
  rewrite (Z.shiftr_eq_0 b 8); [rewrite Z.lxor_0_r; reflexivity | lia |].
  destruct (Z.eq_dec b 0) as [->|Hne]; [reflexivity|].
  apply Z.log2_lt_pow2; lia.
Qed.

Lemma lxor_range (a b n : Z) :
  0 <= n -> 0 <= a < 2 ^ n -> 0 <= b < 2 ^ n -> 0 <= Z.lxor a b < 2 ^ n.
Proof.
  intros Hn Ha Hb. split; [apply Z.lxor_nonneg; lia|].
  apply below_pow2_bits; [lia | apply Z.lxor_nonneg; lia|].
  intros i Hi. rewrite Z.lxor_spec.
  assert (2 ^ n <= 2 ^ i) by (apply Z.pow_le_mono_r; lia).
  rewrite !testbit_above by lia. reflexivity.
Qed.

Lemma crc_shift_range (c : Z) : 0 <= c < 2 ^ 32 -> 0 <= crc_shift c < 2 ^ 32.
Proof.
  intros Hc.
  assert (Hs : 0 <= Z.shiftr c 1 < 2 ^ 32).
  { rewrite Z.shiftr_div_pow2 by lia. change (2 ^ 1) with 2.
    split; [apply Z.div_pos; lia | apply Z.div_lt_upper_bound; lia]. }
  unfold crc_shift. destruct (negb _); [|exact Hs].
  apply lxor_range; [lia | lia | exact Hs].
Qed.

Lemma crc_shifts_range (k : nat) (c : Z) : 0 <= c < 2 ^ 32 -> 0 <= crc_shifts k c < 2 ^ 32.
Proof.
  revert c. induction k as [|k IH]; intros c Hc; [exact Hc|].
  cbn [crc_shifts]. apply IH, crc_shift_range, Hc.
Qed.

Lemma crc_serial_range (buf : list Z) :
  forall c, 0 <= c < 2 ^ 32 -> Forall is_byte buf -> 0 <= crc_serial c buf < 2 ^ 32.
Proof.
  unfold crc_serial. induction buf as [|b buf IH]; intros c Hc Hb; [exact Hc|].
  apply Forall_cons in Hb as [Hb0 Hb]. unfold is_byte in Hb0. cbn [foldl].
  apply IH; [|exact Hb]. apply crc_shifts_range, lxor_range; lia.
Qed.

Lemma update_crc_loop_serial (buf : list Z) :
  forall c, 0 <= c < 2 ^ 32 -> Forall is_byte buf ->
  update_crc_loop crc32_table c buf = crc_serial c buf.
Proof.
  unfold crc_serial.
  induction buf as [|b buf IH]; intros c Hc Hb; [reflexivity|].
  apply Forall_cons in Hb as [Hb0 Hb]. unfold is_byte in Hb0.
  cbn [update_crc_loop foldl]. rewrite crc_table_step by lia.
  apply IH; [|exact Hb]. apply crc_shifts_range, lxor_range; lia.
Qed.

(** What a call of [update_crc] leaves in the statics. *)
Lemma update_crc_state (crc : Z) (buf : list Z) (st : crc_state) :
  crc_state_wf st -> snd (update_crc crc buf st) = mkCrc crc32_table true.
Proof.
  intros [Hl Ht]. unfold update_crc. cbn [snd].
  destruct st as [t [|]]; cbn [negb crc_table_computed crc_table] in *.
  - rewrite Ht by reflexivity. reflexivity.
  - unfold make_crc_table. cbn [crc_table]. rewrite make_crc_table_full by exact Hl.
    reflexivity.
Qed.

Lemma update_crc_value (crc : Z) (buf : list Z) (st : crc_state) :
  crc_state_wf st -> fst (update_crc crc buf st) = update_crc_loop crc32_table crc buf.
Proof.
  intros Hwf. pose proof (update_crc_state crc buf st Hwf) as Hs.
  unfold update_crc in *. cbn [fst snd] in *. rewrite Hs. reflexivity.
Qed.

Lemma crc_state_wf_table : crc_state_wf (mkCrc crc32_table true).
Proof. split; [reflexivity | intros _; reflexivity]. Qed.

(** X20: [update_crc] computes the bit-serial CRC with the reflected
    polynomial 0xedb88320, eight shifts per byte, whether or not the table
    had been made before the call; afterwards the table holds, for every
    byte, the result of eight shifts of that byte, and is marked as
    computed.  [fcs] is that CRC started from all ones and complemented. *)
Theorem X20_update_crc_serial (crc : Z) (buf : list Z) (st : crc_state) :
  crc_state_wf st -> 0 <= crc < 2 ^ 32 -> Forall is_byte buf ->
  fst (update_crc crc buf st) = crc_serial crc buf /\
  fst (fcs buf st) = Z.lxor (crc_serial 0xffffffff buf) 0xffffffff /\
  snd (update_crc crc buf st) = snd (fcs buf st) /\
  crc_table_computed (snd (update_crc crc buf st)) = true /\
  (forall n, 0 <= n < 256 ->
     elt (crc_table (snd (update_crc crc buf st))) (Z.to_nat n) = crc_shifts 8 n) /\
  crc_state_wf (snd (update_crc crc buf st)).
Proof.
  intros Hwf Hc Hb.
  assert (Hf : fcs buf st = (Z.lxor (fst (update_crc 0xffffffff buf st)) 0xffffffff,
                             snd (update_crc 0xffffffff buf st))).
  { unfold fcs. destruct (update_crc 0xffffffff buf st). reflexivity. }
  rewrite Hf. cbn [fst snd]. rewrite !update_crc_state, !update_crc_value by exact Hwf.
  rewrite !update_crc_loop_serial by (assumption || lia).
  split; [reflexivity|]. split; [reflexivity|]. split; [reflexivity|].
  split; [reflexivity|]. split; [|exact crc_state_wf_table].
  intros n Hn. apply crc32_table_elt. exact Hn.
Qed.

Lemma crc_state_wf_init : crc_state_wf crc_state_init.
Proof. split; [reflexivity | discriminate]. Qed.

(** The digits "123456789". *)
Definition crc_check_input : list Z := [0x31; 0x32; 0x33; 0x34; 0x35; 0x36; 0x37; 0x38; 0x39].

Lemma X20_witness :
  fst (fcs crc_check_input crc_state_init) = 0xCBF43926 /\
  crc_table_computed (snd (update_crc 0 crc_check_input crc_state_init)) = true.
Proof.
  destruct (X20_update_crc_serial 0 crc_check_input crc_state_init)
    as (_ & H & _ & Ht & _).
  - exact crc_state_wf_init.
  - lia.
  - repeat (apply Forall_cons; split; [unfold is_byte; lia|]). apply Forall_nil_2.
  - split; [|exact Ht]. rewrite H. vm_compute. reflexivity.
Defined.

Lemma update_crc_loop_app (table : list Z) (a b : list Z) :
  forall c, update_crc_loop table c (a ++ b) = update_crc_loop table (update_crc_loop table c a) b.
Proof. induction a as [|x a IH]; intros c; [reflexivity|]. cbn. apply IH. Qed.

(** X21: the CRC can be computed in pieces.  Running [update_crc] over a
    buffer and then, from the value returned, over a second buffer gives the
    value and the statics of one run over both; the running value stays
    within 32 bits; and the FCS of both buffers is obtained from the FCS of
    the first by complementing it, continuing over the second and
    complementing again. *)
Theorem X21_update_crc_streaming (crc : Z) (a b : list Z) (st : crc_state) :
  crc_state_wf st -> 0 <= crc < 2 ^ 32 -> Forall is_byte a -> Forall is_byte b ->
  let r1 := update_crc crc a st in
  let r2 := update_crc (fst r1) b (snd r1) in
  update_crc crc (a ++ b) st = r2 /\
  0 <= fst r2 < 2 ^ 32 /\
  fcs (a ++ b) st =
    (Z.lxor (fst (update_crc (Z.lxor (fst (fcs a st)) 0xffffffff) b (snd (fcs a st))))
            0xffffffff,
     snd r2).
Proof.
  intros Hwf Hc Ha Hb r1 r2.
  assert (Hs1 : snd r1 = mkCrc crc32_table true) by (apply update_crc_state; exact Hwf).
  assert (Hv1 : fst r1 = update_crc_loop crc32_table crc a)
    by (apply update_crc_value; exact Hwf).
  assert (Hall : forall c buf st0, crc_state_wf st0 ->
            update_crc c buf st0 =
            (update_crc_loop crc32_table c buf, mkCrc crc32_table true)).
  { intros c buf st0 H0. rewrite (surjective_pairing (update_crc c buf st0)).
    rewrite update_crc_state, update_crc_value by exact H0. reflexivity. }
  assert (Hr2 : r2 = (update_crc_loop crc32_table crc (a ++ b), mkCrc crc32_table true)).
  { unfold r2. rewrite Hs1, Hv1, Hall by exact crc_state_wf_table.
    rewrite update_crc_loop_app. reflexivity. }
  split; [rewrite Hr2; apply Hall; exact Hwf|]. split.
  { rewrite Hr2. cbn [fst]. rewrite update_crc_loop_serial.
    - apply crc_serial_range; [exact Hc | apply Forall_app_2; assumption].
    - exact Hc.
    - apply Forall_app_2; assumption. }
  rewrite Hr2. cbn [snd]. unfold fcs. rewrite !(Hall _ _ st) by exact Hwf. cbn [fst snd].
  rewrite Hall by exact crc_state_wf_table. cbn [fst].
  rewrite Z.lxor_assoc, Z.lxor_nilpotent, Z.lxor_0_r, update_crc_loop_app. reflexivity.
Qed.

Lemma X21_witness :
  let r1 := update_crc 0xffffffff [0x31; 0x32; 0x33; 0x34] crc_state_init in
  update_crc 0xffffffff crc_check_input crc_state_init =
  update_crc (fst r1) [0x35; 0x36; 0x37; 0x38; 0x39] (snd r1).
Proof.
  intros r1.
  apply (X21_update_crc_streaming 0xffffffff [0x31; 0x32; 0x33; 0x34]
           [0x35; 0x36; 0x37; 0x38; 0x39] crc_state_init).
  - exact crc_state_wf_init.
  - lia.
  - repeat (apply Forall_cons; split; [unfold is_byte; lia|]). apply Forall_nil_2.
  - repeat (apply Forall_cons; split; [unfold is_byte; lia|]). apply Forall_nil_2.
Defined.

(** ** The memory-mapped bus *)

(** Array sizes of the banks of [board]. *)
Record board_wf (b : board) : Prop := {
  wf_core : av_wf (av (core b));
  wf_adsl : length (adsl b) = Z.to_nat 0x8000;
  wf_bbif : length (bbif b) = 1%nat;
  wf_atmsar : length (atmsar b) = Z.to_nat 0x2400;
  wf_usbslave : length (usbslave b) = Z.to_nat 0x800;
  wf_vlynq0mem : length (vlynq0mem b) = Z.to_nat 0x10800;
  wf_emif : length (emif b) = 0x40%nat;
  wf_gpio : length (gpio b) = 8%nat;
  wf_clock_control : length (clock_control b) = 0x40%nat;
  wf_timer0 : length (timer0 b) = 2%nat;
  wf_usb : length (usb b) = 20%nat;
  wf_reset_control : length (reset_control b) = 3%nat;
  wf_device_config_latch : length (device_config_latch b) = 5%nat;
  wf_wdt : length (wdt b) = 8%nat
}.

Lemma board_wf_init : board_wf board_init.
Proof.
  split; try reflexivity; try apply length_replicate. exact av_wf_init.
Qed.

Lemma land_3_mod (a : Z) : Z.land a 3 = a mod 4.
Proof. change 3 with (Z.ones 2). rewrite Z.land_ones by lia. reflexivity. Qed.

Lemma land_lnot_3 (a : Z) : Z.land a (Z.lnot 3) = 4 * (a / 4).
Proof.
  change (Z.lnot 3) with (Z.lnot (Z.ones 2)). rewrite <- Z.ldiff_land, Z.ldiff_ones_r by lia.
  rewrite Z.shiftl_mul_pow2, Z.shiftr_div_pow2 by lia. change (2 ^ 2) with 4. lia.
Qed.

(** Linear arithmetic with division and remainder by constants. *)
Ltac dlia := zify; Z.div_mod_to_equations; lia.

Ltac bus_consts :=
  unfold INRANGE, UART_MEM_TO_IO,
    AVALANCHE_ADSLSSYS_MEM_BASE, AVALANCHE_BBIF_BASE, AVALANCHE_ATM_SAR_BASE,
    AVALANCHE_USB_MEM_BASE, AVALANCHE_VLYNQ0_MEM_MAP_BASE, AVALANCHE_CPMAC0_BASE,
    AVALANCHE_EMIF_BASE, AVALANCHE_GPIO_BASE, AVALANCHE_CLOCK_BASE,
    AVALANCHE_WATCHDOG_BASE, AVALANCHE_TIMER0_BASE, AVALANCHE_TIMER1_BASE,
    AVALANCHE_UART0_BASE, AVALANCHE_UART1_BASE, AVALANCHE_USB_SLAVE_BASE,
    AVALANCHE_RESET_BASE, AVALANCHE_VLYNQ0_BASE, AVALANCHE_DCL_BASE,
    AVALANCHE_VLYNQ1_BASE, AVALANCHE_MDIO_BASE, OHIO_WDT_BASE, AVALANCHE_INTC_BASE,
    AVALANCHE_CPMAC1_BASE,
    sizeof_adsl, sizeof_bbif, sizeof_atmsar, sizeof_usbslave, sizeof_vlynq0mem,
    sizeof_cpmac, sizeof_emif, sizeof_gpio, sizeof_clock_control, sizeof_watchdog,
    sizeof_timer0, sizeof_uart, sizeof_usb, sizeof_reset_control, sizeof_vlynq,
    sizeof_device_config_latch, sizeof_mdio, sizeof_wdt, sizeof_intc in *.

(** Decide the windows of the if-chain for an address whose range is known. *)
Ltac decode :=
  repeat match goal with
  | |- context [(?a <=? ?x) && (?x <? ?b)] =>
    first [ replace ((a <=? x) && (x <? b)) with false by dlia
          | replace ((a <=? x) && (x <? b)) with true by dlia ];
    cbv iota
  end.

(** Enter [ar7_io_memread] or [ar7_io_memwrite] at an aligned address. *)
Ltac enter H :=
  unfold io_writel, io_readl, ar7_io_memwrite, ar7_io_memread;
  rewrite H, Z.eqb_refl; cbn [assert]; rewrite bind_done.

(** The banks that both directions treat as plain arrays of words. *)
Inductive plain_bank : Type :=
| Adsl | Bbif | Atmsar | Vlynq0mem | Emif | Gpio | Clock | Timer0 | Usb | Dcl | Wdt.

#[global] Instance plain_bank_eq_dec : EqDecision plain_bank.
Proof. solve_decision. Defined.

Definition bank_base (k : plain_bank) : Z :=
  match k with
  | Adsl => AVALANCHE_ADSLSSYS_MEM_BASE
  | Bbif => AVALANCHE_BBIF_BASE
  | Atmsar => AVALANCHE_ATM_SAR_BASE
  | Vlynq0mem => AVALANCHE_VLYNQ0_MEM_MAP_BASE
  | Emif => AVALANCHE_EMIF_BASE
  | Gpio => AVALANCHE_GPIO_BASE
  | Clock => AVALANCHE_CLOCK_BASE
  | Timer0 => AVALANCHE_TIMER0_BASE
  | Usb => AVALANCHE_USB_SLAVE_BASE
  | Dcl => AVALANCHE_DCL_BASE
  | Wdt => OHIO_WDT_BASE
  end.

Definition bank_size (k : plain_bank) : Z :=
  match k with
  | Adsl => sizeof_adsl
  | Bbif => sizeof_bbif
  | Atmsar => sizeof_atmsar
  | Vlynq0mem => sizeof_vlynq0mem
  | Emif => sizeof_emif
  | Gpio => sizeof_gpio
  | Clock => sizeof_clock_control
  | Timer0 => sizeof_timer0
  | Usb => sizeof_usb
  | Dcl => sizeof_device_config_latch
  | Wdt => sizeof_wdt
  end.

Definition bank_of (k : plain_bank) (b : board) : list Z :=
  match k with
  | Adsl => adsl b
  | Bbif => bbif b
  | Atmsar => atmsar b
  | Vlynq0mem => vlynq0mem b
  | Emif => emif b
  | Gpio => gpio b
  | Clock => clock_control b
  | Timer0 => timer0 b
  | Usb => usb b
  | Dcl => device_config_latch b
  | Wdt => wdt b
  end.

Definition put_bank (k : plain_bank) (x : list Z) (b : board) : board :=
  match k with
  | Adsl => with_adsl x b
  | Bbif => with_bbif x b
  | Atmsar => with_atmsar x b
  | Vlynq0mem => with_vlynq0mem x b
  | Emif => with_emif x b
  | Gpio => with_gpio x b
  | Clock => with_clock_control x b
  | Timer0 => with_timer0 x b
  | Usb => with_usb x b
  | Dcl => with_device_config_latch x b
  | Wdt => with_wdt x b
  end.

(** The address of the PCI device id within the VLYNQ0 memory window. *)
Definition pci_id_addr : Z := 0x04041000.

(** The addresses of the four PLL status words of the clock bank. *)
Definition pll_status (addr : Z) : bool :=
  (addr =? AVALANCHE_CLOCK_BASE + 4 * 0x0c) || (addr =? AVALANCHE_CLOCK_BASE + 4 * 0x14) ||
  (addr =? AVALANCHE_CLOCK_BASE + 4 * 0x1c) || (addr =? AVALANCHE_CLOCK_BASE + 4 * 0x24).

(** What a read makes of the stored word [v] of a plain bank. *)
Definition plain_read (addr v : Z) : Z :=
  if addr =? pci_id_addr then 0x9066104c
  else if pll_status addr then (if v =? 4 then Z.land v (Z.lnot 1) else Z.lor v 1)
  else v.

Definition in_bank (k : plain_bank) (addr : Z) : Prop :=
  Z.land addr 3 = 0 /\ bank_base k <= addr < bank_base k + bank_size k.

Lemma bank_index (k : plain_bank) (addr : Z) (b : board) :
  board_wf b -> in_bank k addr -> (VALUE (bank_base k) addr < length (bank_of k b))%nat.
Proof.
  intros Hwf [Hal Hin]. rewrite land_3_mod in Hal. unfold VALUE.
  destruct k; cbn [bank_base bank_size bank_of] in *;
    [rewrite (wf_adsl _ Hwf) | rewrite (wf_bbif _ Hwf) | rewrite (wf_atmsar _ Hwf)
     | rewrite (wf_vlynq0mem _ Hwf) | rewrite (wf_emif _ Hwf) | rewrite (wf_gpio _ Hwf)
     | rewrite (wf_clock_control _ Hwf) | rewrite (wf_timer0 _ Hwf) | rewrite (wf_usb _ Hwf)
     | rewrite (wf_device_config_latch _ Hwf) | rewrite (wf_wdt _ Hwf)];
    bus_consts; dlia.
Qed.

Lemma bank_of_put (k k' : plain_bank) (x : list Z) (b : board) :
  bank_of k' (put_bank k x b) = if decide (k' = k) then x else bank_of k' b.
Proof. destruct k, k'; reflexivity. Qed.

Lemma memwrite_plain (fuel : nat) (k : plain_bank) (addr val : Z) (b : board) :
  in_bank k addr ->
  ar7_io_memwrite fuel addr val b =
  Done (put_bank k (<[VALUE (bank_base k) addr := val]> (bank_of k b)) b).
Proof.
  intros [Hal Hin]. enter Hal. rewrite land_3_mod in Hal.
  destruct k; cbn [bank_base bank_size bank_of put_bank] in *; bus_consts; decode; reflexivity.
Qed.

Lemma memread_plain (cpu_inb : Z -> Z) (k : plain_bank) (addr : Z) (b : board) :
  in_bank k addr ->
  ar7_io_memread cpu_inb addr b =
  Done (plain_read addr (elt (bank_of k b) (VALUE (bank_base k) addr)), b).
Proof.
  intros [Hal Hin]. enter Hal. rewrite land_3_mod in Hal.
  unfold plain_read, pll_status, pci_id_addr.
  destruct k; cbn [bank_base bank_size bank_of] in *; bus_consts; decode.
  all: try (replace (addr =? 67375104) with false by dlia; cbv iota).
  all: try (replace ((addr =? 140577280 + 4 * 12) || (addr =? 140577280 + 4 * 20) ||
                     (addr =? 140577280 + 4 * 28) || (addr =? 140577280 + 4 * 36))
              with false by dlia; cbv iota).
  all: try reflexivity.
  (* clock *)
    unfold VALUE.
    replace ((Z.to_nat ((addr - 140577280) / 4) =? 12)%nat) with (addr =? 140577280 + 4 * 12) by dlia.
    replace ((Z.to_nat ((addr - 140577280) / 4) =? 20)%nat) with (addr =? 140577280 + 4 * 20) by dlia.
    replace ((Z.to_nat ((addr - 140577280) / 4) =? 28)%nat) with (addr =? 140577280 + 4 * 28) by dlia.
    replace ((Z.to_nat ((addr - 140577280) / 4) =? 36)%nat) with (addr =? 140577280 + 4 * 36) by dlia.
    destruct (_ || _); [|reflexivity]. destruct (_ =? 4); reflexivity.
Qed.

Lemma board_wf_put_bank (k : plain_bank) (i : nat) (v : Z) (b : board) :
  board_wf b -> board_wf (put_bank k (<[i := v]> (bank_of k b)) b).
Proof.
  intros H. destruct k; split; cbn; rewrite ?length_insert; apply H.
Qed.

(** X22: a 32-bit store to a word of one of the plain banks (ADSL, BBIF,
    ATM SAR, VLYNQ0 memory, EMIF, GPIO, clock control, timer 0, USB slave,
    device config latch, OHIO WDT) returns, touches neither the devices nor
    the I/O ports, and a following load from the same address returns the
    value stored, except that the PCI id word 0x04041000 always reads
    0x9066104c and a PLL status word of the clock bank reads with bit 0
    set unless the value stored is 4.  A load from any other word of these
    banks returns what it returned before the store. *)
Theorem X22_plain_bank_store_read (cpu_inb : Z -> Z) (fuel : nat) (k : plain_bank)
        (addr val : Z) (b : board) :
  board_wf b -> in_bank k addr ->
  exists b',
    io_writel fuel addr val b = Done b' /\
    board_wf b' /\
    core b' = core b /\ ports b' = ports b /\ reset_requests b' = reset_requests b /\
    io_readl cpu_inb addr b' = Done (plain_read addr val, b') /\
    (addr <> pci_id_addr -> pll_status addr = false -> plain_read addr val = val) /\
    (addr = pci_id_addr -> plain_read addr val = 0x9066104c) /\
    (pll_status addr = true -> plain_read addr val = if val =? 4 then 4 else Z.lor val 1) /\
    forall k' addr' v, in_bank k' addr' -> addr' <> addr ->
      io_readl cpu_inb addr' b = Done (v, b) -> io_readl cpu_inb addr' b' = Done (v, b').
Proof.
  intros Hwf Hin. pose proof (bank_index k addr b Hwf Hin) as Hidx.
  set (idx := VALUE (bank_base k) addr) in *.
  exists (put_bank k (<[idx := val]> (bank_of k b)) b).
  split; [apply memwrite_plain; exact Hin|].
  split; [apply board_wf_put_bank; exact Hwf|].
  split; [destruct k; reflexivity|]. split; [destruct k; reflexivity|].
  split; [destruct k; reflexivity|]. split.
  { unfold io_readl. rewrite (memread_plain cpu_inb k) by exact Hin. fold idx.
    rewrite bank_of_put, decide_True by reflexivity.
    unfold elt. rewrite list_lookup_insert_eq by exact Hidx. reflexivity. }
  split.
  { intros Hp Hs. unfold plain_read. rewrite Hs.
    replace (addr =? pci_id_addr) with false by lia. reflexivity. }
  split.
  { intros ->. reflexivity. }
  split.
  { intros Hs. unfold plain_read. rewrite Hs.
    assert (Hne : (addr =? pci_id_addr) = false).
    { unfold pll_status, pci_id_addr in *. bus_consts. lia. }
    rewrite Hne. destruct (Z.eqb_spec val 4) as [->|]; reflexivity. }
  intros k' addr' v Hin' Hne. unfold io_readl.
  rewrite !(memread_plain cpu_inb k') by exact Hin'. intros Hv.
  injection Hv as <-. f_equal. f_equal. f_equal.
  rewrite bank_of_put. destruct (decide (k' = k)) as [->|]; [|reflexivity].
  unfold elt. rewrite list_lookup_insert_ne; [reflexivity|].
  destruct Hin as [Hal [Hlo _]], Hin' as [Hal' [Hlo' _]]. rewrite land_3_mod in Hal, Hal'.
  unfold idx, VALUE. dlia.
Qed.

Lemma X22_witness :
  exists b',
    io_writel 0 0x08610a30 6 board_init = Done b' /\
    io_readl (fun _ => 0) 0x08610a30 b' = Done (7, b') /\
    io_readl (fun _ => 0) 0x08610900 b' = Done (0x800, b').
Proof.
  destruct (X22_plain_bank_store_read (fun _ => 0) 0 Clock 0x08610a30 6 board_init)
    as (b' & H & _ & _ & _ & _ & Hr & _ & _ & Hpll & Hfr).
  - exact board_wf_init.
  - split; [reflexivity | vm_compute; split; congruence].
  - exists b'. split; [exact H|]. split.
    + rewrite Hr, Hpll by reflexivity. reflexivity.
    + apply (Hfr Gpio); [split; [reflexivity | vm_compute; split; congruence] | lia|].
      unfold io_readl. rewrite (memread_plain _ Gpio)
        by (split; [reflexivity | vm_compute; split; congruence]).
      reflexivity.
Defined.

(** X23: the USB memory window does not keep what is stored: whatever the
    value, a 32-bit store to one of its words returns and leaves 0xffffffff
    there, which is what a following load returns; the other banks, the
    devices and the I/O ports are untouched. *)
Theorem X23_usb_memory_store (cpu_inb : Z -> Z) (fuel : nat) (addr val : Z) (b : board) :
  board_wf b -> Z.land addr 3 = 0 ->
  AVALANCHE_USB_MEM_BASE <= addr < AVALANCHE_USB_MEM_BASE + sizeof_usbslave ->
  exists b',
    io_writel fuel addr val b = Done b' /\
    io_readl cpu_inb addr b' = Done (0xffffffff, b') /\
    core b' = core b /\ ports b' = ports b /\ reset_requests b' = reset_requests b /\
    forall k, bank_of k b' = bank_of k b.
Proof.
  intros Hwf Hal Hin.
  exists (with_usbslave (<[VALUE AVALANCHE_USB_MEM_BASE addr := 0xffffffff]> (usbslave b)) b).
  assert (Hidx : (VALUE AVALANCHE_USB_MEM_BASE addr < length (usbslave b))%nat).
  { rewrite (wf_usbslave _ Hwf). rewrite land_3_mod in Hal. unfold VALUE. bus_consts. dlia. }
  split; [|split].
  - enter Hal. rewrite land_3_mod in Hal. bus_consts. decode. reflexivity.
  - enter Hal. cbn [usbslave with_usbslave]. unfold elt.
    rewrite list_lookup_insert_eq by exact Hidx.
    rewrite land_3_mod in Hal. bus_consts. decode. reflexivity.
  - repeat split.
Qed.

Lemma X23_witness :
  exists b',
    io_writel 0 0x03400010 0x1234 board_init = Done b' /\
    io_readl (fun _ => 0) 0x03400010 b' = Done (0xffffffff, b').
Proof.
  destruct (X23_usb_memory_store (fun _ => 0) 0 0x03400010 0x1234 board_init)
    as (b' & H & Hr & _).
  - exact board_wf_init.
  - reflexivity.
  - vm_compute. split; congruence.
  - exists b'. split; [exact H | exact Hr].
Defined.

(** The address windows the bus functions decode, in the order of the
    if-chain: base and size in bytes. *)
Definition bus_windows : list (Z * Z) :=
  [ (AVALANCHE_ADSLSSYS_MEM_BASE, sizeof_adsl); (AVALANCHE_BBIF_BASE, sizeof_bbif);
    (AVALANCHE_ATM_SAR_BASE, sizeof_atmsar); (AVALANCHE_USB_MEM_BASE, sizeof_usbslave);
    (AVALANCHE_VLYNQ0_MEM_MAP_BASE, sizeof_vlynq0mem); (AVALANCHE_CPMAC0_BASE, sizeof_cpmac);
    (AVALANCHE_EMIF_BASE, sizeof_emif); (AVALANCHE_GPIO_BASE, sizeof_gpio);
    (AVALANCHE_CLOCK_BASE, sizeof_clock_control); (AVALANCHE_WATCHDOG_BASE, sizeof_watchdog);
    (AVALANCHE_TIMER0_BASE, sizeof_timer0); (AVALANCHE_UART0_BASE, sizeof_uart);
    (AVALANCHE_UART1_BASE, sizeof_uart); (AVALANCHE_USB_SLAVE_BASE, sizeof_usb);
    (AVALANCHE_RESET_BASE, sizeof_reset_control);
    (AVALANCHE_DCL_BASE, sizeof_device_config_latch); (AVALANCHE_VLYNQ0_BASE, sizeof_vlynq);
    (AVALANCHE_VLYNQ1_BASE, sizeof_vlynq); (AVALANCHE_MDIO_BASE, sizeof_mdio);
    (OHIO_WDT_BASE, sizeof_wdt); (AVALANCHE_INTC_BASE, sizeof_intc);
    (AVALANCHE_CPMAC1_BASE, sizeof_cpmac) ].

Definition unmapped (addr : Z) : Prop :=
  Forall (fun w : Z * Z => ~ (fst w <= addr < fst w + snd w)) bus_windows.

(** X24: at an aligned address outside every decoded window (timer 1, I2C,
    MC DMA, BIST, FSER, everything from 0x08613000 on, ...) a 32-bit load
    returns 0xffffffff and a 32-bit store returns without any effect. *)
Theorem X24_unmapped_access (cpu_inb : Z -> Z) (fuel : nat) (addr val : Z) (b : board) :
  Z.land addr 3 = 0 -> unmapped addr ->
  io_readl cpu_inb addr b = Done (0xffffffff, b) /\
  io_writel fuel addr val b = Done b.
Proof.
  intros Hal Hun. unfold unmapped, bus_windows in Hun.
  repeat (apply Forall_cons in Hun as [? Hun]). cbn [fst snd] in *.
  split; enter Hal; bus_consts; decode; reflexivity.
Qed.

Lemma X24_witness :
  io_readl (fun _ => 0) AVALANCHE_TIMER1_BASE board_init = Done (0xffffffff, board_init) /\
  io_writel 0 0x08613000 0x55 board_init = Done board_init.
Proof.
  split.
  - apply (X24_unmapped_access (fun _ => 0) 0 AVALANCHE_TIMER1_BASE 0 board_init);
      [reflexivity|].
    unfold unmapped, bus_windows. bus_consts.
    repeat (apply Forall_cons; split; [cbn [fst snd]; lia|]). apply Forall_nil_2.
  - apply (X24_unmapped_access (fun _ => 0) 0 0x08613000 0x55 board_init);
      [reflexivity|].
    unfold unmapped, bus_windows. bus_consts.
    repeat (apply Forall_cons; split; [cbn [fst snd]; lia|]). apply Forall_nil_2.
Defined.

Lemma aligned_offset (base off : Z) :
  base mod 4 = 0 -> Z.land off 3 = 0 -> Z.land (base + off) 3 = 0.
Proof. rewrite !land_3_mod. intros Hb Ho. dlia. Qed.

(** Enter a bus function at [base + off] for an aligned offset. *)
Ltac enter_at Hal :=
  unfold io_writel, io_readl, ar7_io_memwrite, ar7_io_memread;
  rewrite aligned_offset by first [exact Hal | reflexivity];
  rewrite Z.eqb_refl; cbn [assert]; rewrite bind_done.

(** X25: a 32-bit store into the window of a device reaches the handler of
    that device with the offset into the window, and nothing else: CPMAC0
    and CPMAC1 ([ar7_cpmac_write] with index 0 and 1), VLYNQ0 and VLYNQ1
    ([ar7_vlynq_write]), the watchdog ([ar7_wdt_write]), MDIO
    ([ar7_mdio_write] with the word index) and the interrupt controller
    ([ar7_intc_write] with the word index).  No window of the if-chain
    shadows another. *)
Theorem X25_bus_store_handlers (fuel : nat) (off val : Z) (b : board) :
  Z.land off 3 = 0 -> 0 <= off ->
  (off < sizeof_cpmac ->
   io_writel fuel (AVALANCHE_CPMAC0_BASE + off) val b =
     (m ← ar7_cpmac_write fuel 0 off val (core b); mret (with_core m b)) /\
   io_writel fuel (AVALANCHE_CPMAC1_BASE + off) val b =
     (m ← ar7_cpmac_write fuel 1 off val (core b); mret (with_core m b))) /\
  (off < sizeof_vlynq ->
   io_writel fuel (AVALANCHE_VLYNQ0_BASE + off) val b =
     (m ← ar7_vlynq_write 0 off val (core b); mret (with_core m b)) /\
   io_writel fuel (AVALANCHE_VLYNQ1_BASE + off) val b =
     (m ← ar7_vlynq_write 1 off val (core b); mret (with_core m b))) /\
  (off < sizeof_watchdog ->
   io_writel fuel (AVALANCHE_WATCHDOG_BASE + off) val b =
     Done (with_core (ar7_wdt_write off val (core b)) b)) /\
  (off < sizeof_mdio ->
   io_writel fuel (AVALANCHE_MDIO_BASE + off) val b =
     Done (with_core (ar7_mdio_write (Z.to_nat (off / 4)) val (core b)) b)) /\
  (off < sizeof_intc ->
   io_writel fuel (AVALANCHE_INTC_BASE + off) val b =
     Done (with_core (ar7_intc_write (Z.to_nat (off / 4)) val (core b)) b)).
Proof.
  intros Hal H0. pose proof Hal as Hm. rewrite land_3_mod in Hm.
  repeat split; intros; enter_at Hal; unfold VALUE; bus_consts; decode;
    match goal with
    | |- context [?base + off - ?base] => replace (base + off - base) with off by lia
    end; reflexivity.
Qed.

Lemma X25_witness :
  io_writel 0 0x086101d4 0x11223344 board_init =
    (m ← ar7_cpmac_write 0 0 CPMAC_MACADDRHI 0x11223344 machine_init;
     mret (with_core m board_init)) /\
  io_writel 0 0x08612420 0x80000 board_init =
    Done (with_core (ar7_intc_write 8 0x80000 machine_init) board_init).
Proof.
  split.
  - destruct (X25_bus_store_handlers 0 CPMAC_MACADDRHI 0x11223344 board_init)
      as ((H & _) & _); [reflexivity | unfold CPMAC_MACADDRHI; lia | |exact H].
    unfold CPMAC_MACADDRHI, sizeof_cpmac. lia.
  - destruct (X25_bus_store_handlers 0 0x20 0x80000 board_init)
      as (_ & _ & _ & _ & H); [reflexivity | lia|].
    apply H. unfold sizeof_intc. lia.
Defined.

(** X26: a 32-bit load from the window of a device returns what the read
    handler of that device returns for the offset into the window:
    [ar7_cpmac_read] (whose clearing of MAC_IN_VECTOR is kept),
    [ar7_vlynq_read], the stored watchdog word, [ar7_mdio_read] and
    [ar7_intc_read]; no I/O port is accessed. *)
Theorem X26_bus_load_handlers (cpu_inb : Z -> Z) (off : Z) (b : board) :
  Z.land off 3 = 0 -> 0 <= off ->
  (off < sizeof_cpmac ->
   io_readl cpu_inb (AVALANCHE_CPMAC0_BASE + off) b =
     ('(v, m) ← ar7_cpmac_read 0 off (core b); mret (v, with_core m b)) /\
   io_readl cpu_inb (AVALANCHE_CPMAC1_BASE + off) b =
     ('(v, m) ← ar7_cpmac_read 1 off (core b); mret (v, with_core m b))) /\
  (off < sizeof_vlynq ->
   io_readl cpu_inb (AVALANCHE_VLYNQ0_BASE + off) b =
     Done (ar7_vlynq_read (vlynq_of 0 (core b)) off, b) /\
   io_readl cpu_inb (AVALANCHE_VLYNQ1_BASE + off) b =
     Done (ar7_vlynq_read (vlynq_of 1 (core b)) off, b)) /\
  (off < sizeof_watchdog ->
   io_readl cpu_inb (AVALANCHE_WATCHDOG_BASE + off) b = Done (wdt_read off (core b), b)) /\
  (off < sizeof_mdio ->
   io_readl cpu_inb (AVALANCHE_MDIO_BASE + off) b =
     Done (fst (ar7_mdio_read (Z.to_nat (off / 4)) (core b)),
           with_core (snd (ar7_mdio_read (Z.to_nat (off / 4)) (core b))) b)) /\
  (off < sizeof_intc ->
   io_readl cpu_inb (AVALANCHE_INTC_BASE + off) b =
     Done (ar7_intc_read (intc (av (core b))) (Z.to_nat (off / 4)), b)).
Proof.
  intros Hal H0. pose proof Hal as Hm. rewrite land_3_mod in Hm.
  repeat split; intros; enter_at Hal; unfold VALUE, wdt_read; bus_consts; decode;
    match goal with
    | |- context [?base + off - ?base] => replace (base + off - base) with off by lia
    end; try reflexivity.
  destruct (ar7_mdio_read _ _). reflexivity.
Qed.

Lemma X26_witness :
  io_readl (fun _ => 0) 0x08611800 board_init = Done (0x00010206, board_init) /\
  io_readl (fun _ => 0) 0x08611e00 board_init = Done (0x00070101, board_init).
Proof.
  split.
  - destruct (X26_bus_load_handlers (fun _ => 0) 0 board_init) as (_ & H & _);
      [reflexivity | lia|].
    destruct H as [H _]; [unfold sizeof_vlynq; lia|]. exact H.
  - destruct (X26_bus_load_handlers (fun _ => 0) 0 board_init) as (_ & _ & _ & H & _);
      [reflexivity | lia|].
    exact (H ltac:(unfold sizeof_mdio; lia)).
Defined.

(** X27: the eight word addresses of each UART window are I/O ports: a
    32-bit store at UART0 word [i] is a [cpu_outb] of the value on port
    [i], at UART1 word [i] on port [64 + i], and a load is a [cpu_inb] on
    the same port whose answer is returned; no bank and no device
    changes. *)
Theorem X27_uart_ports (cpu_inb : Z -> Z) (fuel : nat) (i val : Z) (b : board) :
  0 <= i < 8 ->
  io_writel fuel (AVALANCHE_UART0_BASE + 4 * i) val b =
    Done (with_ports (ports b ++ [PortOut i val]) b) /\
  io_writel fuel (AVALANCHE_UART1_BASE + 4 * i) val b =
    Done (with_ports (ports b ++ [PortOut (64 + i) val]) b) /\
  io_readl cpu_inb (AVALANCHE_UART0_BASE + 4 * i) b =
    Done (cpu_inb i, with_ports (ports b ++ [PortIn i]) b) /\
  io_readl cpu_inb (AVALANCHE_UART1_BASE + 4 * i) b =
    Done (cpu_inb (64 + i), with_ports (ports b ++ [PortIn (64 + i)]) b).
Proof.
  intros Hi.
  assert (Hal : Z.land (4 * i) 3 = 0) by (rewrite land_3_mod; dlia).
  repeat split; enter_at Hal; bus_consts; decode.
  - replace ((140578304 + 4 * i - 140578304) / 4) with i by dlia. reflexivity.
  - replace ((140578560 + 4 * i - 140578304) / 4) with (64 + i) by dlia. reflexivity.
  - replace ((140578304 + 4 * i - 140578304) / 4) with i by dlia. reflexivity.
  - replace ((140578560 + 4 * i - 140578304) / 4) with (64 + i) by dlia. reflexivity.
Qed.

Lemma X27_witness :
  io_writel 0 0x08610f00 0x41 board_init =
    Done (with_ports [PortOut 64 0x41] board_init) /\
  io_readl (fun p => p + 1) 0x08610e14 board_init =
    Done (6, with_ports [PortIn 5] board_init).
Proof.
  split.
  - apply (X27_uart_ports (fun p => p + 1) 0 0 0x41 board_init). lia.
  - apply (X27_uart_ports (fun p => p + 1) 0 5 0x41 board_init). lia.
Defined.

(** X28: narrow loads see one lane only.  For a word [w] of a plain bank a
    byte load from any of its four byte addresses returns the low byte of
    [w]; a halfword load from the word address returns the upper 16 bits of
    [w], one from the word address plus 2 the lower 16 bits, and one from an
    odd address aborts the emulator. *)
Theorem X28_narrow_loads (cpu_inb : Z -> Z) (k : plain_bank) (addr : Z) (b : board) :
  in_bank k addr ->
  let w := plain_read addr (elt (bank_of k b) (VALUE (bank_base k) addr)) in
  (forall j, 0 <= j < 4 -> io_readb cpu_inb (addr + j) b = Done (Z.land w 0xff, b)) /\
  io_readw cpu_inb addr b = Done (Z.shiftr w 16, b) /\
  io_readw cpu_inb (addr + 2) b = Done (Z.land w 0xffff, b) /\
  io_readw cpu_inb (addr + 1) b = Abort /\
  io_readw cpu_inb (addr + 3) b = Abort.
Proof.
  intros Hin w. pose proof Hin as [Hal _]. rewrite land_3_mod in Hal.
  assert (Hword : forall j, 0 <= j < 4 -> Z.land (addr + j) (Z.lnot 3) = addr)
    by (intros j Hj; rewrite land_lnot_3; dlia).
  assert (Hlane : forall j, 0 <= j < 4 -> Z.land (addr + j) 3 = j)
    by (intros j Hj; rewrite land_3_mod; dlia).
  split; [|repeat split].
  - intros j Hj. unfold io_readb. rewrite (Hword j Hj), (memread_plain cpu_inb k) by exact Hin.
    reflexivity.
  - pose proof (Hword 0 ltac:(lia)) as Hw0. pose proof (Hlane 0 ltac:(lia)) as Hl0.
    rewrite Z.add_0_r in Hw0, Hl0. unfold io_readw.
    rewrite Hw0, Hl0, (memread_plain cpu_inb k) by exact Hin. reflexivity.
  - unfold io_readw.
    rewrite (Hword 2), (Hlane 2), (memread_plain cpu_inb k) by (exact Hin || lia).
    reflexivity.
  - unfold io_readw.
    rewrite (Hword 1), (Hlane 1), (memread_plain cpu_inb k) by (exact Hin || lia).
    reflexivity.
  - unfold io_readw.
    rewrite (Hword 3), (Hlane 3), (memread_plain cpu_inb k) by (exact Hin || lia).
    reflexivity.
Qed.

Lemma X28_witness :
  io_readb (fun _ => 0) 0x08611a03 board_init = Done (0x91, board_init) /\
  io_readw (fun _ => 0) 0x08611a00 board_init = Done (0x025d, board_init) /\
  io_readw (fun _ => 0) 0x08611a02 board_init = Done (0x4291, board_init) /\
  io_readw (fun _ => 0) 0x08611a01 board_init = Abort.
Proof.
  destruct (X28_narrow_loads (fun _ => 0) Dcl 0x08611a00 board_init)
    as (Hb & Hw0 & Hw2 & Hw1 & _).
  - split; [reflexivity | vm_compute; split; congruence].
  - split; [exact (Hb 3 ltac:(lia))|]. split; [exact Hw0|]. split; [exact Hw2 | exact Hw1].
Defined.

(** X29: narrow stores are word stores.  A byte or halfword store to an
    address that is not a multiple of 4 aborts the emulator; at a word
    address it does what the 32-bit store of the same value does, so the
    whole word is replaced. *)
Theorem X29_narrow_stores (fuel : nat) (addr value : Z) (b : board) :
  (Z.land addr 3 <> 0 ->
   io_writeb fuel addr value b = Abort /\ io_writew fuel addr value b = Abort) /\
  (Z.land addr 3 = 0 ->
   io_writeb fuel addr value b = io_writel fuel addr value b /\
   io_writew fuel addr value b = io_writel fuel addr value b).
Proof.
  split.
  - intros Hne.
    assert (Hw : ar7_io_memwrite fuel addr value b = Abort).
    { unfold ar7_io_memwrite. replace (Z.land addr 3 =? 0) with false by lia. reflexivity. }
    split; [|exact Hw]. unfold io_writeb.
    replace (Z.land addr 3 =? 0) with false by lia. exact Hw.
  - intros Hal. split; [|reflexivity]. unfold io_writeb, io_writel.
    rewrite Hal. cbn [Z.eqb negb]. destruct (INRANGE _ _ _); [reflexivity|].
    destruct (INRANGE _ _ _); reflexivity.
Qed.

Lemma X29_witness :
  io_writew 0 0x08610902 0x1234 board_init = Abort /\
  io_writeb 0 0x08610900 0x12 board_init = io_writel 0 0x08610900 0x12 board_init.
Proof.
  destruct (X29_narrow_stores 0 0x08610902 0x1234 board_init) as [H1 _].
  destruct (X29_narrow_stores 0 0x08610900 0x12 board_init) as [_ H2].
  split.
  - apply H1. vm_compute. discriminate.
  - apply H2. reflexivity.
Defined.

(** X30: a 32-bit store to one of the three reset control words is kept
    and read back; the store to the second word (offset 4) in addition
    requests a system reset, once, and the stores to the other two request
    none.  The devices, the I/O ports and the plain banks are untouched. *)
Theorem X30_reset_control (cpu_inb : Z -> Z) (fuel : nat) (i val : Z) (b : board) :
  board_wf b -> 0 <= i < 3 ->
  exists b',
    io_writel fuel (AVALANCHE_RESET_BASE + 4 * i) val b = Done b' /\
    io_readl cpu_inb (AVALANCHE_RESET_BASE + 4 * i) b' = Done (val, b') /\
    reset_requests b' = (if i =? 1 then S (reset_requests b) else reset_requests b) /\
    reset_control b' = <[Z.to_nat i := val]> (reset_control b) /\
    core b' = core b /\ ports b' = ports b /\ forall k, bank_of k b' = bank_of k b.
Proof.
  intros Hwf Hi.
  assert (Hal : Z.land (4 * i) 3 = 0) by (rewrite land_3_mod; dlia).
  set (rc := <[Z.to_nat i := val]> (reset_control b)).
  assert (Hv : elt rc (Z.to_nat i) = val).
  { unfold rc, elt. rewrite list_lookup_insert_eq; [reflexivity|].
    rewrite (wf_reset_control _ Hwf). lia. }
  assert (Hrc : forall x, reset_control (ar7_reset_write (4 * i) val x) = reset_control x).
  { intros x. unfold ar7_reset_write. destruct (_ =? _); [reflexivity|].
    destruct (_ =? _); reflexivity. }
  exists (ar7_reset_write (4 * i) val (with_reset_control rc b)).
  assert (Hcases : i = 0 \/ i = 1 \/ i = 2) by lia.
  split; [|split].
  - enter_at Hal. unfold VALUE. bus_consts. decode.
    replace (140580352 + 4 * i - 140580352) with (4 * i) by lia.
    replace (4 * i / 4) with i by dlia. reflexivity.
  - enter_at Hal. unfold VALUE. bus_consts. decode.
    replace (140580352 + 4 * i - 140580352) with (4 * i) by lia.
    replace (4 * i / 4) with i by dlia.
    rewrite Hrc. cbn [reset_control with_reset_control]. rewrite Hv. reflexivity.
  - destruct Hcases as [->|[->| ->]]; repeat split.
Qed.

Lemma X30_witness :
  exists b',
    io_writel 0 0x08611604 1 board_init = Done b' /\
    io_readl (fun _ => 0) 0x08611604 b' = Done (1, b') /\
    reset_requests b' = 1%nat.
Proof.
  destruct (X30_reset_control (fun _ => 0) 0 1 1 board_init) as (b' & H & Hr & Hq & _).
  - exact board_wf_init.
  - lia.
  - exists b'. split; [exact H|]. split; [exact Hr | exact Hq].
Defined.
